(** * SIRFReg.py: the object-oriented Python wrapper of the SIRF registration engine

    The wrapper (src/Registration/pReg/SIRFReg.py) owns no image data: every
    object is a Python class instance holding an opaque [handle] into the
    native engine (module [pysirfreg]) and a [name] string.  Every method
    marshals its arguments into one or more native calls, checks the status
    of the returned handle and wraps returned handles into new objects.

    The embedding follows that structure:
    - Python objects are records (class, name, handle);
    - the native modules [pyiutilities] and [pysirfreg] are interfaces
      (type classes over an abstract engine state [W]);
    - wrapper methods are written in a state-and-exception monad over [W],
      one definition per Python method, statement by statement. *)

From Stdlib Require Import ZArith List String Ascii Bool Lia.
From Stdlib Require Import Floats.SpecFloat.
From stdpp Require Import gmap strings.
Import ListNotations.

Local Open Scope string_scope.

(** ** Python values *)

(** An opaque engine handle; [None] is Python's [None]. *)
Definition ptr := option nat.

(** A Python float (and the C float it is converted to at the boundary). *)
Definition pyfloat := spec_float.

(** The classes declared in SIRFReg.py whose instances carry a handle. *)
Inductive pyclass :=
| C_Transformation            (* class _Transformation(ABC) *)
| C_NiftiImage                (* class NiftiImage *)
| C_NiftiImage3D              (* class NiftiImage3D(NiftiImage) *)
| C_NiftiImage3DTensor        (* class NiftiImage3DTensor(NiftiImage) *)
| C_NiftiImage3DDisplacement  (* class ...(NiftiImage3DTensor, _Transformation) *)
| C_NiftiImage3DDeformation   (* class ...(NiftiImage3DTensor, _Transformation) *)
| C_NiftyResample             (* class NiftyResample *)
| C_ImageWeightedMean         (* class ImageWeightedMean *)
| C_Mat44.                    (* class Mat44(_Transformation) *)

Definition pyclass_eqb (c d : pyclass) : bool :=
  match c, d with
  | C_Transformation, C_Transformation
  | C_NiftiImage, C_NiftiImage
  | C_NiftiImage3D, C_NiftiImage3D
  | C_NiftiImage3DTensor, C_NiftiImage3DTensor
  | C_NiftiImage3DDisplacement, C_NiftiImage3DDisplacement
  | C_NiftiImage3DDeformation, C_NiftiImage3DDeformation
  | C_NiftyResample, C_NiftyResample
  | C_ImageWeightedMean, C_ImageWeightedMean
  | C_Mat44, C_Mat44 => true
  | _, _ => false
  end.

(** Method resolution order of each class (its [__mro__] without [ABC] and
    [object]), read off the [class] statements. *)
Definition mro (c : pyclass) : list pyclass :=
  match c with
  | C_Transformation => [C_Transformation]
  | C_NiftiImage => [C_NiftiImage]
  | C_NiftiImage3D => [C_NiftiImage3D; C_NiftiImage]
  | C_NiftiImage3DTensor => [C_NiftiImage3DTensor; C_NiftiImage]
  | C_NiftiImage3DDisplacement =>
      [C_NiftiImage3DDisplacement; C_NiftiImage3DTensor; C_NiftiImage; C_Transformation]
  | C_NiftiImage3DDeformation =>
      [C_NiftiImage3DDeformation; C_NiftiImage3DTensor; C_NiftiImage; C_Transformation]
  | C_NiftyResample => [C_NiftyResample]
  | C_ImageWeightedMean => [C_ImageWeightedMean]
  | C_Mat44 => [C_Mat44; C_Transformation]
  end.

(** The value every [__init__] assigns to [self.name]. *)
Definition class_name (c : pyclass) : string :=
  match c with
  | C_Transformation => "SIRFRegTransformation"
  | C_NiftiImage => "NiftiImage"
  | C_NiftiImage3D => "NiftiImage3D"
  | C_NiftiImage3DTensor => "NiftiImage3DTensor"
  | C_NiftiImage3DDisplacement => "NiftiImage3DDisplacement"
  | C_NiftiImage3DDeformation => "NiftiImage3DDeformation"
  | C_NiftyResample => "SIRFRegNiftyResample"
  | C_ImageWeightedMean => "SIRFRegImageWeightedMean"
  | C_Mat44 => "SIRFRegMat44"
  end.

(** An instance: its class and its two attributes [self.name], [self.handle]. *)
Record pyobj := PyObj { cls : pyclass; name : string; handle : ptr }.

Definition isinstance (o : pyobj) (c : pyclass) : bool :=
  existsb (pyclass_eqb c) (mro (cls o)).

(** [all(isinstance(n, c) for n in l)] *)
Definition all_isinstance (l : list pyobj) (c : pyclass) : bool :=
  forallb (fun n => isinstance n c) l.

(** The right operand of [+], [-]: a wrapper object or a number. *)
Inductive operand :=
| OObj (o : pyobj)
| ONum (x : pyfloat).

(** The first argument of [ImageWeightedMean.add_image]. *)
Inductive image_source :=
| SrcObj (o : pyobj)
| SrcStr (filename : string).

(** An argument of a constructor: [None], a string, a wrapper object, a
    [pSTIR.ImageData] (known by its handle), a [numpy.ndarray] (its shape and
    its cells) or a value of any other type. *)
Inductive pyarg :=
| Arg_None
| Arg_str (s : string)
| Arg_obj (o : pyobj)
| Arg_ImageData (h : ptr)
| Arg_ndarray (shape : list Z) (cells : list pyfloat)
| Arg_other.

(** [isinstance(src, c)] on a constructor argument. *)
Definition arg_isinstance (src : pyarg) (c : pyclass) : bool :=
  match src with
  | Arg_obj o => isinstance o c
  | _ => false
  end.

(** [src.handle], read after [isinstance(src, c)] has answered. *)
Definition arg_handle (src : pyarg) : ptr :=
  match src with
  | Arg_obj o => handle o
  | Arg_ImageData h => h
  | _ => None
  end.

(** The argument of [Mat44.fill]: an array or a number. *)
Inductive fill_source :=
| Fill_ndarray (shape : list Z) (cells : list pyfloat)
| Fill_num (x : pyfloat).

(** An instance of a registration class ([NiftyAladinSym], [NiftyF3dSym]):
    its attributes [self.name] and [self.handle]. *)
Record registration := Registration { reg_name : string; reg_handle : ptr }.

(** An argument of the [MessageRedirector] constructor. *)
Inductive destination :=
| Dest_None
| Dest_str (s : string)
| Dest_other.

(** An instance of [MessageRedirector]. *)
Record redirector := Redirector {
  info : ptr; info_case : Z;
  warn : ptr; warn_case : Z;
  errr : ptr; errr_case : Z;
}.

(** ** Exceptions *)

(** The text of an [error] exception: either the literal of a [raise error(...)]
    statement of this module, or the report that [check_status] builds from the
    engine's message. *)
Inductive errmsg :=
| Literal (s : string)
| Status (engine_msg : string).

Inductive exn :=
| AssertionError
| UnboundLocalError
| TypeError
| error (m : errmsg).

Inductive result (A : Type) :=
| Ok (a : A)
| Raise (e : exn).
Arguments Ok {A} a.
Arguments Raise {A} e.

(** ** The monad of wrapper code

    A method runs on the engine state and either returns or raises; the
    engine state reached so far is kept in both cases (an exception does not
    undo native calls already made). *)
Definition M (W A : Type) : Type := W -> result A * W.

Definition ret {W A} (a : A) : M W A := fun w => (Ok a, w).

Definition bind {W A B} (c : M W A) (k : A -> M W B) : M W B :=
  fun w => match c w with
           | (Ok a, w') => k a w'
           | (Raise e, w') => (Raise e, w')
           end.

Definition raise {W A} (e : exn) : M W A := fun w => (Raise e, w).

(** A native call: it always returns (a handle or a value) and a new state. *)
Definition call {W A} (f : W -> A * W) : M W A :=
  fun w => let (a, w') := f w in (Ok a, w').

Definition assert {W} (b : bool) : M W unit :=
  if b then ret tt else raise AssertionError.

Declare Scope py_scope.
Delimit Scope py_scope with py.
Notation "x <- c ;; k" := (bind c (fun x => k))
  (at level 100, c at next level, k at level 200, right associativity) : py_scope.
Notation "c ;; k" := (bind c (fun _ => k))
  (at level 100, k at level 200, right associativity) : py_scope.
Local Open Scope py_scope.

(** ** Native interfaces *)

(** Module [pyiutilities] (imported as [pyiutil]): data handles and the
    execution status carried by every handle. *)
Class PyIUtilities (W : Type) := {
  executionStatus : ptr -> W -> Z;
  executionError : ptr -> W -> string;
  deleteDataHandle : ptr -> W -> W;
  intDataHandle : Z -> W -> ptr * W;
  intDataFromHandle : ptr -> W -> Z;
  floatDataFromHandle : ptr -> W -> pyfloat;
}.

(** Module [pysirfreg]: object creation and typed parameters. *)
Class SirfRegObjects (W : Type) := {
  cSIRFReg_newObject : string -> W -> ptr * W;
}.

Class SirfRegSetParameter (W : Type) := {
  cSIRFReg_setParameter : ptr -> string -> string -> ptr -> W -> ptr * W;
}.

Class SirfRegParameter (W : Type) := {
  cSIRFReg_parameter : ptr -> string -> string -> W -> ptr * W;
}.

(** Module [pysirfreg]: NiftiImage actions. *)
Class SirfRegImages (W : Type) := {
  cSIRFReg_NiftiImage_maths_im : ptr -> ptr -> ptr -> Z -> W -> ptr * W;
  cSIRFReg_NiftiImage_maths_num : ptr -> ptr -> pyfloat -> Z -> W -> ptr * W;
  cSIRFReg_NiftiImage_equal : ptr -> ptr -> W -> ptr * W;
  cSIRFReg_NiftiImage_fill : ptr -> pyfloat -> W -> ptr * W;
  cSIRFReg_NiftiImage_deep_copy : ptr -> ptr -> W -> ptr * W;
  cSIRFReg_NiftiImage_change_datatype : ptr -> string -> W -> ptr * W;
}.

Class SirfRegHeaders (W : Type) := {
  cSIRFReg_NiftiImage_dump_headers :
    Z -> ptr -> ptr -> ptr -> ptr -> ptr -> W -> ptr * W;
}.

(** Module [pysirfreg]: transformations. *)
Class SirfRegTransformations (W : Type) := {
  cSIRFReg_SIRFRegTransformation_get_as_deformation_field :
    ptr -> string -> ptr -> W -> ptr * W;
  cSIRFReg_NiftiImage3DDeformation_compose_single_deformation :
    ptr -> Z -> string -> ptr -> ptr -> ptr -> ptr -> ptr -> W -> ptr * W;
}.

(** Module [pysirfreg]: affine matrices. *)
Class SirfRegMat44 (W : Type) := {
  cSIRFReg_SIRFRegMat44_mul : ptr -> ptr -> W -> ptr * W;
  cSIRFReg_SIRFRegMat44_get_identity : W -> ptr * W;
}.

(** Module [pysirfreg]: weighted mean. *)
Class SirfRegWeightedMean (W : Type) := {
  cSIRFReg_SIRFRegImageWeightedMean_add_image : ptr -> ptr -> pyfloat -> W -> ptr * W;
  cSIRFReg_SIRFRegImageWeightedMean_add_image_filename :
    ptr -> string -> pyfloat -> W -> ptr * W;
  cSIRFReg_SIRFRegImageWeightedMean_update : ptr -> W -> ptr * W;
}.

(** Module [pyiutilities]: the other data handles. *)
Class PyIUtilitiesData (W : Type) := {
  charDataHandle : string -> W -> ptr * W;
  floatDataHandle : pyfloat -> W -> ptr * W;
  charDataFromHandle : ptr -> W -> string;
  floatDataItemFromHandle : ptr -> Z -> W -> pyfloat;
}.

(** Module [pysirfreg]: objects built from a source.  The matrix constructor
    receives [src.ctypes.data], the address of the cells of the array: here
    the cells. *)
Class SirfRegSources (W : Type) := {
  cSIRFReg_objectFromFile : string -> string -> W -> ptr * W;
  cSIRFReg_NiftiImage3D_from_PETImageData : ptr -> W -> ptr * W;
  cSIRFReg_NiftiImage3DTensor_construct_from_3_components :
    string -> ptr -> ptr -> ptr -> W -> ptr * W;
  cSIRFReg_SIRFRegMat44_construct_from_TM : list pyfloat -> W -> ptr * W;
}.

(** Module [pysirfreg]: the remaining image and matrix actions. *)
Class SirfRegImageActions (W : Type) := {
  cSIRFReg_NiftiImage_save_to_file : ptr -> string -> W -> ptr * W;
  cSIRFReg_NiftiImage_get_datatype : ptr -> W -> ptr * W;
  cSIRFReg_NiftiImage3D_copy_data_to : ptr -> ptr -> W -> ptr * W;
  cSIRFReg_NiftiImage3DTensor_save_to_file_split_xyz_components :
    ptr -> string -> W -> ptr * W;
  cSIRFReg_NiftiImage3DTensor_create_from_3D_image : ptr -> ptr -> W -> ptr * W;
}.

Class SirfRegMat44Actions (W : Type) := {
  cSIRFReg_SIRFRegMat44_equal : ptr -> ptr -> W -> ptr * W;
  cSIRFReg_SIRFRegMat44_deep_copy : ptr -> W -> ptr * W;
  cSIRFReg_SIRFRegMat44_save_to_file : ptr -> string -> W -> ptr * W;
  cSIRFReg_SIRFRegMat44_fill : ptr -> pyfloat -> W -> ptr * W;
}.

(** Module [pysirfreg]: registration and resampling. *)
Class SirfRegRegistration (W : Type) := {
  cSIRFReg_SIRFReg_update : ptr -> W -> ptr * W;
  cSIRFReg_SIRFReg_get_deformation_displacement_image : ptr -> string -> W -> ptr * W;
  cSIRFReg_SIRFReg_get_TM : ptr -> string -> W -> ptr * W;
}.

Class SirfRegResample (W : Type) := {
  cSIRFReg_SIRFRegNiftyResample_add_transformation : ptr -> ptr -> string -> W -> ptr * W;
  cSIRFReg_SIRFRegNiftyResample_update : ptr -> W -> ptr * W;
}.

(** Module [pysirfreg]: text sinks and channels. *)
Class SirfRegChannels (W : Type) := {
  newTextPrinter : string -> W -> ptr * W;
  newTextWriter : string -> W -> ptr * W;
  openChannel : Z -> ptr -> W -> W;
  closeChannel : Z -> ptr -> W -> W;
  deleteTextPrinter : ptr -> W -> ptr * W;
  deleteTextWriter : ptr -> W -> ptr * W;
}.

(** ** The wrapper *)

(** *** Utilities for internal use only *)

Section Utilities.
Context {W : Type} `{PyIUtilities W} `{SirfRegObjects W} `{SirfRegSetParameter W}
`{SirfRegParameter W}.

(** Modelled from the spec: [check_status] of module [pUtilities], which is
    imported by SIRFReg.py; its source is not in the repository tree.  "Every
    action reports success/failure plus an error message string; callers
    must check status before using any returned object": a non-zero
    execution status of the handle raises [error] with the engine's
    message.  The [stack] argument only decorates the message. *)
Definition check_status (h : ptr) : M W unit :=
  fun w => if Z.eqb (executionStatus h w) 0
           then (Ok tt, w)
           else (Raise (error (Status (executionError h w))), w).

(** [pyiutil.deleteDataHandle(h)] as a statement. *)
Definition release (h : ptr) : M W unit :=
  fun w => (Ok tt, deleteDataHandle h w).

(** Modelled from the spec: [try_calling] of module [pUtilities] (its source
    is not in the repository tree): check the status of the handle an action
    returned, then release that handle. *)
Definition try_calling (h : ptr) : M W unit :=
  check_status h;; release h.

Definition _setParameter (hs : ptr) (set par : string) (hv : ptr) : M W unit :=
  h <- call (cSIRFReg_setParameter hs set par hv);;
  check_status h;;
  release h.

Definition _set_int_par (hs : ptr) (set par : string) (value : Z) : M W unit :=
  h <- call (intDataHandle value);;
  _setParameter hs set par h;;
  release h.

Definition _float_par (hs : ptr) (set par : string) : M W pyfloat :=
  h <- call (cSIRFReg_parameter hs set par);;
  check_status h;;
  value <- (fun w => (Ok (floatDataFromHandle h w), w));;
  release h;;
  ret value.

Definition _getParameterHandle (hs : ptr) (set par : string) : M W ptr :=
  h <- call (cSIRFReg_parameter hs set par);;
  check_status h;;
  ret h.

(** [__init__ c] is [c()] called without a source: for every class but the
    abstract [_Transformation] the body is
    [self.handle = None; self.name = <name>;
     self.handle = pysirfreg.cSIRFReg_newObject(self.name);
     check_status(self.handle)]. *)
Definition __init__ (c : pyclass) : M W pyobj :=
  match c with
  | C_Transformation => ret (PyObj c (class_name c) None)
  | _ =>
      h <- call (cSIRFReg_newObject (class_name c));;
      check_status h;;
      ret (PyObj c (class_name c) h)
  end.

(** [o.handle = h] *)
Definition set_handle (o : pyobj) (h : ptr) : pyobj :=
  PyObj (cls o) (name o) h.

(** [h is not None] *)
Definition is_not_None (h : ptr) : bool :=
  match h with Some _ => true | None => false end.

(** *** The other parameter helpers *)

Context `{PyIUtilitiesData W}.

Definition _set_char_par (hs : ptr) (set par : string) (value : string) : M W unit :=
  h <- call (charDataHandle value);;
  _setParameter hs set par h;;
  release h.

Definition _set_float_par (hs : ptr) (set par : string) (value : pyfloat) : M W unit :=
  h <- call (floatDataHandle value);;
  _setParameter hs set par h;;
  release h.

Definition _char_par (hs : ptr) (set par : string) : M W string :=
  h <- call (cSIRFReg_parameter hs set par);;
  check_status h;;
  value <- (fun w => (Ok (charDataFromHandle h w), w));;
  release h;;
  ret value.

Definition _int_par (hs : ptr) (set par : string) : M W Z :=
  h <- call (cSIRFReg_parameter hs set par);;
  check_status h;;
  value <- (fun w => (Ok (intDataFromHandle h w), w));;
  release h;;
  ret value.

(** [range(n)] *)
Definition range (n : Z) : list Z := map Z.of_nat (seq 0 (Z.to_nat n)).

(** The loop [for i in range(n): value += (item(h, i), )] starts from the
    empty tuple and appends on the right. *)
Definition _float_pars (hs : ptr) (set par : string) (n : Z) : M W (list pyfloat) :=
  h <- call (cSIRFReg_parameter hs set par);;
  check_status h;;
  value <- (fun w =>
              (Ok (fold_left (fun value i => (value ++ [floatDataItemFromHandle h i w])%list)
                             (range n) []), w));;
  release h;;
  ret value.

(** The body shared by every [__del__] of a class with a handle:
    [if self.handle is not None: pyiutil.deleteDataHandle(self.handle)]. *)
Definition __del__ (self_handle : ptr) : M W unit :=
  if is_not_None self_handle then release self_handle else ret tt.
End Utilities.

(** *** class MessageRedirector *)

Module MessageRedirector.
Section Methods.
Context {W : Type} `{PyIUtilities W} `{SirfRegChannels W}.

(** [s in {'stdout', 'stderr', 'cout', 'cerr'}] *)
Definition is_stream (s : string) : bool :=
  existsb (String.eqb s) ["stdout"; "stderr"; "cout"; "cerr"].

(** The block the constructor runs for each of its three arguments, here for
    the argument [dest] of channel [channel]:
    [if dest is None: dest = '']; a value that is not a string raises; a
    stream name makes a printer (case 0), any other string a writer
    (case 1); then the channel is opened on the new sink. *)
Definition open_sink (channel : Z) (wrong_argument : string) (dest : destination)
  : M W (ptr * Z) :=
  let dest := match dest with Dest_None => Dest_str "" | _ => dest end in
  match dest with
  | Dest_str s =>
      sink <- (if is_stream s
               then h <- call (newTextPrinter s);; ret (h, 0%Z)
               else h <- call (newTextWriter s);; ret (h, 1%Z));;
      (fun w => (Ok tt, openChannel channel (fst sink) w));;
      ret sink
  | _ => raise (error (Literal wrong_argument))
  end.

(** [MessageRedirector(info, warn, errr)]; the defaults are [info=None],
    [warn='stdout'], [errr='stdout']. *)
Definition __init__ (info warn errr : destination) : M W redirector :=
  i <- open_sink 0 "wrong info argument for MessageRedirector constructor" info;;
  w <- open_sink 1 "wrong warn argument for MessageRedirector constructor" warn;;
  e <- open_sink 2 "wrong errr argument for MessageRedirector constructor" errr;;
  ret (Redirector (fst i) (snd i) (fst w) (snd w) (fst e) (snd e)).

(** The block [__del__] runs for each channel. *)
Definition close_sink (channel : Z) (sink : ptr) (case : Z) : M W unit :=
  (if Z.eqb case 0
   then h <- call (deleteTextPrinter sink);; try_calling h
   else h <- call (deleteTextWriter sink);; try_calling h);;
  (fun w => (Ok tt, closeChannel channel sink w)).

Definition __del__ (self : redirector) : M W unit :=
  close_sink 0 (info self) (info_case self);;
  close_sink 1 (warn self) (warn_case self);;
  close_sink 2 (errr self) (errr_case self).
End Methods.
End MessageRedirector.

(** *** class _Transformation *)

Module Transformation.
Section Methods.
Context {W : Type} `{PyIUtilities W} `{SirfRegObjects W} `{SirfRegTransformations W}.

Definition get_as_deformation_field (self ref : pyobj) : M W pyobj :=
  (* assert self is not None: self is an object *)
  assert (isinstance ref C_NiftiImage3D);;
  output <- __init__ C_NiftiImage3DDeformation;;
  h <- call (cSIRFReg_SIRFRegTransformation_get_as_deformation_field
               (handle self) (name self) (handle ref));;
  check_status h;;
  ret (set_handle output h).
(** [_Transformation()] *)
Definition __init__ : M W pyobj :=
  ret (PyObj C_Transformation "SIRFRegTransformation" None).
End Methods.
End Transformation.

(** *** class NiftiImage *)

Module NiftiImage.
Section Methods.
Context {W : Type} `{PyIUtilities W} `{SirfRegObjects W} `{SirfRegImages W}
        `{SirfRegHeaders W}.

Definition deep_copy (self : pyobj) : M W pyobj :=
  assert (is_not_None (handle self));;
  image <-
    (if String.eqb (name self) "NiftiImage" then
       i <- __init__ C_NiftiImage;; ret (Some i)
     else if String.eqb (name self) "NiftiImage3D" then
       i <- __init__ C_NiftiImage3D;; ret (Some i)
     else if String.eqb (name self) "NiftiImage3DTensor" then
       i <- __init__ C_NiftiImage3DTensor;; ret (Some i)
     else if String.eqb (name self) "NiftiImage3DDeformation" then
       i <- __init__ C_NiftiImage3DDeformation;; ret (Some i)
     else if String.eqb (name self) "NiftiImage3DDisplacement" then
       i <- __init__ C_NiftiImage3DDisplacement;; ret (Some i)
     else ret None);;
  match image with
  | None => raise UnboundLocalError   (* [image] was never bound *)
  | Some image =>
      h <- call (cSIRFReg_NiftiImage_deep_copy (handle image) (handle self));;
      try_calling h;;
      ret image
  end.

(** [isinstance(other, NiftiImage)] on an operand. *)
Definition operand_is_image (other : operand) : bool :=
  match other with
  | OObj o => isinstance o C_NiftiImage
  | ONum _ => false
  end.

(** [other.handle] *)
Definition operand_handle (other : operand) : ptr :=
  match other with
  | OObj o => handle o
  | ONum _ => None
  end.

(** [float(other)]: a number converts, a wrapper object does not. *)
Definition float (other : operand) : M W pyfloat :=
  match other with
  | ONum x => ret x
  | OObj _ => raise TypeError
  end.

(** The shared body of [__add__] (code 0) and [__sub__] (code 1). *)
Definition maths (code : Z) (self : pyobj) (other : operand) : M W pyobj :=
  z <- deep_copy self;;
  (if operand_is_image other then
     h <- call (cSIRFReg_NiftiImage_maths_im
                  (handle z) (handle self) (operand_handle other) code);;
     try_calling h
   else
     x <- float other;;
     h <- call (cSIRFReg_NiftiImage_maths_num (handle z) (handle self) x code);;
     try_calling h);;
  check_status (handle z);;
  ret z.

Definition __add__ (self : pyobj) (other : operand) : M W pyobj :=
  maths 0 self other.

Definition __sub__ (self : pyobj) (other : operand) : M W pyobj :=
  maths 1 self other.

Definition __mul__ (self : pyobj) (other : operand) : M W pyobj :=
  z <- deep_copy self;;
  x <- float other;;
  h <- call (cSIRFReg_NiftiImage_maths_num (handle z) (handle self) x 2);;
  try_calling h;;
  check_status (handle z);;
  ret z.

Definition __eq__ (self other : pyobj) : M W Z :=
  assert (isinstance other C_NiftiImage);;
  h <- call (cSIRFReg_NiftiImage_equal (handle self) (handle other));;
  check_status h;;
  value <- (fun w => (Ok (intDataFromHandle h w), w));;
  release h;;
  ret value.

Definition fill (self : pyobj) (val : pyfloat) : M W unit :=
  assert (is_not_None (handle self));;
  h <- call (cSIRFReg_NiftiImage_fill (handle self) val);;
  try_calling h.

Definition change_datatype (self : pyobj) (datatype : string) : M W unit :=
  assert (is_not_None (handle self));;
  h <- call (cSIRFReg_NiftiImage_change_datatype (handle self) datatype);;
  try_calling h.

Definition dump_header (self : pyobj) : M W unit :=
  h <- call (cSIRFReg_NiftiImage_dump_headers 1 (handle self) None None None None);;
  try_calling h.

Definition dump_headers (to_dump : list pyobj) : M W unit :=
  assert (all_isinstance to_dump C_NiftiImage);;
  match to_dump with
  | [d0] =>
      h <- call (cSIRFReg_NiftiImage_dump_headers
                   1 (handle d0) None None None None);;
      try_calling h
  | [d0; d1] =>
      h <- call (cSIRFReg_NiftiImage_dump_headers
                   2 (handle d0) (handle d1) None None None);;
      try_calling h
  | [d0; d1; d2] =>
      h <- call (cSIRFReg_NiftiImage_dump_headers
                   3 (handle d0) (handle d1) (handle d2) None None);;
      try_calling h
  | [d0; d1; d2; d3] =>
      h <- call (cSIRFReg_NiftiImage_dump_headers
                   4 (handle d0) (handle d1) (handle d2) (handle d3) None);;
      try_calling h
  | [d0; d1; d2; d3; d4] =>
      h <- call (cSIRFReg_NiftiImage_dump_headers
                   5 (handle d0) (handle d1) (handle d2) (handle d3) (handle d4));;
      try_calling h
  | _ => raise (error (Literal "dump_nifti_info only implemented for up to 5 images."))
  end.
(** *** The other methods of NiftiImage *)

Context `{SirfRegSources W} `{SirfRegParameter W} `{SirfRegImageActions W}
        `{PyIUtilitiesData W}.

(** [not self == other] *)
Definition __ne__ (self other : pyobj) : M W bool :=
  value <- __eq__ self other;;
  ret (Z.eqb value 0).

Definition save_to_file (self : pyobj) (filename : string) : M W unit :=
  assert (is_not_None (handle self));;
  h <- call (cSIRFReg_NiftiImage_save_to_file (handle self) filename);;
  try_calling h.

Definition get_max (self : pyobj) : M W pyfloat :=
  _float_par (handle self) "NiftiImage" "max".

Definition get_min (self : pyobj) : M W pyfloat :=
  _float_par (handle self) "NiftiImage" "min".

Definition get_sum (self : pyobj) : M W pyfloat :=
  _float_par (handle self) "NiftiImage" "sum".

Definition get_datatype (self : pyobj) : M W string :=
  assert (is_not_None (handle self));;
  h <- call (cSIRFReg_NiftiImage_get_datatype (handle self));;
  check_status h;;
  datatype <- (fun w => (Ok (charDataFromHandle h w), w));;
  release h;;
  ret datatype.

(** [NiftiImage(src)] *)
Definition __init__ (src : pyarg) : M W pyobj :=
  h <- match src with
       | Arg_None => call (cSIRFReg_newObject "NiftiImage")
       | Arg_str s => call (cSIRFReg_objectFromFile "NiftiImage" s)
       | _ => raise (error (Literal "Wrong source in NiftiImage constructor"))
       end;;
  check_status h;;
  ret (PyObj C_NiftiImage "NiftiImage" h).
End Methods.
End NiftiImage.

(** *** class NiftiImage3D *)

Module NiftiImage3D.
Section Methods.
Context {W : Type} `{PyIUtilities W} `{SirfRegObjects W} `{SirfRegSources W}
        `{SirfRegImageActions W}.

(** [isinstance(pet_image, pSTIR.ImageData)] *)
Definition is_ImageData (pet_image : pyarg) : bool :=
  match pet_image with
  | Arg_ImageData _ => true
  | _ => false
  end.

Definition copy_data_to (self : pyobj) (pet_image : pyarg) : M W unit :=
  assert (is_not_None (handle self));;
  assert (is_ImageData pet_image);;
  assert (is_not_None (arg_handle pet_image));;
  h <- call (cSIRFReg_NiftiImage3D_copy_data_to (handle self) (arg_handle pet_image));;
  try_calling h.

(** [NiftiImage3D(src)] *)
Definition __init__ (src : pyarg) : M W pyobj :=
  h <- match src with
       | Arg_None => call (cSIRFReg_newObject "NiftiImage3D")
       | Arg_str s => call (cSIRFReg_objectFromFile "NiftiImage3D" s)
       | Arg_ImageData hsrc => call (cSIRFReg_NiftiImage3D_from_PETImageData hsrc)
       | _ => raise (error (Literal "Wrong source in NiftiImage3D constructor"))
       end;;
  check_status h;;
  ret (PyObj C_NiftiImage3D "NiftiImage3D" h).
End Methods.
End NiftiImage3D.

(** *** class NiftiImage3DTensor *)

Module NiftiImage3DTensor.
Section Methods.
Context {W : Type} `{PyIUtilities W} `{SirfRegObjects W} `{SirfRegSources W}
        `{SirfRegImageActions W}.

(** The constructor body shared, up to the class name and the message, by
    [NiftiImage3DTensor], [NiftiImage3DDisplacement] and
    [NiftiImage3DDeformation]. *)
Definition tensor_init (c : pyclass) (wrong_source : string) (src1 src2 src3 : pyarg)
  : M W pyobj :=
  h <- match src1 with
       | Arg_None => call (cSIRFReg_newObject (class_name c))
       | Arg_str s => call (cSIRFReg_objectFromFile (class_name c) s)
       | _ =>
           if arg_isinstance src1 C_NiftiImage3D
              && arg_isinstance src2 C_NiftiImage3D
              && arg_isinstance src3 C_NiftiImage3D
           then call (cSIRFReg_NiftiImage3DTensor_construct_from_3_components
                        (class_name c) (arg_handle src1) (arg_handle src2) (arg_handle src3))
           else raise (error (Literal wrong_source))
       end;;
  check_status h;;
  ret (PyObj c (class_name c) h).

(** [filename] is a [str]: the [assert isinstance(filename, str)] holds by
    typing. *)
Definition save_to_file_split_xyz_components (self : pyobj) (filename : string)
  : M W unit :=
  assert (is_not_None (handle self));;
  h <- call (cSIRFReg_NiftiImage3DTensor_save_to_file_split_xyz_components
               (handle self) filename);;
  try_calling h.

Definition create_from_3D_image (self src : pyobj) : M W unit :=
  assert (isinstance src C_NiftiImage3D);;
  assert (is_not_None (handle src));;
  h <- call (cSIRFReg_NiftiImage3DTensor_create_from_3D_image (handle self) (handle src));;
  try_calling h;;
  check_status (handle self).

(** [NiftiImage3DTensor(src1, src2, src3)] *)
Definition __init__ (src1 src2 src3 : pyarg) : M W pyobj :=
  tensor_init C_NiftiImage3DTensor
    "Wrong source in NiftiImage3DTensor constructor" src1 src2 src3.
End Methods.
End NiftiImage3DTensor.

(** *** class NiftiImage3DDisplacement *)

Module NiftiImage3DDisplacement.
Section Methods.
Context {W : Type} `{PyIUtilities W} `{SirfRegObjects W} `{SirfRegSources W}.

(** [NiftiImage3DDisplacement(src1, src2, src3)] *)
Definition __init__ (src1 src2 src3 : pyarg) : M W pyobj :=
  NiftiImage3DTensor.tensor_init C_NiftiImage3DDisplacement
    "Wrong source in NiftiImage3DDisplacement constructor" src1 src2 src3.
End Methods.
End NiftiImage3DDisplacement.

(** *** class NiftiImage3DDeformation *)

Module NiftiImage3DDeformation.
Section Methods.
Context {W : Type} `{PyIUtilities W} `{SirfRegObjects W} `{SirfRegTransformations W}.

(** One step of the loop building [types]. *)
Definition type_code (n : pyobj) : string :=
  if isinstance n C_Mat44 then "1"
  else if isinstance n C_NiftiImage3DDisplacement then "2"
  else if isinstance n C_NiftiImage3DDeformation then "3"
  else "".

Definition types_of (trans : list pyobj) : string :=
  fold_left (fun types n => types ++ type_code n) trans "".

Definition compose_single_deformation (trans : list pyobj) (ref : pyobj)
  : M W pyobj :=
  assert (isinstance ref C_NiftiImage3D);;
  assert (all_isinstance trans C_Transformation);;
  match trans with
  | [t0] => Transformation.get_as_deformation_field t0 ref
  | _ =>
      let types := types_of trans in
      let len := Z.of_nat (List.length trans) in
      z <- __init__ C_NiftiImage3DDeformation;;
      h <- match trans with
           | [t0; t1] =>
               call (cSIRFReg_NiftiImage3DDeformation_compose_single_deformation
                       (handle ref) len types
                       (handle t0) (handle t1) None None None)
           | [t0; t1; t2] =>
               call (cSIRFReg_NiftiImage3DDeformation_compose_single_deformation
                       (handle ref) len types
                       (handle t0) (handle t1) (handle t2) None None)
           | [t0; t1; t2; t3] =>
               call (cSIRFReg_NiftiImage3DDeformation_compose_single_deformation
                       (handle ref) len types
                       (handle t0) (handle t1) (handle t2) (handle t3) None)
           | [t0; t1; t2; t3; t4] =>
               call (cSIRFReg_NiftiImage3DDeformation_compose_single_deformation
                       (handle ref) len types
                       (handle t0) (handle t1) (handle t2) (handle t3) (handle t4))
           | _ =>
               raise (error (Literal
                 "compose_single_deformation only implemented for up to 5 transformations."))
           end;;
      check_status h;;
      ret (set_handle z h)
  end.
Context `{SirfRegSources W}.

(** [NiftiImage3DDeformation(src1, src2, src3)] *)
Definition __init__ (src1 src2 src3 : pyarg) : M W pyobj :=
  NiftiImage3DTensor.tensor_init C_NiftiImage3DDeformation
    "Wrong source in NiftiImage3DDeformation constructor" src1 src2 src3.
End Methods.
End NiftiImage3DDeformation.

(** *** class _SIRFReg *)

Module SIRFReg.
Section Methods.
Context {W : Type} `{PyIUtilities W} `{PyIUtilitiesData W} `{SirfRegObjects W}
        `{SirfRegSetParameter W} `{SirfRegParameter W} `{SirfRegRegistration W}.

Definition set_parameter_file (self : registration) (filename : string) : M W unit :=
  _set_char_par (reg_handle self) "SIRFReg" "parameter_file" filename.

Definition set_reference_image (self : registration) (src : pyobj) : M W unit :=
  assert (isinstance src C_NiftiImage3D);;
  _setParameter (reg_handle self) "SIRFReg" "reference_image" (handle src).

Definition set_floating_image (self : registration) (src : pyobj) : M W unit :=
  assert (isinstance src C_NiftiImage3D);;
  _setParameter (reg_handle self) "SIRFReg" "floating_image" (handle src).

Definition get_output (self : registration) : M W pyobj :=
  output <- __init__ C_NiftiImage3D;;
  h <- call (cSIRFReg_parameter (reg_handle self) "SIRFReg" "output");;
  check_status h;;
  ret (set_handle output h).

Definition update (self : registration) : M W unit :=
  h <- call (cSIRFReg_SIRFReg_update (reg_handle self));;
  try_calling h.

Definition get_deformation_field_fwrd (self : registration) : M W pyobj :=
  output <- __init__ C_NiftiImage3DDeformation;;
  h <- call (cSIRFReg_SIRFReg_get_deformation_displacement_image
               (reg_handle self) "fwrd_deformation");;
  check_status h;;
  ret (set_handle output h).

Definition get_deformation_field_back (self : registration) : M W pyobj :=
  output <- __init__ C_NiftiImage3DDeformation;;
  h <- call (cSIRFReg_SIRFReg_get_deformation_displacement_image
               (reg_handle self) "back_deformation");;
  check_status h;;
  ret (set_handle output h).

Definition get_displacement_field_fwrd (self : registration) : M W pyobj :=
  output <- __init__ C_NiftiImage3DDisplacement;;
  h <- call (cSIRFReg_SIRFReg_get_deformation_displacement_image
               (reg_handle self) "fwrd_displacement");;
  check_status h;;
  ret (set_handle output h).

Definition get_displacement_field_back (self : registration) : M W pyobj :=
  output <- __init__ C_NiftiImage3DDisplacement;;
  h <- call (cSIRFReg_SIRFReg_get_deformation_displacement_image
               (reg_handle self) "back_displacement");;
  check_status h;;
  ret (set_handle output h).
End Methods.
End SIRFReg.

(** *** class NiftyAladinSym *)

Module NiftyAladinSym.
Section Methods.
Context {W : Type} `{PyIUtilities W} `{SirfRegObjects W} `{SirfRegRegistration W}.

Definition get_transformation_matrix_fwrd (self : registration) : M W pyobj :=
  assert (is_not_None (reg_handle self));;
  tm <- __init__ C_Mat44;;
  h <- call (cSIRFReg_SIRFReg_get_TM (reg_handle self) "fwrd");;
  ret (set_handle tm h).

Definition get_transformation_matrix_back (self : registration) : M W pyobj :=
  assert (is_not_None (reg_handle self));;
  tm <- __init__ C_Mat44;;
  h <- call (cSIRFReg_SIRFReg_get_TM (reg_handle self) "back");;
  ret (set_handle tm h).

Definition __init__ : M W registration :=
  h <- call (cSIRFReg_newObject "SIRFRegNiftyAladinSym");;
  check_status h;;
  ret (Registration "SIRFRegNiftyAladinSym" h).
End Methods.
End NiftyAladinSym.

(** *** class NiftyF3dSym *)

Module NiftyF3dSym.
Section Methods.
Context {W : Type} `{PyIUtilities W} `{SirfRegObjects W} `{SirfRegSetParameter W}.

Definition __init__ : M W registration :=
  h <- call (cSIRFReg_newObject "SIRFRegNiftyF3dSym");;
  check_status h;;
  ret (Registration "SIRFRegNiftyF3dSym" h).

Definition set_floating_time_point (self : registration) (floating_time_point : Z)
  : M W unit :=
  _set_int_par (reg_handle self) (reg_name self) "floating_time_point" floating_time_point.

Definition set_reference_time_point (self : registration) (reference_time_point : Z)
  : M W unit :=
  _set_int_par (reg_handle self) (reg_name self) "reference_time_point" reference_time_point.

Definition set_initial_affine_transformation (self : registration) (src : pyobj)
  : M W unit :=
  assert (isinstance src C_Mat44);;
  _setParameter (reg_handle self) (reg_name self) "initial_affine_transformation"
    (handle src).
End Methods.
End NiftyF3dSym.

(** *** class NiftyResample *)

Module NiftyResample.
Section Methods.
Context {W : Type} `{PyIUtilities W} `{SirfRegSetParameter W}.

(** [type] is an [int]: the [assert isinstance(type, int)] holds by typing. *)
Definition set_interpolation_type (self : pyobj) (type : Z) : M W unit :=
  _set_int_par (handle self) (name self) "interpolation_type" type.

Definition set_interpolation_type_to_nearest_neighbour (self : pyobj) : M W unit :=
  _set_int_par (handle self) (name self) "interpolation_type" 0.

Definition set_interpolation_type_to_linear (self : pyobj) : M W unit :=
  _set_int_par (handle self) (name self) "interpolation_type" 1.

Definition set_interpolation_type_to_cubic_spline (self : pyobj) : M W unit :=
  _set_int_par (handle self) (name self) "interpolation_type" 3.

Definition set_interpolation_type_to_sinc (self : pyobj) : M W unit :=
  _set_int_par (handle self) (name self) "interpolation_type" 4.
(** *** The other methods of NiftyResample *)

Context `{SirfRegObjects W} `{SirfRegParameter W} `{SirfRegResample W}.

Definition set_reference_image (self reference_image : pyobj) : M W unit :=
  assert (isinstance reference_image C_NiftiImage3D);;
  _setParameter (handle self) (name self) "reference_image" (handle reference_image).

Definition set_floating_image (self floating_image : pyobj) : M W unit :=
  assert (isinstance floating_image C_NiftiImage3D);;
  _setParameter (handle self) (name self) "floating_image" (handle floating_image).

Definition add_transformation_affine (self src : pyobj) : M W unit :=
  assert (isinstance src C_Mat44);;
  h <- call (cSIRFReg_SIRFRegNiftyResample_add_transformation
               (handle self) (handle src) "affine");;
  try_calling h.

Definition add_transformation_disp (self src : pyobj) : M W unit :=
  assert (isinstance src C_NiftiImage3DDisplacement);;
  h <- call (cSIRFReg_SIRFRegNiftyResample_add_transformation
               (handle self) (handle src) "displacement");;
  try_calling h.

Definition add_transformation_def (self src : pyobj) : M W unit :=
  assert (isinstance src C_NiftiImage3DDeformation);;
  h <- call (cSIRFReg_SIRFRegNiftyResample_add_transformation
               (handle self) (handle src) "deformation");;
  try_calling h.

Definition update (self : pyobj) : M W unit :=
  h <- call (cSIRFReg_SIRFRegNiftyResample_update (handle self));;
  try_calling h.

Definition get_output (self : pyobj) : M W pyobj :=
  image <- __init__ C_NiftiImage3D;;
  h <- _getParameterHandle (handle self) (name self) "output";;
  check_status h;;
  ret (set_handle image h).
End Methods.
End NiftyResample.

(** *** class ImageWeightedMean *)

Module ImageWeightedMean.
Section Methods.
Context {W : Type} `{PyIUtilities W} `{SirfRegObjects W} `{SirfRegParameter W}
        `{SirfRegWeightedMean W}.

Definition add_image (self : pyobj) (image : image_source) (weight : pyfloat)
  : M W unit :=
  match image with
  | SrcObj o =>
      if isinstance o C_NiftiImage then
        h <- call (cSIRFReg_SIRFRegImageWeightedMean_add_image
                     (handle self) (handle o) weight);;
        try_calling h
      else
        raise (error (Literal
          "pSIRFReg.ImageWeightedMean.add_image: image must be NiftiImage or filename."))
  | SrcStr filename =>
      h <- call (cSIRFReg_SIRFRegImageWeightedMean_add_image_filename
                   (handle self) filename weight);;
      try_calling h
  end.

Definition update (self : pyobj) : M W unit :=
  h <- call (cSIRFReg_SIRFRegImageWeightedMean_update (handle self));;
  try_calling h.

Definition get_output (self : pyobj) : M W pyobj :=
  image <- __init__ C_NiftiImage;;
  h <- _getParameterHandle (handle self) (name self) "output";;
  check_status h;;
  ret (set_handle image h).
End Methods.
End ImageWeightedMean.

(** *** class Mat44 *)

Module Mat44.
Section Methods.
Context {W : Type} `{PyIUtilities W} `{SirfRegObjects W} `{SirfRegParameter W}
        `{SirfRegMat44 W}.

Definition __mul__ (self other : pyobj) : M W pyobj :=
  assert (isinstance other C_Mat44);;
  mat <- __init__ C_Mat44;;
  h <- call (cSIRFReg_SIRFRegMat44_mul (handle self) (handle other));;
  check_status h;;
  ret (set_handle mat h).

Definition get_determinant (self : pyobj) : M W pyfloat :=
  _float_par (handle self) (name self) "determinant".

Definition get_identity : M W pyobj :=
  mat <- __init__ C_Mat44;;
  h <- call cSIRFReg_SIRFRegMat44_get_identity;;
  ret (set_handle mat h).
(** *** The other methods of Mat44 *)

Context `{SirfRegSources W} `{SirfRegMat44Actions W}.

Definition __eq__ (self other : pyobj) : M W Z :=
  assert (isinstance other C_Mat44);;
  h <- call (cSIRFReg_SIRFRegMat44_equal (handle self) (handle other));;
  check_status h;;
  value <- (fun w => (Ok (intDataFromHandle h w), w));;
  release h;;
  ret value.

(** [not self == other] *)
Definition __ne__ (self other : pyobj) : M W bool :=
  value <- __eq__ self other;;
  ret (Z.eqb value 0).

Definition deep_copy (self : pyobj) : M W pyobj :=
  assert (is_not_None (handle self));;
  mat <- __init__ C_Mat44;;
  h <- call (cSIRFReg_SIRFRegMat44_deep_copy (handle self));;
  check_status h;;
  ret (set_handle mat h).

Definition save_to_file (self : pyobj) (filename : string) : M W unit :=
  assert (is_not_None (handle self));;
  h <- call (cSIRFReg_SIRFRegMat44_save_to_file (handle self) filename);;
  try_calling h.

(** [src.shape == (4, 4)] *)
Definition shape_is_4x4 (shape : list Z) : bool :=
  match shape with
  | [4%Z; 4%Z] => true
  | _ => false
  end.

(** [fill] assigns [self.handle] when the source is an array: the method
    returns the receiver as it is afterwards. *)
Definition fill (self : pyobj) (src : fill_source) : M W pyobj :=
  assert (is_not_None (handle self));;
  match src with
  | Fill_ndarray shape cells =>
      assert (shape_is_4x4 shape);;
      h <- call (cSIRFReg_SIRFRegMat44_construct_from_TM cells);;
      ret (set_handle self h)
  | Fill_num x =>
      h <- call (cSIRFReg_SIRFRegMat44_fill (handle self) x);;
      try_calling h;;
      ret self
  end.

(** [Mat44(src)] *)
Definition __init__ (src : pyarg) : M W pyobj :=
  h <- match src with
       | Arg_None => call (cSIRFReg_newObject "SIRFRegMat44")
       | Arg_str s => call (cSIRFReg_objectFromFile "SIRFRegMat44" s)
       | Arg_ndarray shape cells =>
           assert (shape_is_4x4 shape);;
           call (cSIRFReg_SIRFRegMat44_construct_from_TM cells)
       | _ => raise (error (Literal "Wrong source in affine transformation constructor"))
       end;;
  check_status h;;
  ret (PyObj C_Mat44 "SIRFRegMat44" h).
End Methods.
End Mat44.

(** * A recording engine

    A test double for the native layer: every native call is appended to a
    trace and answered with a fresh handle whose status is 0.  It shows what
    the wrapper sends across the boundary and serves as a concrete engine on
    which the general statements below are instantiated. *)

Module Recorder.

Inductive native_call :=
| N_deleteDataHandle (h : ptr)
| N_intDataHandle (v : Z)
| N_newObject (name : string)
| N_setParameter (hs : ptr) (set par : string) (hv : ptr)
| N_parameter (hs : ptr) (set par : string)
| N_maths_im (z x y : ptr) (code : Z)
| N_maths_num (z x : ptr) (v : pyfloat) (code : Z)
| N_equal (x y : ptr)
| N_fill (x : ptr) (v : pyfloat)
| N_deep_copy (dst src : ptr)
| N_change_datatype (x : ptr) (datatype : string)
| N_dump_headers (n : Z) (h0 h1 h2 h3 h4 : ptr)
| N_get_as_deformation_field (h : ptr) (name : string) (ref : ptr)
| N_compose_single_deformation (ref : ptr) (n : Z) (types : string)
    (h0 h1 h2 h3 h4 : ptr)
| N_Mat44_mul (x y : ptr)
| N_Mat44_get_identity
| N_WeightedMean_add_image (hs im : ptr) (weight : pyfloat)
| N_WeightedMean_add_image_filename (hs : ptr) (filename : string) (weight : pyfloat)
| N_WeightedMean_update (hs : ptr).

(** The trace, oldest call first. *)
Definition trace := list native_call.

(** Log the call and answer with the next handle. *)
Definition answer (c : native_call) (t : trace) : ptr * trace :=
  (Some (List.length t), (t ++ [c])%list).

#[export] Instance pyiutilities : PyIUtilities trace := {
  executionStatus _ _ := 0%Z;
  executionError _ _ := "";
  deleteDataHandle h t := (t ++ [N_deleteDataHandle h])%list;
  intDataHandle v := answer (N_intDataHandle v);
  intDataFromHandle _ _ := 0%Z;
  floatDataFromHandle _ _ := S754_zero false;
}.

#[export] Instance objects : SirfRegObjects trace := {
  cSIRFReg_newObject name := answer (N_newObject name);
}.

#[export] Instance set_parameter : SirfRegSetParameter trace := {
  cSIRFReg_setParameter hs set par hv := answer (N_setParameter hs set par hv);
}.

#[export] Instance parameter : SirfRegParameter trace := {
  cSIRFReg_parameter hs set par := answer (N_parameter hs set par);
}.

#[export] Instance images : SirfRegImages trace := {
  cSIRFReg_NiftiImage_maths_im z x y code := answer (N_maths_im z x y code);
  cSIRFReg_NiftiImage_maths_num z x v code := answer (N_maths_num z x v code);
  cSIRFReg_NiftiImage_equal x y := answer (N_equal x y);
  cSIRFReg_NiftiImage_fill x v := answer (N_fill x v);
  cSIRFReg_NiftiImage_deep_copy dst src := answer (N_deep_copy dst src);
  cSIRFReg_NiftiImage_change_datatype x dt := answer (N_change_datatype x dt);
}.

#[export] Instance headers : SirfRegHeaders trace := {
  cSIRFReg_NiftiImage_dump_headers n h0 h1 h2 h3 h4 :=
    answer (N_dump_headers n h0 h1 h2 h3 h4);
}.

#[export] Instance transformations : SirfRegTransformations trace := {
  cSIRFReg_SIRFRegTransformation_get_as_deformation_field h name ref :=
    answer (N_get_as_deformation_field h name ref);
  cSIRFReg_NiftiImage3DDeformation_compose_single_deformation
    ref n types h0 h1 h2 h3 h4 :=
    answer (N_compose_single_deformation ref n types h0 h1 h2 h3 h4);
}.

#[export] Instance mat44 : SirfRegMat44 trace := {
  cSIRFReg_SIRFRegMat44_mul x y := answer (N_Mat44_mul x y);
  cSIRFReg_SIRFRegMat44_get_identity := answer N_Mat44_get_identity;
}.

#[export] Instance weighted_mean : SirfRegWeightedMean trace := {
  cSIRFReg_SIRFRegImageWeightedMean_add_image hs im weight :=
    answer (N_WeightedMean_add_image hs im weight);
  cSIRFReg_SIRFRegImageWeightedMean_add_image_filename hs filename weight :=
    answer (N_WeightedMean_add_image_filename hs filename weight);
  cSIRFReg_SIRFRegImageWeightedMean_update hs :=
    answer (N_WeightedMean_update hs);
}.

End Recorder.

(** * A journalling engine

    A second test double, for the whole native interface: every call is
    written to a journal with its arguments and answered with a fresh
    handle, the position of the call in the journal.  Which handles report
    a failed action is decided by the table [failing], so that every path
    through the status checks of the wrapper can be taken. *)

Module Journal.

Inductive arg :=
| A_ptr (p : ptr)
| A_str (s : string)
| A_int (z : Z)
| A_float (x : pyfloat)
| A_floats (l : list pyfloat).

Inductive entry :=
| E_call (function : string) (args : list arg)
| E_delete (h : ptr)                      (* pyiutil.deleteDataHandle *)
| E_open (channel : Z) (sink : ptr)       (* pysirfreg.openChannel *)
| E_close (channel : Z) (sink : ptr).     (* pysirfreg.closeChannel *)

Record journal := Build {
  calls : list entry;          (* oldest first *)
  failing : nat -> bool;
}.

Definition write (e : entry) (j : journal) : journal :=
  Build (calls j ++ [e])%list (failing j).

(** Log the call and answer with its position. *)
Definition answer (function : string) (args : list arg) (j : journal) : ptr * journal :=
  (Some (List.length (calls j)), write (E_call function args) j).

Definition status (h : ptr) (j : journal) : Z :=
  match h with
  | Some n => if failing j n then 1 else 0
  | None => 0
  end.

#[export] Instance pyiutilities : PyIUtilities journal := {
  executionStatus := status;
  executionError _ _ := "";
  deleteDataHandle h := write (E_delete h);
  intDataHandle v := answer "intDataHandle" [A_int v];
  intDataFromHandle _ _ := 0%Z;
  floatDataFromHandle _ _ := S754_zero false;
}.

#[export] Instance pyiutilities_data : PyIUtilitiesData journal := {
  charDataHandle s := answer "charDataHandle" [A_str s];
  floatDataHandle x := answer "floatDataHandle" [A_float x];
  charDataFromHandle _ _ := "";
  floatDataItemFromHandle _ _ _ := S754_zero false;
}.

#[export] Instance objects : SirfRegObjects journal := {
  cSIRFReg_newObject name := answer "cSIRFReg_newObject" [A_str name];
}.

#[export] Instance set_parameter : SirfRegSetParameter journal := {
  cSIRFReg_setParameter hs set par hv :=
    answer "cSIRFReg_setParameter" [A_ptr hs; A_str set; A_str par; A_ptr hv];
}.

#[export] Instance parameter : SirfRegParameter journal := {
  cSIRFReg_parameter hs set par :=
    answer "cSIRFReg_parameter" [A_ptr hs; A_str set; A_str par];
}.

#[export] Instance images : SirfRegImages journal := {
  cSIRFReg_NiftiImage_maths_im z x y code :=
    answer "cSIRFReg_NiftiImage_maths_im" [A_ptr z; A_ptr x; A_ptr y; A_int code];
  cSIRFReg_NiftiImage_maths_num z x v code :=
    answer "cSIRFReg_NiftiImage_maths_num" [A_ptr z; A_ptr x; A_float v; A_int code];
  cSIRFReg_NiftiImage_equal x y := answer "cSIRFReg_NiftiImage_equal" [A_ptr x; A_ptr y];
  cSIRFReg_NiftiImage_fill x v := answer "cSIRFReg_NiftiImage_fill" [A_ptr x; A_float v];
  cSIRFReg_NiftiImage_deep_copy dst src :=
    answer "cSIRFReg_NiftiImage_deep_copy" [A_ptr dst; A_ptr src];
  cSIRFReg_NiftiImage_change_datatype x dt :=
    answer "cSIRFReg_NiftiImage_change_datatype" [A_ptr x; A_str dt];
}.

#[export] Instance headers : SirfRegHeaders journal := {
  cSIRFReg_NiftiImage_dump_headers n h0 h1 h2 h3 h4 :=
    answer "cSIRFReg_NiftiImage_dump_headers"
      [A_int n; A_ptr h0; A_ptr h1; A_ptr h2; A_ptr h3; A_ptr h4];
}.

#[export] Instance transformations : SirfRegTransformations journal := {
  cSIRFReg_SIRFRegTransformation_get_as_deformation_field h name ref :=
    answer "cSIRFReg_SIRFRegTransformation_get_as_deformation_field"
      [A_ptr h; A_str name; A_ptr ref];
  cSIRFReg_NiftiImage3DDeformation_compose_single_deformation
    ref n types h0 h1 h2 h3 h4 :=
    answer "cSIRFReg_NiftiImage3DDeformation_compose_single_deformation"
      [A_ptr ref; A_int n; A_str types; A_ptr h0; A_ptr h1; A_ptr h2; A_ptr h3; A_ptr h4];
}.

#[export] Instance mat44 : SirfRegMat44 journal := {
  cSIRFReg_SIRFRegMat44_mul x y := answer "cSIRFReg_SIRFRegMat44_mul" [A_ptr x; A_ptr y];
  cSIRFReg_SIRFRegMat44_get_identity := answer "cSIRFReg_SIRFRegMat44_get_identity" [];
}.

#[export] Instance weighted_mean : SirfRegWeightedMean journal := {
  cSIRFReg_SIRFRegImageWeightedMean_add_image hs im weight :=
    answer "cSIRFReg_SIRFRegImageWeightedMean_add_image" [A_ptr hs; A_ptr im; A_float weight];
  cSIRFReg_SIRFRegImageWeightedMean_add_image_filename hs filename weight :=
    answer "cSIRFReg_SIRFRegImageWeightedMean_add_image_filename"
      [A_ptr hs; A_str filename; A_float weight];
  cSIRFReg_SIRFRegImageWeightedMean_update hs :=
    answer "cSIRFReg_SIRFRegImageWeightedMean_update" [A_ptr hs];
}.

#[export] Instance sources : SirfRegSources journal := {
  cSIRFReg_objectFromFile name src := answer "cSIRFReg_objectFromFile" [A_str name; A_str src];
  cSIRFReg_NiftiImage3D_from_PETImageData h :=
    answer "cSIRFReg_NiftiImage3D_from_PETImageData" [A_ptr h];
  cSIRFReg_NiftiImage3DTensor_construct_from_3_components name h1 h2 h3 :=
    answer "cSIRFReg_NiftiImage3DTensor_construct_from_3_components"
      [A_str name; A_ptr h1; A_ptr h2; A_ptr h3];
  cSIRFReg_SIRFRegMat44_construct_from_TM cells :=
    answer "cSIRFReg_SIRFRegMat44_construct_from_TM" [A_floats cells];
}.

#[export] Instance image_actions : SirfRegImageActions journal := {
  cSIRFReg_NiftiImage_save_to_file h filename :=
    answer "cSIRFReg_NiftiImage_save_to_file" [A_ptr h; A_str filename];
  cSIRFReg_NiftiImage_get_datatype h := answer "cSIRFReg_NiftiImage_get_datatype" [A_ptr h];
  cSIRFReg_NiftiImage3D_copy_data_to h pet :=
    answer "cSIRFReg_NiftiImage3D_copy_data_to" [A_ptr h; A_ptr pet];
  cSIRFReg_NiftiImage3DTensor_save_to_file_split_xyz_components h filename :=
    answer "cSIRFReg_NiftiImage3DTensor_save_to_file_split_xyz_components"
      [A_ptr h; A_str filename];
  cSIRFReg_NiftiImage3DTensor_create_from_3D_image h src :=
    answer "cSIRFReg_NiftiImage3DTensor_create_from_3D_image" [A_ptr h; A_ptr src];
}.

#[export] Instance mat44_actions : SirfRegMat44Actions journal := {
  cSIRFReg_SIRFRegMat44_equal x y := answer "cSIRFReg_SIRFRegMat44_equal" [A_ptr x; A_ptr y];
  cSIRFReg_SIRFRegMat44_deep_copy x := answer "cSIRFReg_SIRFRegMat44_deep_copy" [A_ptr x];
  cSIRFReg_SIRFRegMat44_save_to_file x filename :=
    answer "cSIRFReg_SIRFRegMat44_save_to_file" [A_ptr x; A_str filename];
  cSIRFReg_SIRFRegMat44_fill x v := answer "cSIRFReg_SIRFRegMat44_fill" [A_ptr x; A_float v];
}.

#[export] Instance registrations : SirfRegRegistration journal := {
  cSIRFReg_SIRFReg_update h := answer "cSIRFReg_SIRFReg_update" [A_ptr h];
  cSIRFReg_SIRFReg_get_deformation_displacement_image h which :=
    answer "cSIRFReg_SIRFReg_get_deformation_displacement_image" [A_ptr h; A_str which];
  cSIRFReg_SIRFReg_get_TM h which := answer "cSIRFReg_SIRFReg_get_TM" [A_ptr h; A_str which];
}.

#[export] Instance resample : SirfRegResample journal := {
  cSIRFReg_SIRFRegNiftyResample_add_transformation h src kind :=
    answer "cSIRFReg_SIRFRegNiftyResample_add_transformation" [A_ptr h; A_ptr src; A_str kind];
  cSIRFReg_SIRFRegNiftyResample_update h :=
    answer "cSIRFReg_SIRFRegNiftyResample_update" [A_ptr h];
}.

#[export] Instance channels : SirfRegChannels journal := {
  newTextPrinter s := answer "newTextPrinter" [A_str s];
  newTextWriter s := answer "newTextWriter" [A_str s];
  openChannel channel sink := write (E_open channel sink);
  closeChannel channel sink := write (E_close channel sink);
  deleteTextPrinter sink := answer "deleteTextPrinter" [A_ptr sink];
  deleteTextWriter sink := answer "deleteTextWriter" [A_ptr sink];
}.

(** The journal in which no action fails. *)
Definition blank : journal := Build [] (fun _ => false).

End Journal.

(** * Vocabulary of the statements *)

(** The two [raise error(...)] statements that reject an operand count. *)
Definition compose_arity_message : string :=
  "compose_single_deformation only implemented for up to 5 transformations.".

Definition dump_arity_message : string :=
  "dump_nifti_info only implemented for up to 5 images.".

(** The exceptions the spec calls [UnsupportedArity]. *)
Definition is_UnsupportedArity (e : exn) : bool :=
  match e with
  | error (Literal s) =>
      String.eqb s compose_arity_message || String.eqb s dump_arity_message
  | _ => false
  end.

(** Interpolation kernels and their codes, from the docstring of
    [NiftyResample.set_interpolation_type]:
    "0=nearest neighbour, 1=linear, 3=cubic, 4=sinc". *)
Inductive kernel := nearest_neighbour | linear | cubic_spline | sinc.

Definition kernels : list kernel := [nearest_neighbour; linear; cubic_spline; sinc].

Definition kernel_code (k : kernel) : Z :=
  match k with
  | nearest_neighbour => 0
  | linear => 1
  | cubic_spline => 3
  | sinc => 4
  end.

(** The named setter of each kernel. *)
Definition set_interpolation_type_to {W} `{PyIUtilities W} `{SirfRegSetParameter W}
  (k : kernel) : pyobj -> M W unit :=
  match k with
  | nearest_neighbour => NiftyResample.set_interpolation_type_to_nearest_neighbour
  | linear => NiftyResample.set_interpolation_type_to_linear
  | cubic_spline => NiftyResample.set_interpolation_type_to_cubic_spline
  | sinc => NiftyResample.set_interpolation_type_to_sinc
  end.

(** The constructor call [c()] returns an object in state [w]. *)
Definition init_succeeds {W} `{PyIUtilities W} `{SirfRegObjects W}
  (c : pyclass) (w : W) : Prop :=
  exists o w', __init__ c w = (Ok o, w').

(** The image classes: the subclasses of [NiftiImage]. *)
Definition image_classes : list pyclass :=
  [C_NiftiImage; C_NiftiImage3D; C_NiftiImage3DTensor;
   C_NiftiImage3DDisplacement; C_NiftiImage3DDeformation].

(** An object as its constructor leaves it: [self.name] is the name of its class. *)
Definition constructed (o : pyobj) : Prop := name o = class_name (cls o).

(** The engine serves a deep copy of [A] in state [w]: [A] has a handle, the
    empty object of [A]'s class is created and the native copy reports
    status 0. *)
Definition deep_copy_served {W} `{PyIUtilities W} `{SirfRegObjects W} `{SirfRegImages W}
  (A : pyobj) (w : W) : Prop :=
  is_not_None (handle A) = true /\
  exists image w1,
    __init__ (cls A) w = (Ok image, w1) /\
    executionStatus
      (fst (cSIRFReg_NiftiImage_deep_copy (handle image) (handle A) w1))
      (snd (cSIRFReg_NiftiImage_deep_copy (handle image) (handle A) w1)) = 0%Z.

(** ** Mutations and operators of images *)

(** The ways to mutate an image [C]: the two mutating methods, and the
    augmented assignments [C += x], [C -= x], [C *= x]; the class defines no
    in-place operator, so these rebind [C] to [C + x], [C - x], [C * x]. *)
Inductive mutation :=
| M_fill (val : pyfloat)
| M_change_datatype (datatype : string)
| M_iadd (other : operand)
| M_isub (other : operand)
| M_imul (other : operand).

Definition mutate {W} `{PyIUtilities W} `{SirfRegObjects W} `{SirfRegImages W}
  (C : pyobj) (m : mutation) : M W pyobj :=
  match m with
  | M_fill val => NiftiImage.fill C val;; ret C
  | M_change_datatype datatype => NiftiImage.change_datatype C datatype;; ret C
  | M_iadd other => NiftiImage.__add__ C other
  | M_isub other => NiftiImage.__sub__ C other
  | M_imul other => NiftiImage.__mul__ C other
  end.

Fixpoint mutations {W} `{PyIUtilities W} `{SirfRegObjects W} `{SirfRegImages W}
  (C : pyobj) (ms : list mutation) : M W pyobj :=
  match ms with
  | [] => ret C
  | m :: ms => C' <- mutate C m;; mutations C' ms
  end.

(** The binary operators of [NiftiImage]. *)
Inductive binop := Add | Sub | Mul.

Definition apply_binop {W} `{PyIUtilities W} `{SirfRegObjects W} `{SirfRegImages W}
  (op : binop) (self : pyobj) (other : operand) : M W pyobj :=
  match op with
  | Add => NiftiImage.__add__ self other
  | Sub => NiftiImage.__sub__ self other
  | Mul => NiftiImage.__mul__ self other
  end.

(** * The engine behind the handles

    The source of the native engine ([pysirfreg], [pyiutilities]) is not in
    the repository tree.  Module [Engine] is a model of the part of it that the image,
    affine-matrix and weighted-mean properties depend on, written from the
    spec's data model (section 3), component design (sections 4.1 and 4.6)
    and error kinds (section 7).  Numbers are IEEE binary32 values
    ([spec_float] at precision 24), the type in which the wrapper exports
    voxels and matrices ([numpy.float32]). *)

Module Engine.

(** ** Numbers *)

Definition prec : Z := 24.
Definition emax : Z := 128.

Definition fadd : spec_float -> spec_float -> spec_float := SFadd prec emax.
Definition fsub : spec_float -> spec_float -> spec_float := SFsub prec emax.
Definition fmul : spec_float -> spec_float -> spec_float := SFmul prec emax.
Definition fdiv : spec_float -> spec_float -> spec_float := SFdiv prec emax.

Definition f32_zero : spec_float := S754_zero false.
Definition f32_one : spec_float := S754_finite false 8388608 (-23).

(** Numerical equality ([+0] and [-0] are equal, a NaN equals nothing). *)
Definition feqb (x y : spec_float) : bool := SFeqb x y.

(** A binary32 number, as opposed to an infinity or a NaN. *)
Definition is_number (x : spec_float) : bool :=
  match x with
  | S754_zero _ => true
  | S754_finite _ m e => bounded prec emax m e
  | _ => false
  end.

#[export] Instance spec_float_eq_dec : EqDecision spec_float.
Proof. solve_decision. Defined.

(** ** Error kinds (spec, section 7) *)

Inductive error_kind :=
| IOError
| DimensionMismatch
| ConfigurationError
| UnsupportedArity
| RegistrationFailure
| TypeMismatch.

Definition error_name (e : error_kind) : string :=
  match e with
  | IOError => "IOError"
  | DimensionMismatch => "DimensionMismatch"
  | ConfigurationError => "ConfigurationError"
  | UnsupportedArity => "UnsupportedArity"
  | RegistrationFailure => "RegistrationFailure"
  | TypeMismatch => "TypeMismatch"
  end.

(** ** Data model (spec, section 3) *)

(** Modelled from the spec: the Image of the native engine, "ordered
    dimension vector (up to 8 entries, first entry = rank), voxel datatype,
    contiguous voxel buffer". *)
Record image := Image {
  dim : list Z;
  datatype : string;
  data : list spec_float;
}.

#[export] Instance image_eq_dec : EqDecision image.
Proof. solve_decision. Defined.

(** Modelled from the spec: the image "created empty". *)
Definition empty_image : image := Image [0; 0; 0; 0; 0; 0; 0; 0]%Z "" [].

(** Modelled from the spec: the Affine Matrix of the native engine, "a 4x4
    numeric matrix", stored by rows. *)
Record row := Row { c0 : spec_float; c1 : spec_float; c2 : spec_float; c3 : spec_float }.
Record mat44 := Mat { r0 : row; r1 : row; r2 : row; r3 : row }.

Definition zero_row : row := Row f32_zero f32_zero f32_zero f32_zero.
Definition zero_matrix : mat44 := Mat zero_row zero_row zero_row zero_row.

(** Modelled from the spec: the matrix of the "identity query". *)
Definition identity : mat44 :=
  Mat (Row f32_one f32_zero f32_zero f32_zero)
      (Row f32_zero f32_one f32_zero f32_zero)
      (Row f32_zero f32_zero f32_one f32_zero)
      (Row f32_zero f32_zero f32_zero f32_one).

(** A row times a column, summed left to right in binary32. *)
Definition dot (a : row) (b0 b1 b2 b3 : spec_float) : spec_float :=
  fadd (fadd (fadd (fmul (c0 a) b0) (fmul (c1 a) b1)) (fmul (c2 a) b2)) (fmul (c3 a) b3).

Definition row_times (a : row) (B : mat44) : row :=
  Row (dot a (c0 (r0 B)) (c0 (r1 B)) (c0 (r2 B)) (c0 (r3 B)))
      (dot a (c1 (r0 B)) (c1 (r1 B)) (c1 (r2 B)) (c1 (r3 B)))
      (dot a (c2 (r0 B)) (c2 (r1 B)) (c2 (r2 B)) (c2 (r3 B)))
      (dot a (c3 (r0 B)) (c3 (r1 B)) (c3 (r2 B)) (c3 (r3 B))).

(** Modelled from the spec: the product of the native engine's affine
    matrices, "composable with another Affine Matrix by matrix
    multiplication". *)
Definition mat_mul (A B : mat44) : mat44 :=
  Mat (row_times (r0 A) B) (row_times (r1 A) B) (row_times (r2 A) B) (row_times (r3 A) B).

Definition det3 (a b c d e f g h i : spec_float) : spec_float :=
  fadd (fsub (fmul a (fsub (fmul e i) (fmul f h)))
             (fmul b (fsub (fmul d i) (fmul f g))))
       (fmul c (fsub (fmul d h) (fmul e g))).

(** Modelled from the spec: the "determinant query" of the native engine's
    affine matrix, by cofactor expansion along the first row. *)
Definition determinant (A : mat44) : spec_float :=
  let '(Mat (Row a00 a01 a02 a03) (Row a10 a11 a12 a13)
            (Row a20 a21 a22 a23) (Row a30 a31 a32 a33)) := A in
  fsub (fadd (fsub (fmul a00 (det3 a11 a12 a13 a21 a22 a23 a31 a32 a33))
                   (fmul a01 (det3 a10 a12 a13 a20 a22 a23 a30 a32 a33)))
             (fmul a02 (det3 a10 a11 a13 a20 a21 a23 a30 a31 a33)))
       (fmul a03 (det3 a10 a11 a12 a20 a21 a22 a30 a31 a32)).

(** Entrywise numerical equality. *)
Definition row_eqb (a b : row) : bool :=
  feqb (c0 a) (c0 b) && feqb (c1 a) (c1 b) && feqb (c2 a) (c2 b) && feqb (c3 a) (c3 b).

Definition mat_eqb (A B : mat44) : bool :=
  row_eqb (r0 A) (r0 B) && row_eqb (r1 A) (r1 B) &&
  row_eqb (r2 A) (r2 B) && row_eqb (r3 A) (r3 B).

Definition row_is_number (a : row) : bool :=
  is_number (c0 a) && is_number (c1 a) && is_number (c2 a) && is_number (c3 a).

(** Every entry is a binary32 number: the matrix is an affine matrix. *)
Definition mat_is_number (A : mat44) : bool :=
  row_is_number (r0 A) && row_is_number (r1 A) &&
  row_is_number (r2 A) && row_is_number (r3 A).

(** ** The object store *)

(** Modelled from the spec: what a handle of the native engine refers to,
    "per entity type" of the modelled components. *)
Inductive payload :=
| P_void                                  (* the bare result of an action *)
| P_int (z : Z)
| P_float (x : spec_float)
| P_image (i : image)
| P_mat44 (m : mat44)
| P_mean (acc : list (image * spec_float)) (output : option image).

(** Modelled from the spec: a data handle of the native engine, "every action
    reports success/failure plus an error message string". *)
Record cell := Cell { status : option error_kind; content : payload }.

(** Modelled from the spec: the state of the native engine: live handles,
    the next handle to hand out, and the image files the engine can read. *)
Record world := World {
  heap : gmap nat cell;
  next : nat;
  files : gmap string image;
}.

Definition alloc (c : cell) (w : world) : ptr * world :=
  (Some (next w), World (<[next w := c]> (heap w)) (S (next w)) (files w)).

Definition succeed (p : payload) : world -> ptr * world := alloc (Cell None p).

Definition fail (e : error_kind) : world -> ptr * world := alloc (Cell (Some e) P_void).

Definition store (k : nat) (p : payload) (w : world) : world :=
  World (<[k := Cell None p]> (heap w)) (next w) (files w).

Definition lookup_cell (h : ptr) (w : world) : option cell :=
  match h with
  | Some k => heap w !! k
  | None => None
  end.

Definition image_at (h : ptr) (w : world) : option image :=
  match lookup_cell h w with
  | Some (Cell _ (P_image i)) => Some i
  | _ => None
  end.

Definition mat44_at (h : ptr) (w : world) : option mat44 :=
  match lookup_cell h w with
  | Some (Cell _ (P_mat44 m)) => Some m
  | _ => None
  end.

Definition mean_at (h : ptr) (w : world) : option (list (image * spec_float) * option image) :=
  match lookup_cell h w with
  | Some (Cell _ (P_mean acc out)) => Some (acc, out)
  | _ => None
  end.

(** Handles are handed out in increasing order: nothing lives at or above
    [next]. *)
Definition wf (w : world) : Prop :=
  forall k, next w <= k -> heap w !! k = None.

(** ** Handles and their status (module [pyiutilities]) *)

(** Modelled from the spec: [pyiutil.executionStatus] of the native layer;
    0 for a handle whose action succeeded, non-zero for
    a failed action or a handle that refers to nothing. *)
Definition execution_status (h : ptr) (w : world) : Z :=
  match lookup_cell h w with
  | Some (Cell None _) => 0
  | _ => 1
  end.

(** Modelled from the spec: [pyiutil.executionError], the "error message
    string" of a failed action: here the name of its error kind. *)
Definition execution_error (h : ptr) (w : world) : string :=
  match lookup_cell h w with
  | Some (Cell (Some e) _) => error_name e
  | _ => ""
  end.

(** Modelled from the spec: [pyiutil.deleteDataHandle], the release of a
    handle. *)
Definition delete_data_handle (h : ptr) (w : world) : world :=
  match h with
  | Some k => World (delete k (heap w)) (next w) (files w)
  | None => w
  end.

(** Modelled from the spec: [pyiutil.intDataFromHandle], the integer a data
    handle carries. *)
Definition int_data_from_handle (h : ptr) (w : world) : Z :=
  match lookup_cell h w with
  | Some (Cell _ (P_int z)) => z
  | _ => 0
  end.

(** Modelled from the spec: [pyiutil.floatDataFromHandle], the float a data
    handle carries. *)
Definition float_data_from_handle (h : ptr) (w : world) : spec_float :=
  match lookup_cell h w with
  | Some (Cell _ (P_float x)) => x
  | _ => f32_zero
  end.

(** ** Objects *)

Definition is_image_name (name : string) : bool :=
  existsb (String.eqb name) (map class_name image_classes).

(** Modelled from the spec: [cSIRFReg_newObject] of the native engine, for
    the components modelled here: an image of any of the five image classes
    is "created empty"; so are an affine matrix and a weighted-mean
    aggregator. *)
Definition new_object (name : string) (w : world) : ptr * world :=
  if is_image_name name then succeed (P_image empty_image) w
  else if String.eqb name "SIRFRegMat44" then succeed (P_mat44 zero_matrix) w
  else if String.eqb name "SIRFRegImageWeightedMean" then succeed (P_mean [] None) w
  else fail TypeMismatch w.

(** ** Volumetric image (spec, section 4.1) *)

(** The codes of the elementwise operations, as the wrapper's operators
    [+] (0), [-] (1) and [*] (2) pass them. *)
Definition im_op (code : Z) : option (spec_float -> spec_float -> spec_float) :=
  match code with
  | 0%Z => Some fadd
  | 1%Z => Some fsub
  | _ => None
  end.

Definition num_op (code : Z) : option (spec_float -> spec_float -> spec_float) :=
  match code with
  | 0%Z => Some fadd
  | 1%Z => Some fsub
  | 2%Z => Some fmul
  | _ => None
  end.

(** Modelled from the spec: [cSIRFReg_NiftiImage_maths_im] of the native
    engine, "elementwise add/subtract with another Image of identical
    dimensions (fails with DimensionMismatch otherwise)"; the result is
    written into the image behind [z]. *)
Definition maths_im (z x y : ptr) (code : Z) (w : world) : ptr * world :=
  match z, image_at z w, image_at x w, image_at y w, im_op code with
  | Some kz, Some _, Some ix, Some iy, Some f =>
      if decide (dim ix = dim iy) then
        succeed P_void
          (store kz (P_image (Image (dim ix) (datatype ix)
                                    (zip_with f (data ix) (data iy)))) w)
      else fail DimensionMismatch w
  | _, _, _, _, _ => fail TypeMismatch w
  end.

(** Modelled from the spec: [cSIRFReg_NiftiImage_maths_num] of the native
    engine, elementwise add/subtract "with a scalar (broadcast); scalar
    multiply"; the result is written into the image behind [z]. *)
Definition maths_num (z x : ptr) (v : spec_float) (code : Z) (w : world) : ptr * world :=
  match z, image_at z w, image_at x w, num_op code with
  | Some kz, Some _, Some ix, Some f =>
      succeed P_void
        (store kz (P_image (Image (dim ix) (datatype ix)
                                  (map (fun a => f a v) (data ix)))) w)
  | _, _, _, _ => fail TypeMismatch w
  end.

(** Modelled from the spec: [cSIRFReg_NiftiImage_equal] of the native engine,
    "equality test (bitwise/metadata comparison, not approximate)". *)
Definition equal (x y : ptr) (w : world) : ptr * world :=
  match image_at x w, image_at y w with
  | Some ix, Some iy => succeed (P_int (if decide (ix = iy) then 1 else 0)) w
  | _, _ => fail TypeMismatch w
  end.

(** Modelled from the spec: [cSIRFReg_NiftiImage_fill] of the native engine,
    "fill with a constant". *)
Definition fill (x : ptr) (v : spec_float) (w : world) : ptr * world :=
  match x, image_at x w with
  | Some kx, Some ix =>
      succeed P_void
        (store kx (P_image (Image (dim ix) (datatype ix)
                                  (map (fun _ => v) (data ix)))) w)
  | _, _ => fail TypeMismatch w
  end.

(** Modelled from the spec: [cSIRFReg_NiftiImage_deep_copy] of the native
    engine, "deep-copy (new independent buffer, same metadata)": the image
    behind [dst] becomes a copy of the image behind [src]. *)
Definition deep_copy (dst src : ptr) (w : world) : ptr * world :=
  match dst, image_at dst w, image_at src w with
  | Some kd, Some _, Some isrc => succeed P_void (store kd (P_image isrc) w)
  | _, _, _ => fail TypeMismatch w
  end.

(** Modelled from the spec: [cSIRFReg_NiftiImage_change_datatype] of the
    native engine, "changing datatype performs a value-preserving cast". *)
Definition change_datatype (x : ptr) (dt : string) (w : world) : ptr * world :=
  match x, image_at x w with
  | Some kx, Some ix =>
      succeed P_void (store kx (P_image (Image (dim ix) dt (data ix))) w)
  | _, _ => fail TypeMismatch w
  end.

(** ** Affine matrix *)

(** Modelled from the spec: [cSIRFReg_SIRFRegMat44_mul] of the native engine,
    the product of two affine matrices as a new matrix. *)
Definition mat44_mul (x y : ptr) (w : world) : ptr * world :=
  match mat44_at x w, mat44_at y w with
  | Some a, Some b => succeed (P_mat44 (mat_mul a b)) w
  | _, _ => fail TypeMismatch w
  end.

(** Modelled from the spec: [cSIRFReg_SIRFRegMat44_get_identity] of the
    native engine. *)
Definition mat44_get_identity (w : world) : ptr * world :=
  succeed (P_mat44 identity) w.

(** ** Weighted mean aggregator (spec, section 4.6) *)

(** Modelled from the spec: [cSIRFReg_SIRFRegImageWeightedMean_add_image] of
    the native engine, "accumulates (Image-or-filename, weight) pairs". *)
Definition mean_add_image (hs im : ptr) (weight : spec_float) (w : world) : ptr * world :=
  match hs, mean_at hs w, image_at im w with
  | Some k, Some (acc, out), Some i =>
      succeed P_void (store k (P_mean (acc ++ [(i, weight)]) out) w)
  | _, _, _ => fail TypeMismatch w
  end.

(** Modelled from the spec: the same with the image named by a file; "fails
    with IOError if unreadable". *)
Definition mean_add_image_filename (hs : ptr) (filename : string) (weight : spec_float)
  (w : world) : ptr * world :=
  match hs, mean_at hs w with
  | Some k, Some (acc, out) =>
      match files w !! filename with
      | Some i => succeed P_void (store k (P_mean (acc ++ [(i, weight)]) out) w)
      | None => fail IOError w
      end
  | _, _ => fail TypeMismatch w
  end.

(** sum(weight_i), summed left to right in binary32. *)
Definition total_weight (acc : list (image * spec_float)) : spec_float :=
  fold_left fadd (map snd acc) f32_zero.

Definition same_shape (acc : list (image * spec_float)) : bool :=
  match acc with
  | [] => true
  | (i0, _) :: rest => forallb (fun p => bool_decide (dim (fst p) = dim i0)) rest
  end.

(** Per voxel, sum(weight_i * value_i) / sum(weight_i). *)
Definition weighted_mean (acc : list (image * spec_float)) : option image :=
  match acc with
  | [] => None
  | (i0, _) :: _ =>
      let sums :=
        fold_left (fun s p => zip_with fadd s (map (fmul (snd p)) (data (fst p))))
                  acc (map (fun _ => f32_zero) (data i0)) in
      Some (Image (dim i0) (datatype i0)
                  (map (fun s => fdiv s (total_weight acc)) sums))
  end.

(** Modelled from the spec: [cSIRFReg_SIRFRegImageWeightedMean_update] of
    the native engine: "zero total weight is a ConfigurationError"; the
    images "must share identical dimensions (fails with DimensionMismatch
    otherwise)"; "weights need not sum to 1". *)
Definition mean_update (hs : ptr) (w : world) : ptr * world :=
  match hs, mean_at hs w with
  | Some k, Some (acc, _) =>
      if feqb (total_weight acc) f32_zero then fail ConfigurationError w
      else if negb (same_shape acc) then fail DimensionMismatch w
      else match weighted_mean acc with
           | Some out => succeed P_void (store k (P_mean acc (Some out)) w)
           | None => fail ConfigurationError w
           end
  | _, _ => fail TypeMismatch w
  end.

(** ** Typed parameters *)

(** Modelled from the spec: [cSIRFReg_parameter] of the native engine, for the
    two parameters read in the modelled components: the determinant of an
    affine matrix and the output of the weighted mean. *)
Definition parameter (hs : ptr) (set par : string) (w : world) : ptr * world :=
  if String.eqb set "SIRFRegMat44" && String.eqb par "determinant" then
    match mat44_at hs w with
    | Some m => succeed (P_float (determinant m)) w
    | None => fail TypeMismatch w
    end
  else if String.eqb set "SIRFRegImageWeightedMean" && String.eqb par "output" then
    match mean_at hs w with
    | Some (_, Some out) => succeed (P_image out) w
    | Some (_, None) => fail ConfigurationError w
    | None => fail TypeMismatch w
    end
  else fail TypeMismatch w.

(** ** The engine as an implementation of the native interfaces *)

#[export] Instance pyiutilities : PyIUtilities world := {
  executionStatus := execution_status;
  executionError := execution_error;
  deleteDataHandle := delete_data_handle;
  intDataHandle v := succeed (P_int v);
  intDataFromHandle := int_data_from_handle;
  floatDataFromHandle := float_data_from_handle;
}.

#[export] Instance objects : SirfRegObjects world := {
  cSIRFReg_newObject := new_object;
}.

#[export] Instance get_parameter : SirfRegParameter world := {
  cSIRFReg_parameter := parameter;
}.

#[export] Instance images : SirfRegImages world := {
  cSIRFReg_NiftiImage_maths_im := maths_im;
  cSIRFReg_NiftiImage_maths_num := maths_num;
  cSIRFReg_NiftiImage_equal := equal;
  cSIRFReg_NiftiImage_fill := fill;
  cSIRFReg_NiftiImage_deep_copy := deep_copy;
  cSIRFReg_NiftiImage_change_datatype := change_datatype;
}.

#[export] Instance mat44s : SirfRegMat44 world := {
  cSIRFReg_SIRFRegMat44_mul := mat44_mul;
  cSIRFReg_SIRFRegMat44_get_identity := mat44_get_identity;
}.

#[export] Instance weighted_mean_engine : SirfRegWeightedMean world := {
  cSIRFReg_SIRFRegImageWeightedMean_add_image := mean_add_image;
  cSIRFReg_SIRFRegImageWeightedMean_add_image_filename := mean_add_image_filename;
  cSIRFReg_SIRFRegImageWeightedMean_update := mean_update;
}.

(** ** Vocabulary of the statements about the engine *)

(** The float operation behind each operator. *)
Definition binop_float (op : binop) : spec_float -> spec_float -> spec_float :=
  match op with
  | Add => fadd
  | Sub => fsub
  | Mul => fmul
  end.

(** The operands the spec gives the operators: a scalar, or for [+] and [-]
    an image of the same dimensions as the left operand [i]. *)
Definition operand_fits (op : binop) (other : operand) (i : image) (w : world) : Prop :=
  match other with
  | ONum _ => True
  | OObj X =>
      op <> Mul /\ isinstance X C_NiftiImage = true /\
      exists ix, image_at (handle X) w = Some ix /\ dim ix = dim i
  end.

(** The image [i op other]. *)
Definition binop_result (op : binop) (i : image) (other : operand) (w : world)
  : option image :=
  match other with
  | ONum v =>
      Some (Image (dim i) (datatype i) (map (fun a => binop_float op a v) (data i)))
  | OObj X =>
      match image_at (handle X) w with
      | Some ix =>
          Some (Image (dim i) (datatype i) (zip_with (binop_float op) (data i) (data ix)))
      | None => None
      end
  end.

(** Cell [c] lives at handle [a] of a well-formed store. *)
Definition live (a : nat) (c : cell) (w : world) : Prop :=
  wf w /\ heap w !! a = Some c.

(** Running [m] keeps the cell at [a], and what it returns satisfies [post]. *)
Definition preserves {A} (a : nat) (c : cell) (m : M world A) (post : A -> Prop) : Prop :=
  forall w r w', live a c w -> m w = (r, w') ->
                 live a c w' /\ forall v, r = Ok v -> post v.

(** A native call that leaves the cell at [a] alone and answers with another
    handle. *)
Definition spares (a : nat) (c : cell) (f : world -> ptr * world) : Prop :=
  forall w, live a c w -> live a c (snd (f w)) /\ fst (f w) <> Some a.

(** The store after one handle has been handed out and released again. *)
Definition bump (w : world) : world := World (heap w) (S (next w)) (files w).

(** A zero of either sign. *)
Definition signed_zero (x : spec_float) : Prop := exists s, x = S754_zero s.

(** [y] is [x], up to the sign of a zero. *)
Definition near (y x : spec_float) : Prop :=
  y = x \/ (signed_zero y /\ signed_zero x).

End Engine.

(** * Vocabulary of the further properties *)


(** The digit that stands for a class of transformations in [types]. *)
Definition kind_digit (c : pyclass) : option ascii :=
  match c with
  | C_Mat44 => Some "1"%char
  | C_NiftiImage3DDisplacement => Some "2"%char
  | C_NiftiImage3DDeformation => Some "3"%char
  | _ => None
  end.

(** [l[i].handle], or [None] when the list has no element [i]. *)
Definition handle_at (l : list pyobj) (i : nat) : ptr :=
  match nth_error l i with
  | Some o => handle o
  | None => None
  end.

(** The calls of the wrapper that return a new object. *)
Inductive factory :=
| F_new (c : pyclass)                                   (* c() *)
| F_NiftiImage (src : pyarg)
| F_NiftiImage3D (src : pyarg)
| F_NiftiImage3DTensor (src1 src2 src3 : pyarg)
| F_NiftiImage3DDisplacement (src1 src2 src3 : pyarg)
| F_NiftiImage3DDeformation (src1 src2 src3 : pyarg)
| F_Mat44 (src : pyarg)
| F_get_as_deformation_field (self ref : pyobj)
| F_deep_copy (self : pyobj)
| F_add (self : pyobj) (other : operand)
| F_sub (self : pyobj) (other : operand)
| F_mul (self : pyobj) (other : operand)
| F_compose_single_deformation (trans : list pyobj) (ref : pyobj)
| F_SIRFReg_get_output (self : registration)
| F_get_deformation_field_fwrd (self : registration)
| F_get_deformation_field_back (self : registration)
| F_get_displacement_field_fwrd (self : registration)
| F_get_displacement_field_back (self : registration)
| F_get_transformation_matrix_fwrd (self : registration)
| F_get_transformation_matrix_back (self : registration)
| F_NiftyResample_get_output (self : pyobj)
| F_ImageWeightedMean_get_output (self : pyobj)
| F_Mat44_mul (self other : pyobj)
| F_Mat44_deep_copy (self : pyobj)
| F_Mat44_get_identity
| F_Mat44_fill (self : pyobj) (src : fill_source).

Section Factories.
Context {W : Type} `{PyIUtilities W} `{PyIUtilitiesData W} `{SirfRegObjects W}
        `{SirfRegSetParameter W} `{SirfRegParameter W} `{SirfRegImages W}
        `{SirfRegTransformations W} `{SirfRegMat44 W} `{SirfRegSources W}
        `{SirfRegMat44Actions W} `{SirfRegRegistration W}.

Definition make (f : factory) : M W pyobj :=
  match f with
  | F_new c => __init__ c
  | F_NiftiImage src => NiftiImage.__init__ src
  | F_NiftiImage3D src => NiftiImage3D.__init__ src
  | F_NiftiImage3DTensor src1 src2 src3 => NiftiImage3DTensor.__init__ src1 src2 src3
  | F_NiftiImage3DDisplacement src1 src2 src3 =>
      NiftiImage3DDisplacement.__init__ src1 src2 src3
  | F_NiftiImage3DDeformation src1 src2 src3 =>
      NiftiImage3DDeformation.__init__ src1 src2 src3
  | F_Mat44 src => Mat44.__init__ src
  | F_get_as_deformation_field self ref => Transformation.get_as_deformation_field self ref
  | F_deep_copy self => NiftiImage.deep_copy self
  | F_add self other => NiftiImage.__add__ self other
  | F_sub self other => NiftiImage.__sub__ self other
  | F_mul self other => NiftiImage.__mul__ self other
  | F_compose_single_deformation trans ref =>
      NiftiImage3DDeformation.compose_single_deformation trans ref
  | F_SIRFReg_get_output self => SIRFReg.get_output self
  | F_get_deformation_field_fwrd self => SIRFReg.get_deformation_field_fwrd self
  | F_get_deformation_field_back self => SIRFReg.get_deformation_field_back self
  | F_get_displacement_field_fwrd self => SIRFReg.get_displacement_field_fwrd self
  | F_get_displacement_field_back self => SIRFReg.get_displacement_field_back self
  | F_get_transformation_matrix_fwrd self => NiftyAladinSym.get_transformation_matrix_fwrd self
  | F_get_transformation_matrix_back self => NiftyAladinSym.get_transformation_matrix_back self
  | F_NiftyResample_get_output self => NiftyResample.get_output self
  | F_ImageWeightedMean_get_output self => ImageWeightedMean.get_output self
  | F_Mat44_mul self other => Mat44.__mul__ self other
  | F_Mat44_deep_copy self => Mat44.deep_copy self
  | F_Mat44_get_identity => Mat44.get_identity
  | F_Mat44_fill self src => Mat44.fill self src
  end.
End Factories.

(** The class of the object each call is written to return. *)
Definition made_class (f : factory) : pyclass :=
  match f with
  | F_new c => c
  | F_NiftiImage _ => C_NiftiImage
  | F_NiftiImage3D _ => C_NiftiImage3D
  | F_NiftiImage3DTensor _ _ _ => C_NiftiImage3DTensor
  | F_NiftiImage3DDisplacement _ _ _ => C_NiftiImage3DDisplacement
  | F_NiftiImage3DDeformation _ _ _ => C_NiftiImage3DDeformation
  | F_Mat44 _ => C_Mat44
  | F_get_as_deformation_field _ _ => C_NiftiImage3DDeformation
  | F_deep_copy self | F_add self _ | F_sub self _ | F_mul self _ => cls self
  | F_compose_single_deformation _ _ => C_NiftiImage3DDeformation
  | F_SIRFReg_get_output _ => C_NiftiImage3D
  | F_get_deformation_field_fwrd _ | F_get_deformation_field_back _ =>
      C_NiftiImage3DDeformation
  | F_get_displacement_field_fwrd _ | F_get_displacement_field_back _ =>
      C_NiftiImage3DDisplacement
  | F_get_transformation_matrix_fwrd _ | F_get_transformation_matrix_back _ => C_Mat44
  | F_NiftyResample_get_output _ => C_NiftiImage3D
  | F_ImageWeightedMean_get_output _ => C_NiftiImage
  | F_Mat44_mul _ _ | F_Mat44_deep_copy _ | F_Mat44_get_identity => C_Mat44
  | F_Mat44_fill self _ => cls self
  end.

(** The receiver of a call that copies it or returns it is an object of the
    right kind, as its constructor left it. *)
Definition receiver_constructed (f : factory) : Prop :=
  match f with
  | F_deep_copy self | F_add self _ | F_sub self _ | F_mul self _ =>
      isinstance self C_NiftiImage = true /\ constructed self
  | F_Mat44_fill self _ => constructed self
  | _ => True
  end.

(** [o] is an instance of [c] named as the constructor of [c] names it. *)
Definition typed (c : pyclass) (o : pyobj) : Prop :=
  cls o = c /\ name o = class_name c.

(** Whatever [m] returns satisfies [post]. *)
Definition returns {W A} (m : M W A) (post : A -> Prop) : Prop :=
  forall w a w', m w = (Ok a, w') -> post a.


(** The calls of the wrapper that return no object: setters, actions,
    comparisons and the getters of plain values. *)
Inductive procedure :=
| P_setParameter (hs : ptr) (set par : string) (hv : ptr)
| P_set_char_par (hs : ptr) (set par : string) (value : string)
| P_set_int_par (hs : ptr) (set par : string) (value : Z)
| P_set_float_par (hs : ptr) (set par : string) (value : pyfloat)
| P_char_par (hs : ptr) (set par : string)
| P_int_par (hs : ptr) (set par : string)
| P_float_par (hs : ptr) (set par : string)
| P_float_pars (hs : ptr) (set par : string) (n : Z)
| P_MessageRedirector_del (self : redirector)
| P_NiftiImage_eq (self other : pyobj)
| P_NiftiImage_ne (self other : pyobj)
| P_NiftiImage_save_to_file (self : pyobj) (filename : string)
| P_get_max (self : pyobj)
| P_get_min (self : pyobj)
| P_get_sum (self : pyobj)
| P_NiftiImage_fill (self : pyobj) (val : pyfloat)
| P_get_datatype (self : pyobj)
| P_change_datatype (self : pyobj) (datatype : string)
| P_dump_header (self : pyobj)
| P_dump_headers (to_dump : list pyobj)
| P_copy_data_to (self : pyobj) (pet_image : pyarg)
| P_save_to_file_split_xyz_components (self : pyobj) (filename : string)
| P_create_from_3D_image (self src : pyobj)
| P_set_parameter_file (self : registration) (filename : string)
| P_SIRFReg_set_reference_image (self : registration) (src : pyobj)
| P_SIRFReg_set_floating_image (self : registration) (src : pyobj)
| P_SIRFReg_update (self : registration)
| P_set_floating_time_point (self : registration) (floating_time_point : Z)
| P_set_reference_time_point (self : registration) (reference_time_point : Z)
| P_set_initial_affine_transformation (self : registration) (src : pyobj)
| P_NiftyResample_set_reference_image (self reference_image : pyobj)
| P_NiftyResample_set_floating_image (self floating_image : pyobj)
| P_add_transformation_affine (self src : pyobj)
| P_add_transformation_disp (self src : pyobj)
| P_add_transformation_def (self src : pyobj)
| P_set_interpolation_type (self : pyobj) (type : Z)
| P_set_interpolation_type_to_nearest_neighbour (self : pyobj)
| P_set_interpolation_type_to_linear (self : pyobj)
| P_set_interpolation_type_to_cubic_spline (self : pyobj)
| P_set_interpolation_type_to_sinc (self : pyobj)
| P_NiftyResample_update (self : pyobj)
| P_add_image (self : pyobj) (image : image_source) (weight : pyfloat)
| P_ImageWeightedMean_update (self : pyobj)
| P_Mat44_eq (self other : pyobj)
| P_Mat44_ne (self other : pyobj)
| P_Mat44_save_to_file (self : pyobj) (filename : string)
| P_get_determinant (self : pyobj).

Section Procedures.
Context {W : Type} `{PyIUtilities W} `{PyIUtilitiesData W} `{SirfRegObjects W}
        `{SirfRegSetParameter W} `{SirfRegParameter W} `{SirfRegImages W}
        `{SirfRegHeaders W} `{SirfRegTransformations W} `{SirfRegSources W}
        `{SirfRegImageActions W} `{SirfRegMat44 W} `{SirfRegMat44Actions W}
        `{SirfRegRegistration W} `{SirfRegResample W} `{SirfRegWeightedMean W}
        `{SirfRegChannels W}.

(** Run [m] and drop what it returns. *)
Definition discard {A} (m : M W A) : M W unit := _ <- m;; ret tt.

Definition perform (p : procedure) : M W unit :=
  match p with
  | P_setParameter hs set par hv => _setParameter hs set par hv
  | P_set_char_par hs set par value => _set_char_par hs set par value
  | P_set_int_par hs set par value => _set_int_par hs set par value
  | P_set_float_par hs set par value => _set_float_par hs set par value
  | P_char_par hs set par => discard (_char_par hs set par)
  | P_int_par hs set par => discard (_int_par hs set par)
  | P_float_par hs set par => discard (_float_par hs set par)
  | P_float_pars hs set par n => discard (_float_pars hs set par n)
  | P_MessageRedirector_del self => MessageRedirector.__del__ self
  | P_NiftiImage_eq self other => discard (NiftiImage.__eq__ self other)
  | P_NiftiImage_ne self other => discard (NiftiImage.__ne__ self other)
  | P_NiftiImage_save_to_file self filename => NiftiImage.save_to_file self filename
  | P_get_max self => discard (NiftiImage.get_max self)
  | P_get_min self => discard (NiftiImage.get_min self)
  | P_get_sum self => discard (NiftiImage.get_sum self)
  | P_NiftiImage_fill self val => NiftiImage.fill self val
  | P_get_datatype self => discard (NiftiImage.get_datatype self)
  | P_change_datatype self datatype => NiftiImage.change_datatype self datatype
  | P_dump_header self => NiftiImage.dump_header self
  | P_dump_headers to_dump => NiftiImage.dump_headers to_dump
  | P_copy_data_to self pet_image => NiftiImage3D.copy_data_to self pet_image
  | P_save_to_file_split_xyz_components self filename =>
      NiftiImage3DTensor.save_to_file_split_xyz_components self filename
  | P_create_from_3D_image self src => NiftiImage3DTensor.create_from_3D_image self src
  | P_set_parameter_file self filename => SIRFReg.set_parameter_file self filename
  | P_SIRFReg_set_reference_image self src => SIRFReg.set_reference_image self src
  | P_SIRFReg_set_floating_image self src => SIRFReg.set_floating_image self src
  | P_SIRFReg_update self => SIRFReg.update self
  | P_set_floating_time_point self t => NiftyF3dSym.set_floating_time_point self t
  | P_set_reference_time_point self t => NiftyF3dSym.set_reference_time_point self t
  | P_set_initial_affine_transformation self src =>
      NiftyF3dSym.set_initial_affine_transformation self src
  | P_NiftyResample_set_reference_image self reference_image =>
      NiftyResample.set_reference_image self reference_image
  | P_NiftyResample_set_floating_image self floating_image =>
      NiftyResample.set_floating_image self floating_image
  | P_add_transformation_affine self src => NiftyResample.add_transformation_affine self src
  | P_add_transformation_disp self src => NiftyResample.add_transformation_disp self src
  | P_add_transformation_def self src => NiftyResample.add_transformation_def self src
  | P_set_interpolation_type self type => NiftyResample.set_interpolation_type self type
  | P_set_interpolation_type_to_nearest_neighbour self =>
      NiftyResample.set_interpolation_type_to_nearest_neighbour self
  | P_set_interpolation_type_to_linear self =>
      NiftyResample.set_interpolation_type_to_linear self
  | P_set_interpolation_type_to_cubic_spline self =>
      NiftyResample.set_interpolation_type_to_cubic_spline self
  | P_set_interpolation_type_to_sinc self =>
      NiftyResample.set_interpolation_type_to_sinc self
  | P_NiftyResample_update self => NiftyResample.update self
  | P_add_image self image weight => ImageWeightedMean.add_image self image weight
  | P_ImageWeightedMean_update self => ImageWeightedMean.update self
  | P_Mat44_eq self other => discard (Mat44.__eq__ self other)
  | P_Mat44_ne self other => discard (Mat44.__ne__ self other)
  | P_Mat44_save_to_file self filename => Mat44.save_to_file self filename
  | P_get_determinant self => discard (Mat44.get_determinant self)
  end.

(** Any call of the wrapper, for its effect and its exception. *)
Definition invoke (m : factory + procedure) : M W unit :=
  match m with
  | inl f => discard (make f)
  | inr p => perform p
  end.

(** The three methods of [NiftyResample] that add a transformation, each
    with the tag it passes to the engine and the digit that
    [compose_single_deformation] writes for the class it accepts. *)
Definition adders : list ((pyobj -> pyobj -> M W unit) * string * ascii) :=
  [(NiftyResample.add_transformation_affine, "affine", "1"%char);
   (NiftyResample.add_transformation_disp, "displacement", "2"%char);
   (NiftyResample.add_transformation_def, "deformation", "3"%char)].
End Procedures.

(** ** Exceptions and the state of the engine *)

(** [m] raises no exception of the kind [bad]. *)
Definition never {W A} (bad : exn -> Prop) (m : M W A) : Prop :=
  forall w e w', m w = (Raise e, w') -> ~ bad e.

(** When [m] raises an exception of the kind [bad], the engine is in the
    state it was in before [m]. *)
Definition unspoilt {W A} (bad : exn -> Prop) (m : M W A) : Prop :=
  forall w e w', m w = (Raise e, w') -> bad e -> w' = w.

(** The exception of a failed [assert]. *)
Definition is_AssertionError (e : exn) : Prop := e = AssertionError.

(** The exception of a [raise error('...')] statement of the wrapper. *)
Definition is_wrapper_error (e : exn) : Prop := exists s, e = error (Literal s).

(** [compose_single_deformation], the one call that creates an object before
    it looks at the number of its operands. *)
Definition is_compose (m : factory + procedure) : bool :=
  match m with
  | inl (F_compose_single_deformation _ _) => true
  | _ => false
  end.

(** ** Handles in a journal *)

(** The handles the engine answered with in the entries [new], which were
    written from position [base] on. *)
Fixpoint obtained (base : nat) (new : list Journal.entry) : list ptr :=
  match new with
  | [] => []
  | Journal.E_call _ _ :: rest => Some base :: obtained (S base) rest
  | _ :: rest => obtained (S base) rest
  end.

(** The handles passed to [pyiutil.deleteDataHandle] in [new]. *)
Fixpoint deleted (new : list Journal.entry) : list ptr :=
  match new with
  | [] => []
  | Journal.E_delete h :: rest => h :: deleted rest
  | _ :: rest => deleted rest
  end.

(** [j'] is [j] with the entries [new] written after it. *)
Definition extends (j j' : Journal.journal) (new : list Journal.entry) : Prop :=
  Journal.calls j' = (Journal.calls j ++ new)%list /\
  Journal.failing j' = Journal.failing j.

(** ** Vocabulary of the statements about MessageRedirector *)

(** [type(dest) is type(' ')] once [None] has been replaced by ['']. *)
Definition is_text (dest : destination) : bool :=
  match dest with
  | Dest_other => false
  | _ => true
  end.

(** The string a destination stands for. *)
Definition text_of (dest : destination) : string :=
  match dest with
  | Dest_str s => s
  | _ => ""
  end.

(** The name, in the message of the constructor, of the first argument that
    is not a string. *)
Definition first_wrong (info warn errr : destination) : option string :=
  if negb (is_text info) then Some "info"
  else if negb (is_text warn) then Some "warn"
  else if negb (is_text errr) then Some "errr"
  else None.

(** The native function that makes the sink of a destination, and the one
    that deletes it. *)
Definition sink_maker (s : string) : string :=
  if MessageRedirector.is_stream s then "newTextPrinter" else "newTextWriter".

Definition sink_deleter (s : string) : string :=
  if MessageRedirector.is_stream s then "deleteTextPrinter" else "deleteTextWriter".

(** The channels closed in the entries [new]. *)
Fixpoint closed_channels (new : list Journal.entry) : list Z :=
  match new with
  | [] => []
  | Journal.E_close channel _ :: rest => channel :: closed_channels rest
  | _ :: rest => closed_channels rest
  end.

(** ** Vocabulary of the statements about returned handles *)

(** The receiver of [Mat44.fill] was made before the call. *)
Definition receiver_exists (f : factory) (j : Journal.journal) : Prop :=
  match f with
  | F_Mat44_fill self _ =>
      forall n, handle self = Some n -> (n < List.length (Journal.calls j))%nat
  | _ => True
  end.

(** The getters that create an empty object of the class they return and
    then assign the handle of the engine's answer to it. *)
Definition replaces_handle (f : factory) : bool :=
  match f with
  | F_get_as_deformation_field _ _
  | F_compose_single_deformation _ _
  | F_SIRFReg_get_output _
  | F_get_deformation_field_fwrd _ | F_get_deformation_field_back _
  | F_get_displacement_field_fwrd _ | F_get_displacement_field_back _
  | F_get_transformation_matrix_fwrd _ | F_get_transformation_matrix_back _
  | F_NiftyResample_get_output _ | F_ImageWeightedMean_get_output _
  | F_Mat44_mul _ _ | F_Mat44_deep_copy _ | F_Mat44_get_identity => true
  | _ => false
  end.

(** The calls that return a handle without [check_status] on it, with
    arguments that pass their assertions. *)
Definition unchecked (f : factory) : bool :=
  match f with
  | F_get_transformation_matrix_fwrd self
  | F_get_transformation_matrix_back self => is_not_None (reg_handle self)
  | F_Mat44_get_identity => true
  | F_Mat44_fill self (Fill_ndarray shape _) =>
      is_not_None (handle self) && Mat44.shape_is_4x4 shape
  | _ => false
  end.

(** The calls whose result has been through [check_status]: all but the
    matrix getters of the registration, [Mat44.get_identity] and
    [Mat44.fill]. *)
Definition checks_result (f : factory) : bool :=
  match f with
  | F_get_transformation_matrix_fwrd _
  | F_get_transformation_matrix_back _
  | F_Mat44_get_identity
  | F_Mat44_fill _ _ => false
  | _ => true
  end.

(** The two procedures that go on after a first status check has passed and
    its handle has been released: the destructor of [MessageRedirector]
    (three deletions) and [create_from_3D_image] (a second check, of the
    receiver). *)
Definition checks_again (p : procedure) : bool :=
  match p with
  | P_MessageRedirector_del _ | P_create_from_3D_image _ _ => true
  | _ => false
  end.

(** * Properties of the wrapper, for every engine *)

(** Unfolding the monad. *)
Ltac unfold_monad :=
  unfold bind, ret, raise, call, assert, check_status, try_calling, release in *.

Section General.
Context {W : Type}.
Context `{PyIUtilities W} `{SirfRegObjects W} `{SirfRegSetParameter W}
        `{SirfRegImages W} `{SirfRegHeaders W} `{SirfRegTransformations W}.

Lemma assert_true {A} (k : M W A) w : (assert true;; k) w = k w.
Proof. reflexivity. Qed.

Lemma assert_false {A} (k : M W A) w :
  (assert false;; k) w = (Raise AssertionError, w).
Proof. reflexivity. Qed.

(** The classes whose instances are images. *)
Lemma isinstance_NiftiImage o :
  isinstance o C_NiftiImage = true ->
  cls o = C_NiftiImage \/ cls o = C_NiftiImage3D \/ cls o = C_NiftiImage3DTensor \/
  cls o = C_NiftiImage3DDisplacement \/ cls o = C_NiftiImage3DDeformation.
Proof. destruct o as [[] ? ?]; cbn; intros; try discriminate; tauto. Qed.

(** C1. Composing a one-element chain [[T]] over a reference [R] is the same
    computation as materialising [T] as a deformation field over [R]: same
    native calls, same result or exception, same final engine state. *)
Theorem compose_single_element (T R : pyobj) (w : W) :
  isinstance T C_Transformation = true ->
  NiftiImage3DDeformation.compose_single_deformation [T] R w
  = Transformation.get_as_deformation_field T R w.
Proof.
  intros HT.
  unfold NiftiImage3DDeformation.compose_single_deformation,
    Transformation.get_as_deformation_field.
  destruct (isinstance R C_NiftiImage3D) eqn:HR.
  - rewrite !assert_true.
    unfold all_isinstance; simpl. rewrite HT. simpl.
    reflexivity.
  - rewrite !assert_false. reflexivity.
Qed.
Lemma check_status_not_arity h w e w' :
  check_status h w = (Raise e, w') -> is_UnsupportedArity e = false.
Proof.
  unfold check_status. destruct (Z.eqb _ _); intros E; inversion E; reflexivity.
Qed.

Lemma try_calling_not_arity h w e w' :
  try_calling h w = (Raise e, w') -> is_UnsupportedArity e = false.
Proof.
  unfold try_calling, bind, release.
  destruct (check_status h w) as [[[]|e0] w0] eqn:E; intros E'; inversion E'; subst.
  eapply check_status_not_arity; eauto.
Qed.

Lemma init_not_arity c w e w' :
  __init__ c w = (Raise e, w') -> is_UnsupportedArity e = false.
Proof.
  unfold __init__.
  destruct c; unfold bind, call, ret;
    try (destruct (cSIRFReg_newObject _ w) as [h w0];
         destruct (check_status h w0) as [[[]|e0] w1] eqn:E;
         intros E'; inversion E'; subst;
         eapply check_status_not_arity; eauto).
  intros E; inversion E.
Qed.

Lemma get_as_deformation_field_not_arity T R w e w' :
  Transformation.get_as_deformation_field T R w = (Raise e, w') ->
  is_UnsupportedArity e = false.
Proof.
  unfold Transformation.get_as_deformation_field.
  destruct (isinstance R C_NiftiImage3D).
  - rewrite assert_true. unfold bind at 1.
    destruct (__init__ C_NiftiImage3DDeformation w) as [[z|e0] w0] eqn:Ez.
    + unfold bind, call, ret.
      destruct (cSIRFReg_SIRFRegTransformation_get_as_deformation_field _ _ _ w0)
        as [h w1].
      destruct (check_status h w1) as [[[]|e1] w2] eqn:Ec;
        intros E; inversion E; subst.
      eapply check_status_not_arity; eauto.
    + intros E; inversion E; subst. eapply init_not_arity; eauto.
  - rewrite assert_false. intros E; inversion E; reflexivity.
Qed.

Lemma bind_call {A B} (c : W -> A * W) (k : A -> M W B) w :
  (a <- call c;; k a) w = k (fst (c w)) (snd (c w)).
Proof. unfold bind, call. destruct (c w); reflexivity. Qed.

(** What [compose_single_deformation] does once the output object [z] is
    built and the native routine has answered with [h]. *)
Lemma compose_tail_not_arity (z : pyobj) (c : W -> ptr * W) w e w' :
  (h <- call c;; check_status h;; ret (set_handle z h)) w = (Raise e, w') ->
  is_UnsupportedArity e = false.
Proof.
  unfold bind, call, ret. destruct (c w) as [h w0].
  destruct (check_status h w0) as [[[]|e1] w2] eqn:Ec;
    intros E; inversion E; subst.
  eapply check_status_not_arity; eauto.
Qed.

(** C2. Operand counts.  For a well-typed composition request (the reference
    is a [NiftiImage3D], the chain holds transformations, and the empty
    output object can be created) and a well-typed header-dump request (all
    operands are images): with 0 or more than 5 operands the call raises the
    arity error; with 1 to 5 operands whatever it raises is not the arity
    error. *)
Theorem operand_count_arity (trans to_dump : list pyobj) (ref : pyobj) (w : W) :
  isinstance ref C_NiftiImage3D = true ->
  all_isinstance trans C_Transformation = true ->
  all_isinstance to_dump C_NiftiImage = true ->
  init_succeeds C_NiftiImage3DDeformation w ->
  let n := List.length trans in
  let m := List.length to_dump in
  (n = 0 \/ 5 < n ->
   exists w',
     NiftiImage3DDeformation.compose_single_deformation trans ref w
     = (Raise (error (Literal compose_arity_message)), w')
     /\ is_UnsupportedArity (error (Literal compose_arity_message)) = true) /\
  (1 <= n <= 5 ->
   forall e w',
     NiftiImage3DDeformation.compose_single_deformation trans ref w = (Raise e, w') ->
     is_UnsupportedArity e = false) /\
  (m = 0 \/ 5 < m ->
   NiftiImage.dump_headers to_dump w
   = (Raise (error (Literal dump_arity_message)), w)
   /\ is_UnsupportedArity (error (Literal dump_arity_message)) = true) /\
  (1 <= m <= 5 ->
   forall e w',
     NiftiImage.dump_headers to_dump w = (Raise e, w') ->
     is_UnsupportedArity e = false).
Proof.
  intros Href Htrans Hdump (z & w0 & Hz) n m. subst n m.
  split; [|split; [|split]].
  - (* composition, 0 or more than 5 *)
    intros Hn. exists w0. split; [|reflexivity].
    unfold NiftiImage3DDeformation.compose_single_deformation.
    rewrite Href, Htrans, !assert_true.
    destruct trans as [|t0 [|t1 [|t2 [|t3 [|t4 [|t5 rest]]]]]];
      simpl in Hn; try lia;
      unfold bind at 1; rewrite Hz; reflexivity.
  - (* composition, 1 to 5 *)
    intros Hn e w'.
    unfold NiftiImage3DDeformation.compose_single_deformation.
    rewrite Href, Htrans, !assert_true.
    destruct trans as [|t0 [|t1 [|t2 [|t3 [|t4 [|t5 rest]]]]]];
      simpl in Hn; try lia;
      try apply get_as_deformation_field_not_arity;
      unfold bind at 1; rewrite Hz; apply compose_tail_not_arity.
  - (* header dump, 0 or more than 5 *)
    intros Hm. split; [|reflexivity].
    unfold NiftiImage.dump_headers. rewrite Hdump, assert_true.
    destruct to_dump as [|d0 [|d1 [|d2 [|d3 [|d4 [|d5 rest]]]]]];
      simpl in Hm; try lia; reflexivity.
  - (* header dump, 1 to 5 *)
    intros Hm e w'.
    unfold NiftiImage.dump_headers. rewrite Hdump, assert_true.
    destruct to_dump as [|d0 [|d1 [|d2 [|d3 [|d4 [|d5 rest]]]]]];
      simpl in Hm; try lia;
      rewrite bind_call; apply try_calling_not_arity.
Qed.
Lemma init_constructed c w o w' :
  __init__ c w = (Ok o, w') -> cls o = c /\ name o = class_name c.
Proof.
  unfold __init__. destruct c; unfold bind, call, ret;
    try (destruct (cSIRFReg_newObject _ w) as [h w0];
         destruct (check_status h w0) as [[[]|e0] w1]);
    intros E; inversion E; auto.
Qed.

(** [deep_copy] on a constructed image: the chain of [if]s on [self.name]
    selects the constructor of the receiver's own class. *)
Lemma deep_copy_dispatch c h w :
  In c image_classes ->
  NiftiImage.deep_copy (PyObj c (class_name c) h) w
  = (assert (is_not_None h);;
     image <- __init__ c;;
     s <- call (cSIRFReg_NiftiImage_deep_copy (handle image) h);;
     try_calling s;;
     ret image) w.
Proof.
  intros Hc. unfold NiftiImage.deep_copy. cbn [handle name].
  destruct (is_not_None h); [|reflexivity].
  rewrite !assert_true.
  cbn in Hc.
  destruct Hc as [<-|[<-|[<-|[<-|[<-|[]]]]]]; cbn [class_name String.eqb Ascii.eqb Bool.eqb];
    unfold bind, ret;
    match goal with |- context [__init__ ?c w] => destruct (__init__ c w) as [[i|e] w0] end;
    reflexivity.
Qed.

(** C9. [deep_copy] keeps the concrete class: whenever it returns, the copy
    is an instance of the receiver's class (and carries its name), for each
    of the five image classes; and it does return whenever the engine
    serves the copy. *)
Theorem deep_copy_same_class (A : pyobj) (w : W) :
  isinstance A C_NiftiImage = true ->
  constructed A ->
  (forall C w', NiftiImage.deep_copy A w = (Ok C, w') ->
                cls C = cls A /\ name C = name A) /\
  (deep_copy_served A w ->
   exists C w', NiftiImage.deep_copy A w = (Ok C, w') /\ cls C = cls A).
Proof.
  intros HA Hn.
  assert (Hc : In (cls A) image_classes).
  { apply isinstance_NiftiImage in HA. unfold image_classes.
    destruct HA as [->|[->|[->|[->| ->]]]]; cbn; tauto. }
  destruct A as [c n h]. unfold constructed in Hn. cbn [cls name handle] in *. subst n.
  rewrite (deep_copy_dispatch c h w Hc).
  split.
  - intros C w'.
    destruct (is_not_None h); [|rewrite assert_false; discriminate].
    rewrite assert_true. unfold bind at 1.
    destruct (__init__ c w) as [[image|e] w0] eqn:Ei; [|discriminate].
    apply init_constructed in Ei. destruct Ei as [Ec En].
    rewrite bind_call. unfold bind.
    destruct (try_calling _ _) as [[[]|e] w1]; [|discriminate].
    unfold ret. intros E; inversion E; subst. auto.
  - unfold deep_copy_served. cbn [cls handle].
    intros (Hh & image & w1 & Hi & Hs).
    rewrite Hh, assert_true.
    unfold bind at 1. rewrite Hi. rewrite bind_call.
    unfold bind, try_calling, bind, check_status. rewrite Hs. cbn.
    eexists _, _. split; [reflexivity|].
    apply init_constructed in Hi. tauto.
Qed.

(** C10. [A.dump_header()] and [NiftiImage.dump_headers([A])] are the same
    computation: one native header dump with arity 1 on [A]'s handle (the
    other four operands are [None]), then the status check. *)
Theorem dump_header_singleton (A : pyobj) (w : W) :
  isinstance A C_NiftiImage = true ->
  NiftiImage.dump_header A w = NiftiImage.dump_headers [A] w /\
  NiftiImage.dump_headers [A] w
  = (h <- call (cSIRFReg_NiftiImage_dump_headers 1 (handle A) None None None None);;
     try_calling h) w.
Proof.
  intros HA. unfold NiftiImage.dump_header, NiftiImage.dump_headers.
  unfold all_isinstance. cbn [forallb]. rewrite HA. cbn [andb].
  rewrite assert_true. split; reflexivity.
Qed.

(** C8. The interpolation kernels are numbered 0, 1, 3, 4 (there is no 2),
    and each named setter is [set_interpolation_type] at the code of its
    kernel: it wraps that integer in a data handle, passes it as parameter
    [interpolation_type] of the resampler and checks the status. *)
Theorem interpolation_type_codes :
  map kernel_code kernels = [0; 1; 3; 4]%Z /\
  (forall k, In k kernels) /\
  (forall k, kernel_code k <> 2%Z) /\
  (forall k self,
      set_interpolation_type_to k self
      = NiftyResample.set_interpolation_type self (kernel_code k)) /\
  (forall k self w,
      set_interpolation_type_to k self w
      = let (hv, w1) := intDataHandle (kernel_code k) w in
        let (h, w2) :=
          cSIRFReg_setParameter (handle self) (name self) "interpolation_type" hv w1 in
        if Z.eqb (executionStatus h w2) 0
        then (Ok tt, deleteDataHandle hv (deleteDataHandle h w2))
        else (Raise (error (Status (executionError h w2))), w2)).
Proof.
  split; [reflexivity|].
  split; [intros []; cbn; tauto|].
  split; [intros []; discriminate|].
  split; [intros []; reflexivity|].
  intros k self w.
  destruct k; cbn [set_interpolation_type_to kernel_code];
    unfold NiftyResample.set_interpolation_type_to_nearest_neighbour,
      NiftyResample.set_interpolation_type_to_linear,
      NiftyResample.set_interpolation_type_to_cubic_spline,
      NiftyResample.set_interpolation_type_to_sinc,
      _set_int_par, _setParameter;
    unfold_monad;
    destruct (intDataHandle _ w) as [hv w1];
    destruct (cSIRFReg_setParameter _ _ _ hv w1) as [h w2];
    destruct (Z.eqb _ _); reflexivity.
Qed.
End General.

(** ** The general statements on the recording engine *)

Section OnRecorder.
Import Recorder.

Let a_matrix := PyObj C_Mat44 "SIRFRegMat44" (Some 0).
Let a_reference := PyObj C_NiftiImage3D "NiftiImage3D" (Some 1).
Let an_image := PyObj C_NiftiImage "NiftiImage" (Some 2).
Let a_displacement :=
  PyObj C_NiftiImage3DDisplacement "NiftiImage3DDisplacement" (Some 3).

Lemma compose_single_element_witness :
  isinstance a_matrix C_Transformation = true /\
  NiftiImage3DDeformation.compose_single_deformation [a_matrix] a_reference []
  = Transformation.get_as_deformation_field a_matrix a_reference [].
Proof.
  split; [reflexivity|].
  apply (compose_single_element a_matrix a_reference []). reflexivity.
Defined.

Let six_images := [an_image; an_image; an_image; a_reference; a_displacement; an_image].

Lemma operand_count_arity_witness :
  (exists w',
      NiftiImage3DDeformation.compose_single_deformation [] a_reference []
      = (Raise (error (Literal compose_arity_message)), w')
      /\ is_UnsupportedArity (error (Literal compose_arity_message)) = true) /\
  (forall e w',
      NiftiImage.dump_headers [an_image; a_displacement] [] = (Raise e, w') ->
      is_UnsupportedArity e = false) /\
  (NiftiImage.dump_headers six_images []
   = (Raise (error (Literal dump_arity_message)), [])
   /\ is_UnsupportedArity (error (Literal dump_arity_message)) = true).
Proof.
  assert (Hinit : init_succeeds C_NiftiImage3DDeformation ([] : trace)).
  { eexists _, _. reflexivity. }
  destruct (operand_count_arity [] six_images a_reference []
              eq_refl eq_refl eq_refl Hinit) as (Hc & _ & Hd & _).
  destruct (operand_count_arity [] [an_image; a_displacement] a_reference []
              eq_refl eq_refl eq_refl Hinit) as (_ & _ & _ & Hd').
  split; [apply Hc; left; reflexivity|].
  split; [apply Hd'; cbn; lia|].
  apply Hd; right; cbn; lia.
Defined.

Lemma deep_copy_same_class_witness :
  (isinstance a_displacement C_NiftiImage = true /\ constructed a_displacement) /\
  exists C w',
    NiftiImage.deep_copy a_displacement [] = (Ok C, w')
    /\ cls C = C_NiftiImage3DDisplacement.
Proof.
  split; [split; reflexivity|].
  apply (deep_copy_same_class a_displacement [] eq_refl eq_refl).
  split; [reflexivity|].
  eexists _, _. split; reflexivity.
Defined.

Lemma dump_header_singleton_witness :
  isinstance a_reference C_NiftiImage = true /\
  NiftiImage.dump_header a_reference [] = NiftiImage.dump_headers [a_reference] [].
Proof.
  split; [reflexivity|].
  apply (dump_header_singleton a_reference [] eq_refl).
Defined.

(** What crosses the boundary: the traces of a few calls. *)

Example dump_header_trace :
  NiftiImage.dump_header a_reference []
  = (Ok tt, [N_dump_headers 1 (Some 1) None None None None;
             N_deleteDataHandle (Some 0)]).
Proof. reflexivity. Qed.

Example set_interpolation_type_to_cubic_spline_trace :
  let resampler := PyObj C_NiftyResample "SIRFRegNiftyResample" (Some 7) in
  NiftyResample.set_interpolation_type_to_cubic_spline resampler []
  = (Ok tt, [N_intDataHandle 3;
             N_setParameter (Some 7) "SIRFRegNiftyResample" "interpolation_type" (Some 0);
             N_deleteDataHandle (Some 1);
             N_deleteDataHandle (Some 0)]).
Proof. reflexivity. Qed.

Example compose_two_trace :
  NiftiImage3DDeformation.compose_single_deformation
    [a_matrix; a_displacement] a_reference []
  = (Ok (PyObj C_NiftiImage3DDeformation "NiftiImage3DDeformation" (Some 1)),
     [N_newObject "NiftiImage3DDeformation";
      N_compose_single_deformation (Some 1) 2 "12" (Some 0) (Some 3) None None None]).
Proof. reflexivity. Qed.

Example add_trace :
  NiftiImage.__add__ an_image (OObj a_reference) []
  = (Ok (PyObj C_NiftiImage "NiftiImage" (Some 0)),
     [N_newObject "NiftiImage";
      N_deep_copy (Some 0) (Some 2);
      N_deleteDataHandle (Some 1);
      N_maths_im (Some 0) (Some 2) (Some 1) 0;
      N_deleteDataHandle (Some 3)]).
Proof. reflexivity. Qed.
End OnRecorder.

(** * The wrapper on the modelled engine *)

Section OnEngine.
Import Engine.

(** ** Frame: what a computation leaves alone *)

Lemma live_lt a c w : live a c w -> a < next w.
Proof.
  intros [Hwf Ha]. destruct (Nat.lt_ge_cases a (next w)) as [|Hge]; [done|].
  rewrite (Hwf a Hge) in Ha. discriminate.
Qed.

Lemma live_alloc a c c' w :
  live a c w -> live a c (snd (alloc c' w)) /\ fst (alloc c' w) <> Some a.
Proof.
  intros Hl. pose proof (live_lt _ _ _ Hl) as Hlt. destruct Hl as [Hwf Ha].
  unfold live, wf, alloc in *. cbn [fst snd heap next]. split; [split|].
  - intros k Hk. rewrite lookup_insert_ne by lia. apply Hwf. lia.
  - rewrite lookup_insert_ne by lia. done.
  - intros [=]. lia.
Qed.

Lemma live_store a c k p w :
  live a c w -> k <> a -> is_Some (heap w !! k) -> live a c (store k p w).
Proof.
  intros [Hwf Ha] Hk [ck Hck]. unfold live, wf, store in *. cbn [heap next]. split.
  - intros j Hj. rewrite lookup_insert_ne; [by apply Hwf|].
    intros ->. rewrite (Hwf j Hj) in Hck. discriminate.
  - by rewrite lookup_insert_ne.
Qed.

Lemma live_delete a c h w :
  live a c w -> h <> Some a -> live a c (delete_data_handle h w).
Proof.
  intros [Hwf Ha] Hh. destruct h as [k|]; [|done].
  unfold live, wf, delete_data_handle in *. cbn [heap next]. split.
  - intros j Hj. destruct (decide (k = j)) as [->|].
    + apply lookup_delete_eq.
    + rewrite lookup_delete_ne by done. by apply Hwf.
  - rewrite lookup_delete_ne; [done|]. congruence.
Qed.

Lemma image_at_is_Some k i w : image_at (Some k) w = Some i -> is_Some (heap w !! k).
Proof.
  unfold image_at, lookup_cell. destruct (heap w !! k); [eauto|discriminate].
Qed.

Lemma mean_at_is_Some k x w : mean_at (Some k) w = Some x -> is_Some (heap w !! k).
Proof.
  unfold mean_at, lookup_cell. destruct (heap w !! k); [eauto|discriminate].
Qed.

Ltac spare_step :=
  match goal with
  | |- context [match ?x with _ => _ end] => destruct x eqn:?
  | |- live _ _ (snd (alloc _ _)) /\ _ => apply live_alloc
  | |- live _ _ (store _ _ _) => apply live_store
  | |- is_Some _ => eapply image_at_is_Some; eassumption
  | |- is_Some _ => eapply mean_at_is_Some; eassumption
  | |- _ <> _ => congruence
  | |- _ => assumption
  end.

Ltac spare := intros ? ?; unfold succeed, fail; repeat spare_step.

Lemma spares_new_object a c name : spares a c (new_object name).
Proof. unfold new_object. spare. Qed.

Lemma spares_maths_im a c z x y code :
  z <> Some a -> spares a c (maths_im z x y code).
Proof. intros Hz. unfold maths_im. spare. Qed.

Lemma spares_maths_num a c z x v code :
  z <> Some a -> spares a c (maths_num z x v code).
Proof. intros Hz. unfold maths_num. spare. Qed.

Lemma spares_equal a c x y : spares a c (equal x y).
Proof. unfold equal. spare. Qed.

Lemma spares_fill a c x v : x <> Some a -> spares a c (fill x v).
Proof. intros Hz. unfold fill. spare. Qed.

Lemma spares_deep_copy a c dst src : dst <> Some a -> spares a c (deep_copy dst src).
Proof. intros Hz. unfold deep_copy. spare. Qed.

Lemma spares_change_datatype a c x dt :
  x <> Some a -> spares a c (change_datatype x dt).
Proof. intros Hz. unfold change_datatype. spare. Qed.

(** *** The frame rules of the monad *)

Lemma preserves_ret {A} a c (v : A) (post : A -> Prop) :
  post v -> preserves a c (ret v) post.
Proof. intros Hv w r w' Hl [= <- <-]. split; [done|]. by intros ? [= <-]. Qed.

Lemma preserves_raise {A} a c e (post : A -> Prop) :
  preserves a c (raise e) post.
Proof. intros w r w' Hl [= <- <-]. split; [done|]. discriminate. Qed.

Lemma preserves_bind {A B} a c (m : M world A) (k : A -> M world B)
  (mid : A -> Prop) (post : B -> Prop) :
  preserves a c m mid ->
  (forall v, mid v -> preserves a c (k v) post) ->
  preserves a c (x <- m;; k x) post.
Proof.
  intros Hm Hk w r w' Hl. unfold bind.
  destruct (m w) as [[v|e] w0] eqn:Em.
  - destruct (Hm _ _ _ Hl Em) as [Hl0 Hv]. intros Ek.
    eapply Hk; eauto.
  - destruct (Hm _ _ _ Hl Em) as [Hl0 _]. intros [= <- <-].
    split; [done|]. discriminate.
Qed.

Lemma preserves_assert a c b : preserves a c (assert b) (fun _ => b = true).
Proof. destruct b; [by apply preserves_ret|apply preserves_raise]. Qed.

Lemma preserves_call a c (f : world -> ptr * world) :
  spares a c f -> preserves a c (call f) (fun h => h <> Some a).
Proof.
  intros Hf w r w' Hl. unfold call. destruct (Hf w Hl) as [Hl' Hh].
  destruct (f w) as [h w0]. intros [= <- <-]. split; [done|]. by intros ? [= <-].
Qed.

Lemma preserves_check_status a c h : preserves a c (check_status h) (fun _ => True).
Proof.
  intros w r w' Hl. unfold check_status.
  destruct (Z.eqb _ _); intros [= <- <-]; done.
Qed.

Lemma preserves_release a c h :
  h <> Some a -> preserves a c (release h) (fun _ => True).
Proof.
  intros Hh w r w' Hl [= <- <-]. split; [|done].
  by apply live_delete.
Qed.

Lemma preserves_try_calling a c h :
  h <> Some a -> preserves a c (try_calling h) (fun _ => True).
Proof.
  intros Hh. unfold try_calling.
  eapply preserves_bind; [apply preserves_check_status|].
  intros _ _. by apply preserves_release.
Qed.

(** A native action followed by [try_calling]. *)
Lemma preserves_action a c (f : world -> ptr * world) :
  spares a c f -> preserves a c (h <- call f;; try_calling h) (fun _ => True).
Proof.
  intros Hf. eapply preserves_bind; [by apply preserves_call|].
  intros h Hh. by apply preserves_try_calling.
Qed.

(** *** The frame rules of the wrapper *)

Lemma preserves_init a c cl :
  preserves a c (__init__ cl) (fun o => handle o <> Some a).
Proof.
  assert (Hnew : forall n, preserves a c
            (h <- call (cSIRFReg_newObject n);; check_status h;; ret (PyObj cl (class_name cl) h))
            (fun o => handle o <> Some a)).
  { intros n. eapply preserves_bind; [apply preserves_call, spares_new_object|].
    intros h Hh. eapply preserves_bind; [apply preserves_check_status|].
    intros _ _. by apply preserves_ret. }
  destruct cl; try apply Hnew. by apply preserves_ret.
Qed.

Lemma preserves_deep_copy a c self :
  preserves a c (NiftiImage.deep_copy self) (fun o => handle o <> Some a).
Proof.
  unfold NiftiImage.deep_copy.
  eapply preserves_bind; [apply preserves_assert|]. intros _ _.
  eapply preserves_bind with
    (mid := fun o : option pyobj => forall i, o = Some i -> handle i <> Some a).
  - repeat match goal with
           | |- preserves _ _ (if ?b then _ else _) _ => destruct b
           end;
      try (eapply preserves_bind; [apply preserves_init|];
           intros i Hi; apply preserves_ret; by intros ? [= <-]).
    apply preserves_ret. discriminate.
  - intros [image|] Hi; [|apply preserves_raise].
    specialize (Hi _ eq_refl).
    eapply preserves_bind; [apply preserves_call, spares_deep_copy, Hi|].
    intros h Hh. eapply preserves_bind; [by apply preserves_try_calling|].
    intros _ _. by apply preserves_ret.
Qed.

Lemma preserves_float a c other :
  preserves a c (NiftiImage.float other) (fun _ => True).
Proof. destruct other; [apply preserves_raise|by apply preserves_ret]. Qed.

Lemma preserves_maths a c code self other :
  preserves a c (NiftiImage.maths code self other) (fun o => handle o <> Some a).
Proof.
  unfold NiftiImage.maths.
  eapply preserves_bind; [apply preserves_deep_copy|]. intros z Hz.
  eapply preserves_bind with (mid := fun _ => True).
  - destruct (NiftiImage.operand_is_image other).
    + by apply preserves_action, spares_maths_im.
    + eapply preserves_bind; [apply preserves_float|]. intros x _.
      by apply preserves_action, spares_maths_num.
  - intros _ _. eapply preserves_bind; [apply preserves_check_status|].
    intros _ _. by apply preserves_ret.
Qed.

Lemma preserves_mul a c self other :
  preserves a c (NiftiImage.__mul__ self other) (fun o => handle o <> Some a).
Proof.
  unfold NiftiImage.__mul__.
  eapply preserves_bind; [apply preserves_deep_copy|]. intros z Hz.
  eapply preserves_bind; [apply preserves_float|]. intros x _.
  eapply preserves_bind; [by apply preserves_call, spares_maths_num|]. intros h Hh.
  eapply preserves_bind; [by apply preserves_try_calling|]. intros _ _.
  eapply preserves_bind; [apply preserves_check_status|].
  intros _ _. by apply preserves_ret.
Qed.

Lemma preserves_fill a c self v :
  handle self <> Some a -> preserves a c (NiftiImage.fill self v) (fun _ => True).
Proof.
  intros Hs. unfold NiftiImage.fill.
  eapply preserves_bind; [apply preserves_assert|]. intros _ _.
  by apply preserves_action, spares_fill.
Qed.

Lemma preserves_change_datatype a c self dt :
  handle self <> Some a ->
  preserves a c (NiftiImage.change_datatype self dt) (fun _ => True).
Proof.
  intros Hs. unfold NiftiImage.change_datatype.
  eapply preserves_bind; [apply preserves_assert|]. intros _ _.
  by apply preserves_action, spares_change_datatype.
Qed.

(** *** Running the wrapper on the engine *)

Lemma wf_bump w : wf w -> wf (bump w).
Proof. intros Hwf k Hk. apply Hwf. cbn in Hk. lia. Qed.

Lemma wf_store k p w : wf w -> k < next w -> wf (store k p w).
Proof.
  intros Hwf Hk j Hj. cbn in *. rewrite lookup_insert_ne by lia. by apply Hwf.
Qed.

Lemma wf_alloc c w : wf w -> wf (snd (alloc c w)).
Proof.
  intros Hwf j Hj. cbn in *. rewrite lookup_insert_ne by lia. apply Hwf. lia.
Qed.

Lemma wf_lt k w : wf w -> is_Some (heap w !! k) -> k < next w.
Proof.
  intros Hwf [c Hc]. destruct (Nat.lt_ge_cases k (next w)) as [|Hge]; [done|].
  rewrite (Hwf k Hge) in Hc. discriminate.
Qed.

Lemma wf_delete h w : wf w -> wf (delete_data_handle h w).
Proof.
  intros Hwf. destruct h as [k|]; [|done]. intros j Hj. cbn in *.
  destruct (decide (k = j)) as [->|]; [apply lookup_delete_eq|].
  rewrite lookup_delete_ne by done. by apply Hwf.
Qed.

Ltac keep_wf_step :=
  match goal with
  | |- context [match ?x with _ => _ end] => destruct x eqn:?
  | |- wf (snd (alloc _ _)) => apply wf_alloc
  | |- wf (store _ _ _) => apply wf_store
  | |- _ < next _ => apply wf_lt
  | |- is_Some _ => eapply image_at_is_Some; eassumption
  | |- is_Some _ => eapply mean_at_is_Some; eassumption
  | |- _ => assumption
  end.

Ltac keep_wf := unfold succeed, fail; repeat keep_wf_step.

(** Well-formedness is an invariant of the engine: it holds of the empty
    store and every operation keeps it. *)
Lemma engine_keeps_wf w :
  wf w ->
  (forall h, wf (delete_data_handle h w)) /\
  (forall v, wf (snd (succeed (P_int v) w))) /\
  (forall name, wf (snd (new_object name w))) /\
  (forall hs set par, wf (snd (parameter hs set par w))) /\
  (forall z x y code, wf (snd (maths_im z x y code w))) /\
  (forall z x v code, wf (snd (maths_num z x v code w))) /\
  (forall x y, wf (snd (equal x y w))) /\
  (forall x v, wf (snd (fill x v w))) /\
  (forall dst src, wf (snd (deep_copy dst src w))) /\
  (forall x dt, wf (snd (change_datatype x dt w))) /\
  (forall x y, wf (snd (mat44_mul x y w))) /\
  wf (snd (mat44_get_identity w)) /\
  (forall hs im weight, wf (snd (mean_add_image hs im weight w))) /\
  (forall hs filename weight, wf (snd (mean_add_image_filename hs filename weight w))) /\
  (forall hs, wf (snd (mean_update hs w))).
Proof.
  intros Hwf. repeat split; intros.
  - by apply wf_delete.
  - keep_wf.
  - unfold new_object. keep_wf.
  - unfold parameter. keep_wf.
  - unfold maths_im. keep_wf.
  - unfold maths_num. keep_wf.
  - unfold equal. keep_wf.
  - unfold fill. keep_wf.
  - unfold deep_copy. keep_wf.
  - unfold change_datatype. keep_wf.
  - unfold mat44_mul. keep_wf.
  - unfold mat44_get_identity. keep_wf.
  - unfold mean_add_image. keep_wf.
  - unfold mean_add_image_filename. keep_wf.
  - unfold mean_update. keep_wf.
Qed.

Lemma check_status_alloc_ok p w :
  check_status (Some (next w)) (snd (succeed p w)) = (Ok tt, snd (succeed p w)).
Proof.
  unfold check_status. cbn. unfold execution_status, lookup_cell. cbn.
  by rewrite lookup_insert_eq.
Qed.

Lemma release_alloc c w :
  wf w -> delete_data_handle (Some (next w)) (snd (alloc c w)) = bump w.
Proof.
  intros Hwf. unfold delete_data_handle, alloc, bump. cbn.
  rewrite delete_insert_id; [done|]. by apply Hwf.
Qed.

Lemma try_calling_succeed p w :
  wf w -> try_calling (Some (next w)) (snd (succeed p w)) = (Ok tt, bump w).
Proof.
  intros Hwf. unfold try_calling, bind. rewrite check_status_alloc_ok.
  unfold release, succeed. cbn [deleteDataHandle pyiutilities].
  by rewrite release_alloc.
Qed.

(** An action that succeeds, followed by [try_calling]. *)
Lemma action_succeed (f : world -> ptr * world) p w w0 :
  f w = succeed p w0 -> wf w0 ->
  (h <- call f;; try_calling h) w = (Ok tt, bump w0).
Proof.
  intros Ef Hwf. rewrite bind_call, Ef. by apply try_calling_succeed.
Qed.

Lemma action_succeed_then {B} (f : world -> ptr * world) (k : M world B) p w w0 :
  f w = succeed p w0 -> wf w0 ->
  (h <- call f;; try_calling h;; k) w = k (bump w0).
Proof.
  intros Ef Hwf. rewrite bind_call, Ef. unfold bind.
  change (fst (succeed p w0)) with (Some (next w0)).
  by rewrite try_calling_succeed.
Qed.

(** An action that fails, followed by [try_calling]. *)
Lemma action_fail (f : world -> ptr * world) e w w0 :
  f w = fail e w0 ->
  (h <- call f;; try_calling h) w
  = (Raise (error (Status (error_name e))), snd (fail e w0)).
Proof.
  intros Ef. rewrite bind_call, Ef. cbn [fst snd fail alloc].
  unfold try_calling, bind, check_status. cbn.
  unfold execution_status, execution_error, lookup_cell. cbn.
  by rewrite lookup_insert_eq.
Qed.

Lemma new_object_image c w :
  In c image_classes ->
  new_object (class_name c) w = succeed (P_image empty_image) w.
Proof.
  intros Hc. cbn in Hc.
  destruct Hc as [<-|[<-|[<-|[<-|[<-|[]]]]]]; reflexivity.
Qed.

Lemma init_image c w :
  In c image_classes ->
  __init__ c w
  = (Ok (PyObj c (class_name c) (Some (next w))), snd (succeed (P_image empty_image) w)).
Proof.
  intros Hc.
  assert (__init__ c w
          = (h <- call (cSIRFReg_newObject (class_name c));;
             check_status h;; ret (PyObj c (class_name c) h)) w) as ->.
  { cbn in Hc. destruct Hc as [<-|[<-|[<-|[<-|[<-|[]]]]]]; reflexivity. }
  rewrite bind_call. cbn [cSIRFReg_newObject objects].
  rewrite (new_object_image c w Hc). cbn [fst snd succeed alloc].
  unfold bind. change (World _ _ _) with (snd (succeed (P_image empty_image) w)).
  rewrite check_status_alloc_ok. reflexivity.
Qed.

Lemma image_at_insert_eq k st i h n f :
  image_at (Some k) (World (<[k := Cell st (P_image i)]> h) n f) = Some i.
Proof. unfold image_at, lookup_cell. cbn. by rewrite lookup_insert_eq. Qed.

Lemma image_at_old x i k c w n :
  wf w -> image_at x w = Some i -> next w <= k ->
  image_at x (World (<[k := c]> (heap w)) n (files w)) = Some i.
Proof.
  intros Hwf Hx Hk. destruct x as [kx|]; [|discriminate].
  pose proof (image_at_is_Some _ _ _ Hx) as [cx Hcx].
  assert (kx <> k).
  { intros ->. rewrite (Hwf k Hk) in Hcx. discriminate. }
  revert Hx. unfold image_at, lookup_cell. cbn. by rewrite lookup_insert_ne.
Qed.

(** [deep_copy] on a live image: the copy lives at the next handle and holds
    the receiver's image; two handles are used up. *)
Lemma deep_copy_run A i w :
  wf w -> isinstance A C_NiftiImage = true -> constructed A ->
  image_at (handle A) w = Some i ->
  NiftiImage.deep_copy A w
  = (Ok (PyObj (cls A) (name A) (Some (next w))),
     World (<[next w := Cell None (P_image i)]> (heap w)) (S (S (next w))) (files w)).
Proof.
  intros Hwf HA Hn Hi.
  assert (Hc : In (cls A) image_classes).
  { apply isinstance_NiftiImage in HA. unfold image_classes.
    destruct HA as [->|[->|[->|[->| ->]]]]; cbn; tauto. }
  destruct A as [c n h]. unfold constructed in Hn. cbn [cls name handle] in *. subst n.
  rewrite (deep_copy_dispatch c h w Hc).
  destruct h as [a|]; [|discriminate]. cbn [is_not_None]. rewrite assert_true.
  unfold bind at 1. rewrite (init_image c w Hc). cbn [handle snd succeed alloc].
  set (w1 := World _ (S (next w)) _).
  assert (Hw1 : wf w1) by (apply (wf_alloc _ w Hwf)).
  assert (Hcopy : cSIRFReg_NiftiImage_deep_copy (Some (next w)) (Some a) w1
                  = succeed P_void (store (next w) (P_image i) w1)).
  { cbn [cSIRFReg_NiftiImage_deep_copy images]. unfold deep_copy.
    subst w1. rewrite image_at_insert_eq.
    rewrite (image_at_old (Some a) i (next w) _ w _ Hwf Hi (le_n _)). reflexivity. }
  rewrite (action_succeed_then _ _ _ _ _ Hcopy).
  - unfold ret, bump, store. subst w1. cbn [heap next files].
    by rewrite insert_insert_eq.
  - apply wf_store; [done|]. subst w1. cbn. lia.
Qed.

Lemma preserves_mutate a c C m :
  handle C <> Some a -> preserves a c (mutate C m) (fun o => handle o <> Some a).
Proof.
  intros HC. destruct m; cbn [mutate].
  - eapply preserves_bind; [by apply preserves_fill|]. intros _ _. by apply preserves_ret.
  - eapply preserves_bind; [by apply preserves_change_datatype|].
    intros _ _. by apply preserves_ret.
  - apply preserves_maths.
  - apply preserves_maths.
  - apply preserves_mul.
Qed.

Lemma preserves_mutations a c ms : forall C,
  handle C <> Some a -> preserves a c (mutations C ms) (fun _ => True).
Proof.
  induction ms as [|m ms IH]; intros C HC; cbn [mutations].
  - by apply preserves_ret.
  - eapply preserves_bind; [by apply preserves_mutate|]. intros C' HC'. by apply IH.
Qed.

Lemma wf_insert k c w n :
  wf w -> k < n -> next w <= n -> wf (World (<[k := c]> (heap w)) n (files w)).
Proof.
  intros Hwf Hk Hn j Hj. cbn in *. rewrite lookup_insert_ne by lia. apply Hwf. lia.
Qed.

Lemma eq_run A C i w :
  wf w -> isinstance C C_NiftiImage = true ->
  image_at (handle A) w = Some i -> image_at (handle C) w = Some i ->
  NiftiImage.__eq__ A C w = (Ok 1%Z, bump w).
Proof.
  intros Hwf HC HA Hi. unfold NiftiImage.__eq__. rewrite HC, assert_true.
  rewrite bind_call. cbn [cSIRFReg_NiftiImage_equal images]. unfold equal.
  rewrite HA, Hi. rewrite decide_True by done.
  cbn [fst snd succeed alloc]. unfold bind.
  change (World _ _ _) with (snd (succeed (P_int 1) w)).
  rewrite check_status_alloc_ok.
  cbn [intDataFromHandle pyiutilities]. unfold int_data_from_handle, lookup_cell.
  cbn [snd succeed alloc heap]. rewrite lookup_insert_eq.
  unfold release. cbn [deleteDataHandle pyiutilities].
  change (World _ _ _) with (snd (alloc (Cell None (P_int 1)) w)).
  by rewrite release_alloc.
Qed.

(** C3. A deep copy [C] of a live image [A] is equal to [A] right after the
    copy ([A == C] answers 1), lives behind another handle and holds [A]'s
    voxels and metadata; and whatever is then done to [C] (fill,
    change_datatype, [+=], [-=], [*=], in any number and order, succeeding or
    raising), the image behind [A] stays what it was. *)
Theorem deep_copy_independent (A : pyobj) (i : image) (w : world) :
  wf w ->
  isinstance A C_NiftiImage = true ->
  constructed A ->
  image_at (handle A) w = Some i ->
  exists C w1,
    NiftiImage.deep_copy A w = (Ok C, w1) /\
    handle C <> handle A /\
    image_at (handle C) w1 = Some i /\
    image_at (handle A) w1 = Some i /\
    fst (NiftiImage.__eq__ A C w1) = Ok 1%Z /\
    forall ms r w2, mutations C ms w1 = (r, w2) -> image_at (handle A) w2 = Some i.
Proof.
  intros Hwf HA Hn Hi.
  eexists _, _. split; [by apply (deep_copy_run A i w)|].
  set (w1 := World _ _ _). cbn [handle].
  destruct (handle A) as [a|] eqn:Ea; [|discriminate].
  pose proof (image_at_is_Some _ _ _ Hi) as [ca Hca].
  assert (Hlt : a < next w).
  { apply (live_lt a ca w). by split. }
  assert (Hw1 : wf w1) by (apply wf_insert; [done|lia..]).
  assert (HA1 : image_at (Some a) w1 = Some i).
  { by apply (image_at_old (Some a) i (next w) _ w). }
  assert (HC1 : image_at (Some (next w)) w1 = Some i) by apply image_at_insert_eq.
  split; [intros [=]; lia|]. split; [done|]. split; [done|]. split.
  - assert (HA1' : image_at (handle A) w1 = Some i) by (by rewrite Ea).
    by rewrite (eq_run A (PyObj (cls A) (name A) (Some (next w))) i w1 Hw1 HA HA1' HC1).
  - intros ms r w2 Hrun.
    assert (Hl1 : live a ca w1).
    { split; [done|]. subst w1. cbn. by rewrite lookup_insert_ne by lia. }
    assert (HC : handle (PyObj (cls A) (name A) (Some (next w))) <> Some a).
    { cbn. intros [=]. lia. }
    destruct (preserves_mutations a ca ms _ HC _ _ _ Hl1 Hrun) as [[_ Ha2] _].
    revert Hi. unfold image_at, lookup_cell. by rewrite Hca, Ha2.
Qed.

Lemma check_status_live k p w :
  heap w !! k = Some (Cell None p) -> check_status (Some k) w = (Ok tt, w).
Proof.
  intros Hk. unfold check_status. cbn [executionStatus pyiutilities].
  unfold execution_status, lookup_cell. by rewrite Hk.
Qed.

(** The code each operator passes to the engine selects its float operation. *)
Lemma num_op_binop op :
  num_op (match op with Add => 0 | Sub => 1 | Mul => 2 end)%Z = Some (binop_float op).
Proof. by destruct op. Qed.

Lemma im_op_binop op :
  op <> Mul ->
  im_op (match op with Add => 0 | Sub => 1 | Mul => 2 end)%Z = Some (binop_float op).
Proof. by destruct op. Qed.

(** A binary operator on a live image and a fitting operand: the result lives
    at the next handle; three handles are used up. *)
Lemma apply_binop_run op A i other res w :
  wf w -> isinstance A C_NiftiImage = true -> constructed A ->
  image_at (handle A) w = Some i ->
  operand_fits op other i w ->
  binop_result op i other w = Some res ->
  apply_binop op A other w
  = (Ok (PyObj (cls A) (name A) (Some (next w))),
     World (<[next w := Cell None (P_image res)]> (heap w))
           (S (S (S (next w)))) (files w)).
Proof.
  intros Hwf HA Hn Hi Hfit Hres.
  pose proof (deep_copy_run A i w Hwf HA Hn Hi) as Hcopy.
  set (w1 := World (<[next w := Cell None (P_image i)]> (heap w)) (S (S (next w))) (files w))
    in *.
  assert (Hw1 : wf w1) by (apply wf_insert; [done|lia..]).
  assert (HA1 : image_at (handle A) w1 = Some i).
  { by apply (image_at_old (handle A) i (next w) _ w). }
  assert (HZ1 : image_at (Some (next w)) w1 = Some i) by apply image_at_insert_eq.
  assert (Hend : forall w2 : world,
             w2 = bump (store (next w) (P_image res) w1) ->
             (check_status (Some (next w));;
              ret (PyObj (cls A) (name A) (Some (next w)))) w2
             = (Ok (PyObj (cls A) (name A) (Some (next w))),
                World (<[next w := Cell None (P_image res)]> (heap w))
                      (S (S (S (next w)))) (files w))).
  { intros w2 ->. unfold bind.
    rewrite (check_status_live (next w) (P_image res)).
    - unfold ret, bump, store. subst w1. cbn [heap next files].
      by rewrite insert_insert_eq.
    - cbn. by rewrite lookup_insert_eq. }
  assert (Hstore : wf (store (next w) (P_image res) w1)).
  { apply wf_store; [done|]. subst w1. cbn. lia. }
  destruct other as [X|v].
  - (* an image operand *)
    destruct Hfit as (Hop & HX & ix & Hix & Hdim).
    cbn [binop_result] in Hres. rewrite Hix in Hres. injection Hres as <-.
    assert (HX1 : image_at (handle X) w1 = Some ix).
    { by apply (image_at_old (handle X) ix (next w) _ w). }
    assert (Hnative : forall code,
               im_op code = Some (binop_float op) ->
               cSIRFReg_NiftiImage_maths_im (Some (next w)) (handle A) (handle X) code w1
               = succeed P_void
                   (store (next w)
                      (P_image (Image (dim i) (datatype i)
                                      (zip_with (binop_float op) (data i) (data ix)))) w1)).
    { intros code Hcode. cbn [cSIRFReg_NiftiImage_maths_im images]. unfold maths_im.
      rewrite HZ1, HA1, HX1, Hcode. by rewrite decide_True. }
    assert (Hmaths : forall code,
               im_op code = Some (binop_float op) ->
               NiftiImage.maths code A (OObj X) w
               = (Ok (PyObj (cls A) (name A) (Some (next w))),
                  World (<[next w := Cell None (P_image
                            (Image (dim i) (datatype i)
                               (zip_with (binop_float op) (data i) (data ix))))]> (heap w))
                        (S (S (S (next w)))) (files w))).
    { intros code Hcode. unfold NiftiImage.maths. unfold bind at 1. rewrite Hcopy.
      cbn [handle NiftiImage.operand_is_image NiftiImage.operand_handle]. rewrite HX.
      unfold bind at 1.
      rewrite (action_succeed _ _ _ _ (Hnative code Hcode) Hstore).
      by apply Hend. }
    destruct op; [apply Hmaths, (im_op_binop Add Hop)
                 |apply Hmaths, (im_op_binop Sub Hop)|done].
  - (* a scalar operand *)
    cbn [binop_result] in Hres. injection Hres as <-.
    assert (Hnative : forall code,
               num_op code = Some (binop_float op) ->
               cSIRFReg_NiftiImage_maths_num (Some (next w)) (handle A) v code w1
               = succeed P_void
                   (store (next w)
                      (P_image (Image (dim i) (datatype i)
                                      (map (fun a => binop_float op a v) (data i)))) w1)).
    { intros code Hcode. cbn [cSIRFReg_NiftiImage_maths_num images]. unfold maths_num.
      by rewrite HZ1, HA1, Hcode. }
    assert (Hmaths : forall code,
               num_op code = Some (binop_float op) ->
               NiftiImage.maths code A (ONum v) w
               = (Ok (PyObj (cls A) (name A) (Some (next w))),
                  World (<[next w := Cell None (P_image
                            (Image (dim i) (datatype i)
                               (map (fun a => binop_float op a v) (data i))))]> (heap w))
                        (S (S (S (next w)))) (files w))).
    { intros code Hcode. unfold NiftiImage.maths. unfold bind at 1. rewrite Hcopy.
      cbn [handle NiftiImage.operand_is_image NiftiImage.float].
      unfold bind at 1. unfold bind at 1. unfold ret at 1.
      rewrite (action_succeed _ _ _ _ (Hnative code Hcode) Hstore).
      by apply Hend. }
    destruct op; [apply Hmaths, (num_op_binop Add)|apply Hmaths, (num_op_binop Sub)|].
    cbn [apply_binop]. unfold NiftiImage.__mul__. unfold bind at 1. rewrite Hcopy.
    cbn [handle NiftiImage.float]. unfold bind at 1. unfold ret at 1.
    rewrite (action_succeed_then _ _ _ _ _ (Hnative 2%Z eq_refl) Hstore).
    by apply Hend.
Qed.

Lemma preserves_apply_binop a c op self other :
  preserves a c (apply_binop op self other) (fun o => handle o <> Some a).
Proof. destruct op; [apply preserves_maths..|apply preserves_mul]. Qed.

(** C4. The binary operators [+], [-], [*] of a live image [A]: whatever the
    right operand and whatever the outcome, the cells behind [A] and behind
    an image operand are unchanged; and with the operands the spec gives them
    (a scalar, or for [+] and [-] an image of the same dimensions) they return
    a new object whose handle was not in use before and which holds the
    elementwise result. *)
Theorem binary_operators_copy (op : binop) (A : pyobj) (i : image)
  (other : operand) (w : world) :
  wf w ->
  isinstance A C_NiftiImage = true ->
  constructed A ->
  image_at (handle A) w = Some i ->
  (forall r w',
      apply_binop op A other w = (r, w') ->
      lookup_cell (handle A) w' = lookup_cell (handle A) w /\
      forall X, other = OObj X -> is_Some (lookup_cell (handle X) w) ->
                lookup_cell (handle X) w' = lookup_cell (handle X) w) /\
  (operand_fits op other i w ->
   exists Z w' res,
     apply_binop op A other w = (Ok Z, w') /\
     lookup_cell (handle Z) w = None /\
     binop_result op i other w = Some res /\
     image_at (handle Z) w' = Some res).
Proof.
  intros Hwf HA Hn Hi. split.
  - intros r w' Hrun.
    assert (Hframe : forall h, is_Some (lookup_cell h w) ->
                               lookup_cell h w' = lookup_cell h w).
    { intros [k|] [ck Hk]; [|done]. cbn [lookup_cell] in *.
      destruct (preserves_apply_binop k ck op A other w r w' (conj Hwf Hk) Hrun)
        as [[_ Hk'] _].
      by rewrite Hk, Hk'. }
    split.
    + apply Hframe. destruct (handle A) as [a|]; [|discriminate].
      by apply (image_at_is_Some a i w).
    + intros X _. apply Hframe.
  - intros Hfit.
    assert (Hres : exists res, binop_result op i other w = Some res).
    { destruct other as [X|v]; cbn; [|eauto].
      destruct Hfit as (_ & _ & ix & -> & _). eauto. }
    destruct Hres as [res Hres].
    eexists _, _, res. split; [by apply (apply_binop_run op A i other res w)|].
    split; [cbn; by apply Hwf|]. split; [done|].
    cbn [handle]. apply image_at_insert_eq.
Qed.

(** ** Binary32 arithmetic with 0 and 1 *)

Lemma bounded_inv m e :
  bounded prec emax m e = true ->
  fexp prec emax (Z.pos (digits2_pos m) + e) = e /\ (e <= emax - prec)%Z.
Proof.
  unfold bounded, canonical_mantissa. intros Hb.
  apply andb_true_iff in Hb. destruct Hb as [Hc He].
  apply Z.eqb_eq in Hc. apply Z.leb_le in He. auto.
Qed.

(** Shifting a mantissa that ends in 23 zero bits by 23 places loses nothing. *)
Lemma shr_exact_23 p e :
  shr (Build_shr_record (Z.pos p~0~0~0~0~0~0~0~0~0~0~0~0~0~0~0~0~0~0~0~0~0~0~0)
                        false false) e 23
  = (Build_shr_record (Z.pos p) false false, (e + 23)%Z).
Proof. reflexivity. Qed.

Lemma digits_shift_23 p :
  Z.pos (digits2_pos p~0~0~0~0~0~0~0~0~0~0~0~0~0~0~0~0~0~0~0~0~0~0~0)
  = (Z.pos (digits2_pos p) + 23)%Z.
Proof. cbn [digits2_pos]. lia. Qed.

(** 1 * x is x, exactly: the product has the mantissa of [x] shifted left by
    the 23 fraction bits of 1.0, and rounding shifts it back. *)
Lemma fmul_one_l x : is_number x = true -> fmul f32_one x = x.
Proof.
  destruct x as [s|s| |s m e]; cbn [is_number]; try discriminate.
  - reflexivity.
  - intros Hb. apply bounded_inv in Hb. destruct Hb as [Hc He].
    unfold fmul, f32_one, SFmul.
    change (8388608 * m)%positive
      with (m~0~0~0~0~0~0~0~0~0~0~0~0~0~0~0~0~0~0~0~0~0~0~0)%positive.
    unfold binary_round_aux, shr_fexp.
    unfold Zdigits2 at 1. rewrite digits_shift_23.
    replace (Z.pos (digits2_pos m) + 23 + (-23 + e))%Z
      with (Z.pos (digits2_pos m) + e)%Z by lia.
    fold prec emax. rewrite Hc.
    replace (e - (-23 + e))%Z with 23%Z by lia.
    cbn [shr_record_of_loc]. rewrite shr_exact_23.
    cbn [shr_m loc_of_shr_record round_nearest_even Zdigits2].
    replace (-23 + e + 23)%Z with e by lia.
    rewrite Hc. rewrite Z.sub_diag. cbn [shr shr_m].
    apply Z.leb_le in He. fold prec emax. rewrite He. reflexivity.
Qed.

Lemma fmul_zero_l x : is_number x = true -> signed_zero (fmul f32_zero x).
Proof. destruct x; cbn; try discriminate; intros _; eexists; reflexivity. Qed.

Lemma fadd_zero_zero a b : signed_zero a -> signed_zero b -> signed_zero (fadd a b).
Proof. intros [[] ->] [[] ->]; eexists; reflexivity. Qed.

Lemma fadd_zero_l a x :
  signed_zero a -> is_number x = true -> near (fadd a x) x.
Proof.
  intros [sa ->] Hx. destruct x as [s|s| |s m e]; try discriminate.
  - right. split; [|by eexists]. by apply fadd_zero_zero; eexists.
  - by left.
Qed.

Lemma fadd_zero_r y x b :
  near y x -> is_number x = true -> signed_zero b -> near (fadd y b) x.
Proof.
  intros [->|[Hy Hx]] Hn [sb ->].
  - destruct x as [s|s| |s m e]; try discriminate.
    + right. split; [|by eexists]. by apply fadd_zero_zero; eexists.
    + by left.
  - right. split; [|done]. apply fadd_zero_zero; [done|by eexists].
Qed.

Lemma near_refl x : near x x.
Proof. by left. Qed.

Lemma near_feqb y x : is_number x = true -> near y x -> feqb y x = true.
Proof.
  intros Hn [->|[[sy ->] [sx ->]]]; [|reflexivity].
  destruct x as [s|s| |s m e]; try discriminate; [reflexivity|].
  unfold feqb, SFeqb, SFcompare.
  destruct s; rewrite Z.compare_refl, Pos.compare_cont_refl; reflexivity.
Qed.

Create HintDb f32 discriminated.
#[local] Hint Resolve fmul_zero_l fadd_zero_zero fadd_zero_l fadd_zero_r near_refl : f32.

Section UnitRows.
Variables x0 x1 x2 x3 : spec_float.
Hypothesis H0 : is_number x0 = true.
Hypothesis H1 : is_number x1 = true.
Hypothesis H2 : is_number x2 = true.
Hypothesis H3 : is_number x3 = true.

Lemma dot_unit_0 :
  feqb (dot (Row f32_one f32_zero f32_zero f32_zero) x0 x1 x2 x3) x0 = true.
Proof.
  unfold dot. cbn [c0 c1 c2 c3]. rewrite fmul_one_l by done.
  apply near_feqb; [done|]. auto 10 with f32.
Qed.

Lemma dot_unit_1 :
  feqb (dot (Row f32_zero f32_one f32_zero f32_zero) x0 x1 x2 x3) x1 = true.
Proof.
  unfold dot. cbn [c0 c1 c2 c3]. rewrite fmul_one_l by done.
  apply near_feqb; [done|]. auto 10 with f32.
Qed.

Lemma dot_unit_2 :
  feqb (dot (Row f32_zero f32_zero f32_one f32_zero) x0 x1 x2 x3) x2 = true.
Proof.
  unfold dot. cbn [c0 c1 c2 c3]. rewrite fmul_one_l by done.
  apply near_feqb; [done|]. auto 10 with f32.
Qed.

Lemma dot_unit_3 :
  feqb (dot (Row f32_zero f32_zero f32_zero f32_one) x0 x1 x2 x3) x3 = true.
Proof.
  unfold dot. cbn [c0 c1 c2 c3]. rewrite fmul_one_l by done.
  apply near_feqb; [done|]. auto 10 with f32.
Qed.
End UnitRows.

(** The identity is a left unit of the binary32 matrix product, entry by
    entry, on matrices of numbers. *)
Lemma mat_mul_identity_l (X : mat44) :
  mat_is_number X = true -> mat_eqb (mat_mul identity X) X = true.
Proof.
  destruct X as [[a00 a01 a02 a03] [a10 a11 a12 a13]
                 [a20 a21 a22 a23] [a30 a31 a32 a33]].
  unfold mat_is_number, row_is_number. cbn [r0 r1 r2 r3 c0 c1 c2 c3].
  intros Hn.
  repeat match goal with
         | H : _ && _ = true |- _ => apply andb_true_iff in H; destruct H
         end.
  unfold mat_eqb, row_eqb, mat_mul, row_times, identity.
  cbn [r0 r1 r2 r3 c0 c1 c2 c3].
  rewrite !dot_unit_0, !dot_unit_1, !dot_unit_2, !dot_unit_3 by assumption.
  reflexivity.
Qed.

Lemma determinant_identity : determinant identity = f32_one.
Proof. reflexivity. Qed.

(** ** Affine matrices on the engine *)

Lemma mat44_at_insert_eq k st m h n f :
  mat44_at (Some k) (World (<[k := Cell st (P_mat44 m)]> h) n f) = Some m.
Proof. unfold mat44_at, lookup_cell. cbn. by rewrite lookup_insert_eq. Qed.

Lemma mat44_at_old x m k c w n :
  wf w -> mat44_at x w = Some m -> next w <= k ->
  mat44_at x (World (<[k := c]> (heap w)) n (files w)) = Some m.
Proof.
  intros Hwf Hx Hk. destruct x as [kx|]; [|discriminate].
  assert (kx <> k).
  { intros ->. revert Hx. unfold mat44_at, lookup_cell. by rewrite (Hwf k Hk). }
  revert Hx. unfold mat44_at, lookup_cell. cbn. by rewrite lookup_insert_ne.
Qed.

Lemma init_mat44 w :
  __init__ C_Mat44 w
  = (Ok (PyObj C_Mat44 "SIRFRegMat44" (Some (next w))),
     snd (succeed (P_mat44 zero_matrix) w)).
Proof.
  unfold __init__. rewrite bind_call. cbn [cSIRFReg_newObject objects class_name].
  change (new_object "SIRFRegMat44" w) with (succeed (P_mat44 zero_matrix) w).
  cbn [fst snd succeed alloc]. unfold bind.
  change (World _ _ _) with (snd (succeed (P_mat44 zero_matrix) w)).
  by rewrite check_status_alloc_ok.
Qed.

Lemma get_identity_run w :
  Mat44.get_identity w
  = (Ok (PyObj C_Mat44 "SIRFRegMat44" (Some (S (next w)))),
     World (<[S (next w) := Cell None (P_mat44 identity)]>
              (<[next w := Cell None (P_mat44 zero_matrix)]> (heap w)))
           (S (S (next w))) (files w)).
Proof.
  unfold Mat44.get_identity. unfold bind at 1. rewrite init_mat44. reflexivity.
Qed.

Lemma mul_run M X a b w :
  wf w -> isinstance X C_Mat44 = true ->
  mat44_at (handle M) w = Some a -> mat44_at (handle X) w = Some b ->
  Mat44.__mul__ M X w
  = (Ok (PyObj C_Mat44 "SIRFRegMat44" (Some (S (next w)))),
     World (<[S (next w) := Cell None (P_mat44 (mat_mul a b))]>
              (<[next w := Cell None (P_mat44 zero_matrix)]> (heap w)))
           (S (S (next w))) (files w)).
Proof.
  intros Hwf HX Ha Hb. unfold Mat44.__mul__. rewrite HX, assert_true.
  unfold bind at 1. rewrite init_mat44. cbn [snd succeed alloc].
  rewrite bind_call. cbn [cSIRFReg_SIRFRegMat44_mul mat44s]. unfold mat44_mul.
  rewrite (mat44_at_old _ a (next w) _ w _ Hwf Ha (le_n _)).
  rewrite (mat44_at_old _ b (next w) _ w _ Hwf Hb (le_n _)).
  cbn [fst snd succeed alloc heap next files]. unfold bind.
  rewrite (check_status_live (S (next w)) (P_mat44 (mat_mul a b))); [done|].
  cbn. by rewrite lookup_insert_eq.
Qed.

Lemma get_determinant_run M a w :
  wf w -> name M = "SIRFRegMat44" -> mat44_at (handle M) w = Some a ->
  Mat44.get_determinant M w = (Ok (determinant a), bump w).
Proof.
  intros Hwf Hn Ha. unfold Mat44.get_determinant, _float_par. rewrite Hn.
  rewrite bind_call. cbn [cSIRFReg_parameter get_parameter]. unfold parameter.
  cbn [String.eqb Ascii.eqb Bool.eqb andb]. rewrite Ha.
  cbn [fst snd succeed alloc]. unfold bind.
  change (World _ _ _) with (snd (succeed (P_float (determinant a)) w)).
  rewrite check_status_alloc_ok.
  cbn [floatDataFromHandle pyiutilities]. unfold float_data_from_handle, lookup_cell.
  cbn [snd succeed alloc heap]. rewrite lookup_insert_eq.
  unfold release. cbn [deleteDataHandle pyiutilities].
  change (World _ _ _) with (snd (alloc (Cell None (P_float (determinant a))) w)).
  by rewrite release_alloc.
Qed.

(** C5. On the engine, [M = Mat44.get_identity()] is a left unit: for every
    affine matrix [X] (a live matrix whose entries are binary32 numbers),
    [M * X] returns a matrix whose entries are numerically equal to those of
    [X] (so within every tolerance), and [M.get_determinant()] returns 1. *)
Theorem identity_is_left_unit (X : pyobj) (m : mat44) (w : world) :
  wf w ->
  isinstance X C_Mat44 = true ->
  mat44_at (handle X) w = Some m ->
  mat_is_number m = true ->
  exists M w1,
    Mat44.get_identity w = (Ok M, w1) /\
    (exists P w2 p,
        Mat44.__mul__ M X w1 = (Ok P, w2) /\
        mat44_at (handle P) w2 = Some p /\
        mat_eqb p m = true) /\
    fst (Mat44.get_determinant M w1) = Ok f32_one.
Proof.
  intros Hwf HX Hm Hnum.
  eexists _, _. split; [apply get_identity_run|].
  set (w1 := World _ _ _).
  assert (Hw1 : wf w1).
  { intros k Hk. subst w1. cbn in *. rewrite !lookup_insert_ne by lia. apply Hwf. lia. }
  assert (HM1 : mat44_at (Some (S (next w))) w1 = Some identity)
    by apply mat44_at_insert_eq.
  assert (HX1 : mat44_at (handle X) w1 = Some m).
  { pose proof (mat44_at_old (handle X) m (next w)
                  (Cell None (P_mat44 zero_matrix)) w (S (next w)) Hwf Hm (le_n _)) as H0.
    pose proof (mat44_at_old (handle X) m (S (next w))
                  (Cell None (P_mat44 identity)) _ (S (S (next w)))
                  (wf_alloc (Cell None (P_mat44 zero_matrix)) w Hwf) H0 (le_n _)) as H1.
    exact H1. }
  split.
  - eexists _, _, _. split; [by apply (mul_run _ X identity m w1)|].
    cbn [handle]. split; [apply mat44_at_insert_eq|].
    by apply mat_mul_identity_l.
  - rewrite (get_determinant_run _ identity w1) by done.
    cbn [fst]. by rewrite determinant_identity.
Qed.

(** ** The weighted mean on the engine *)

Lemma update_run_zero self acc out w :
  mean_at (handle self) w = Some (acc, out) ->
  feqb (total_weight acc) f32_zero = true ->
  ImageWeightedMean.update self w
  = (Raise (error (Status "ConfigurationError")), snd (fail ConfigurationError w)).
Proof.
  intros Hs Hz. unfold ImageWeightedMean.update.
  apply (action_fail _ ConfigurationError w w).
  cbn [cSIRFReg_SIRFRegImageWeightedMean_update weighted_mean_engine].
  unfold mean_update. destruct (handle self) as [k|]; [|discriminate].
  by rewrite Hs, Hz.
Qed.

Lemma update_run_mean self acc out res w :
  wf w ->
  mean_at (handle self) w = Some (acc, out) ->
  feqb (total_weight acc) f32_zero = false ->
  same_shape acc = true ->
  weighted_mean acc = Some res ->
  exists k,
    handle self = Some k /\
    ImageWeightedMean.update self w
    = (Ok tt, bump (store k (P_mean acc (Some res)) w)).
Proof.
  intros Hwf Hs Hz Hsh Hres.
  destruct (handle self) as [k|] eqn:Hk; [|discriminate].
  exists k. split; [done|]. unfold ImageWeightedMean.update. rewrite Hk.
  apply (action_succeed _ P_void).
  - cbn [cSIRFReg_SIRFRegImageWeightedMean_update weighted_mean_engine].
    unfold mean_update. by rewrite Hs, Hz, Hsh, Hres.
  - apply wf_store; [done|].
    destruct (mean_at_is_Some _ _ _ Hs) as [ck Hck].
    apply (live_lt k ck w). by split.
Qed.

(** C7. An aggregator whose accumulated weights sum to zero: [update()]
    raises the engine's [ConfigurationError].  Any other total will do: when
    the total is not zero and the images share their dimensions, [update()]
    returns and the aggregator holds the weighted mean. *)
Theorem weighted_mean_zero_total (self : pyobj) acc out (w : world) :
  wf w ->
  mean_at (handle self) w = Some (acc, out) ->
  (feqb (total_weight acc) f32_zero = true ->
   exists w',
     ImageWeightedMean.update self w
     = (Raise (error (Status (error_name ConfigurationError))), w')) /\
  (feqb (total_weight acc) f32_zero = false ->
   same_shape acc = true ->
   exists w' res,
     ImageWeightedMean.update self w = (Ok tt, w') /\
     weighted_mean acc = Some res /\
     mean_at (handle self) w' = Some (acc, Some res)).
Proof.
  intros Hwf Hs. split.
  - intros Hz. eexists. by apply (update_run_zero self acc out w).
  - intros Hz Hsh.
    assert (Hres : exists res, weighted_mean acc = Some res).
    { destruct acc as [|[i0 w0] rest]; [discriminate|]. cbn. eauto. }
    destruct Hres as [res Hres].
    destruct (update_run_mean self acc out res w Hwf Hs Hz Hsh Hres) as (k & Hk & Hrun).
    eexists _, res. split; [exact Hrun|]. split; [done|].
    rewrite Hk. unfold mean_at, lookup_cell, bump, store. cbn [heap].
    by rewrite lookup_insert_eq.
Qed.

(** ** Accumulating images through the wrapper *)

Lemma add_image_run self o i weight acc out k w :
  wf w -> handle self = Some k ->
  mean_at (Some k) w = Some (acc, out) ->
  isinstance o C_NiftiImage = true ->
  image_at (handle o) w = Some i ->
  ImageWeightedMean.add_image self (SrcObj o) weight w
  = (Ok tt, bump (store k (P_mean (acc ++ [(i, weight)]) out) w)).
Proof.
  intros Hwf Hk Hs Ho Hi. unfold ImageWeightedMean.add_image. rewrite Ho, Hk.
  apply (action_succeed _ P_void).
  - cbn [cSIRFReg_SIRFRegImageWeightedMean_add_image weighted_mean_engine].
    unfold mean_add_image. by rewrite Hs, Hi.
  - apply wf_store; [done|].
    destruct (mean_at_is_Some _ _ _ Hs) as [ck Hck].
    apply (live_lt k ck w). by split.
Qed.

(** ** Concrete runs *)

Lemma wf_empty f : wf (World ∅ 0 f).
Proof. intros k _. apply lookup_empty. Qed.

Let f32_two : spec_float := S754_finite false 8388608 (-22).
Let f32_three : spec_float := S754_finite false 12582912 (-22).
Let f32_minus_one : spec_float := S754_finite true 8388608 (-23).

(** Two voxels along x. *)
Let img_a : image := Image [3; 2; 1; 1; 1; 1; 1; 1]%Z "float" [f32_one; f32_two].
Let img_b : image := Image [3; 2; 1; 1; 1; 1; 1; 1]%Z "float" [f32_three; f32_minus_one].

Let w_images : world :=
  snd (alloc (Cell None (P_image img_b))
         (snd (alloc (Cell None (P_image img_a)) (World ∅ 0 ∅)))).

Let image_A := PyObj C_NiftiImage3D "NiftiImage3D" (Some 0).
Let image_B := PyObj C_NiftiImage3D "NiftiImage3D" (Some 1).

Lemma wf_w_images : wf w_images.
Proof. apply wf_alloc, wf_alloc, wf_empty. Qed.

Lemma deep_copy_independent_witness :
  exists C w1,
    NiftiImage.deep_copy image_A w_images = (Ok C, w1) /\
    handle C <> handle image_A /\
    image_at (handle C) w1 = Some img_a /\
    image_at (handle image_A) w1 = Some img_a /\
    fst (NiftiImage.__eq__ image_A C w1) = Ok 1%Z /\
    forall ms r w2, mutations C ms w1 = (r, w2) ->
                    image_at (handle image_A) w2 = Some img_a.
Proof.
  apply (deep_copy_independent image_A img_a w_images);
    [apply wf_w_images|reflexivity|reflexivity|reflexivity].
Defined.

(** The copy does change under its mutations, the original does not. *)
Example fill_the_copy :
  match NiftiImage.deep_copy image_A w_images with
  | (Ok C, w1) =>
      match mutations C [M_fill f32_three; M_change_datatype "double"] w1 with
      | (Ok C', w2) =>
          image_at (handle C') w2 = Some (Image (dim img_a) "double" [f32_three; f32_three])
          /\ image_at (handle image_A) w2 = Some img_a
      | _ => False
      end
  | _ => False
  end.
Proof. vm_compute. split; reflexivity. Qed.

Lemma binary_operators_copy_witness :
  (operand_fits Sub (OObj image_B) img_a w_images) /\
  exists Z w' res,
    apply_binop Sub image_A (OObj image_B) w_images = (Ok Z, w') /\
    lookup_cell (handle Z) w_images = None /\
    binop_result Sub img_a (OObj image_B) w_images = Some res /\
    image_at (handle Z) w' = Some res.
Proof.
  assert (Hfit : operand_fits Sub (OObj image_B) img_a w_images).
  { split; [discriminate|]. split; [reflexivity|].
    exists img_b. split; reflexivity. }
  split; [exact Hfit|].
  apply (binary_operators_copy Sub image_A img_a (OObj image_B) w_images
           wf_w_images eq_refl eq_refl eq_refl).
  exact Hfit.
Defined.

Example subtract_images :
  match apply_binop Sub image_A (OObj image_B) w_images with
  | (Ok Z, w') =>
      image_at (handle Z) w'
      = Some (Image (dim img_a) "float"
                [S754_finite true 8388608 (-22); f32_three])
      /\ image_at (handle image_A) w' = Some img_a
      /\ image_at (handle image_B) w' = Some img_b
  | _ => False
  end.
Proof. vm_compute. repeat split; reflexivity. Qed.

(** Binary32 rounding in [(A + s) - s]: with the voxel 1 and the scalar 2^24
    the sum rounds to 2^24 and the difference is 0. *)
Example add_then_subtract_rounds :
  let s := S754_finite false 8388608 1 in
  match apply_binop Add image_A (ONum s) w_images with
  | (Ok Z, w') =>
      match apply_binop Sub Z (ONum s) w' with
      | (Ok Z', w'') =>
          image_at (handle Z') w''
          = Some (Image (dim img_a) "float" [S754_zero false; f32_two])
      | _ => False
      end
  | _ => False
  end.
Proof. vm_compute. reflexivity. Qed.

(** An affine matrix: a scaling and a translation. *)
Let affine : mat44 :=
  Mat (Row f32_two f32_zero f32_zero f32_three)
      (Row f32_zero f32_one f32_zero f32_minus_one)
      (Row f32_zero f32_zero f32_three f32_zero)
      (Row f32_zero f32_zero f32_zero f32_one).

Let w_matrix : world := snd (alloc (Cell None (P_mat44 affine)) (World ∅ 0 ∅)).
Let matrix_X := PyObj C_Mat44 "SIRFRegMat44" (Some 0).

Lemma identity_is_left_unit_witness :
  exists M w1,
    Mat44.get_identity w_matrix = (Ok M, w1) /\
    (exists P w2 p,
        Mat44.__mul__ M matrix_X w1 = (Ok P, w2) /\
        mat44_at (handle P) w2 = Some p /\
        mat_eqb p affine = true) /\
    fst (Mat44.get_determinant M w1) = Ok f32_one.
Proof.
  apply (identity_is_left_unit matrix_X affine w_matrix);
    [apply wf_alloc, wf_empty|reflexivity|reflexivity|reflexivity].
Defined.

(** An aggregator holding the given pairs. *)
Let w_mean (acc : list (image * spec_float)) : world :=
  snd (alloc (Cell None (P_mean acc None)) w_images).
Let aggregator := PyObj C_ImageWeightedMean "SIRFRegImageWeightedMean" (Some 2).

(** The wrapper builds such an aggregator. *)
Example accumulate_two :
  let w0 := w_mean [] in
  match ImageWeightedMean.add_image aggregator (SrcObj image_A) f32_one w0 with
  | (Ok _, w1) =>
      match ImageWeightedMean.add_image aggregator (SrcObj image_B) f32_minus_one w1 with
      | (Ok _, w2) =>
          mean_at (handle aggregator) w2
          = Some ([(img_a, f32_one); (img_b, f32_minus_one)], None)
      | _ => False
      end
  | _ => False
  end.
Proof. vm_compute. reflexivity. Qed.

Lemma weighted_mean_zero_total_witness :
  (exists w',
      ImageWeightedMean.update aggregator
        (w_mean [(img_a, f32_one); (img_b, f32_minus_one)])
      = (Raise (error (Status "ConfigurationError")), w')) /\
  (exists w' res,
      ImageWeightedMean.update aggregator
        (w_mean [(img_a, f32_two); (img_b, f32_three)]) = (Ok tt, w') /\
      weighted_mean [(img_a, f32_two); (img_b, f32_three)] = Some res /\
      mean_at (handle aggregator) w' = Some ([(img_a, f32_two); (img_b, f32_three)], Some res)).
Proof.
  split.
  - apply (weighted_mean_zero_total aggregator
             [(img_a, f32_one); (img_b, f32_minus_one)] None
             (w_mean [(img_a, f32_one); (img_b, f32_minus_one)])
             (wf_alloc _ _ wf_w_images) eq_refl).
    reflexivity.
  - apply (weighted_mean_zero_total aggregator
             [(img_a, f32_two); (img_b, f32_three)] None
             (w_mean [(img_a, f32_two); (img_b, f32_three)])
             (wf_alloc _ _ wf_w_images) eq_refl); reflexivity.
Defined.

End OnEngine.

(** * Further properties of the wrapper, for every engine *)

Ltac unfold_wrapper :=
  cbv beta iota delta
    [invoke perform make discard
     _setParameter _set_char_par _set_int_par _set_float_par _char_par _int_par
     _float_par _float_pars _getParameterHandle try_calling
     MessageRedirector.__del__ MessageRedirector.close_sink
     Transformation.get_as_deformation_field
     NiftiImage.__init__ NiftiImage.deep_copy NiftiImage.maths NiftiImage.float
     NiftiImage.__add__ NiftiImage.__sub__ NiftiImage.__mul__ NiftiImage.__eq__
     NiftiImage.__ne__ NiftiImage.save_to_file NiftiImage.get_max NiftiImage.get_min
     NiftiImage.get_sum NiftiImage.fill NiftiImage.get_datatype
     NiftiImage.change_datatype NiftiImage.dump_header NiftiImage.dump_headers
     NiftiImage3D.__init__ NiftiImage3D.copy_data_to
     NiftiImage3DTensor.__init__ NiftiImage3DTensor.tensor_init
     NiftiImage3DTensor.save_to_file_split_xyz_components
     NiftiImage3DTensor.create_from_3D_image
     NiftiImage3DDisplacement.__init__ NiftiImage3DDeformation.__init__
     NiftiImage3DDeformation.compose_single_deformation
     SIRFReg.set_parameter_file SIRFReg.set_reference_image SIRFReg.set_floating_image
     SIRFReg.get_output SIRFReg.update SIRFReg.get_deformation_field_fwrd
     SIRFReg.get_deformation_field_back SIRFReg.get_displacement_field_fwrd
     SIRFReg.get_displacement_field_back
     NiftyAladinSym.get_transformation_matrix_fwrd
     NiftyAladinSym.get_transformation_matrix_back
     NiftyF3dSym.set_floating_time_point NiftyF3dSym.set_reference_time_point
     NiftyF3dSym.set_initial_affine_transformation
     NiftyResample.set_reference_image NiftyResample.set_floating_image
     NiftyResample.add_transformation_affine NiftyResample.add_transformation_disp
     NiftyResample.add_transformation_def NiftyResample.set_interpolation_type
     NiftyResample.set_interpolation_type_to_nearest_neighbour
     NiftyResample.set_interpolation_type_to_linear
     NiftyResample.set_interpolation_type_to_cubic_spline
     NiftyResample.set_interpolation_type_to_sinc
     NiftyResample.update NiftyResample.get_output
     ImageWeightedMean.add_image ImageWeightedMean.update ImageWeightedMean.get_output
     Mat44.__init__ Mat44.__mul__ Mat44.get_determinant Mat44.get_identity
     Mat44.__eq__ Mat44.__ne__ Mat44.deep_copy Mat44.save_to_file Mat44.fill].

(** ** The type string of a chain *)

Lemma type_code_digit n :
  isinstance n C_Transformation = true ->
  NiftiImage3DDeformation.type_code n
  = match kind_digit (cls n) with
    | Some d => String d EmptyString
    | None => EmptyString
    end.
Proof. destruct n as [[] ? ?]; cbn; intros; try discriminate; reflexivity. Qed.

Lemma append_empty_r (s : string) : s ++ "" = s.
Proof.
  induction s as [|a s IH]; [reflexivity|].
  change (String a (s ++ "") = String a s). by rewrite IH.
Qed.

Lemma append_assoc (s1 s2 s3 : string) : (s1 ++ s2) ++ s3 = s1 ++ (s2 ++ s3).
Proof.
  induction s1 as [|a s1 IH]; [reflexivity|].
  change (String a ((s1 ++ s2) ++ s3) = String a (s1 ++ (s2 ++ s3))). by rewrite IH.
Qed.

Lemma types_of_fold trans : forall acc,
  fold_left (fun types n => types ++ NiftiImage3DDeformation.type_code n) trans acc
  = acc ++ NiftiImage3DDeformation.types_of trans.
Proof.
  unfold NiftiImage3DDeformation.types_of.
  induction trans as [|n trans IH]; intros acc; cbn [fold_left].
  - by rewrite append_empty_r.
  - rewrite IH. rewrite (IH ("" ++ _)). cbn [String.append].
    by rewrite append_assoc.
Qed.

Lemma types_of_cons n trans :
  NiftiImage3DDeformation.types_of (n :: trans)
  = NiftiImage3DDeformation.type_code n ++ NiftiImage3DDeformation.types_of trans.
Proof.
  unfold NiftiImage3DDeformation.types_of at 1. cbn [fold_left].
  by rewrite types_of_fold.
Qed.

(** X1. The string [types] that [compose_single_deformation] builds for a
    chain of affine matrices, displacement fields and deformation fields has
    one character per element, in the order of the chain: '1', '2' or '3'
    for the class of the element at that position. *)
Theorem types_of_in_step (trans : list pyobj) :
  Forall (fun n => is_Some (kind_digit (cls n))) trans ->
  String.length (NiftiImage3DDeformation.types_of trans) = List.length trans /\
  forall i n, nth_error trans i = Some n ->
              String.get i (NiftiImage3DDeformation.types_of trans) = kind_digit (cls n).
Proof.
  induction 1 as [|n trans [d Hd] _ [IHlen IHget]].
  - split; [reflexivity|]. intros [|i] n; discriminate.
  - assert (Hn : isinstance n C_Transformation = true).
    { destruct n as [[] ? ?]; cbn in *; congruence. }
    rewrite types_of_cons, (type_code_digit n Hn), Hd.
    change (String d "" ++ NiftiImage3DDeformation.types_of trans)
      with (String d (NiftiImage3DDeformation.types_of trans)).
    split.
    + cbn [String.length List.length]. by rewrite IHlen.
    + intros [|i] m; cbn [nth_error String.get].
      * intros [= <-]. by rewrite Hd.
      * apply IHget.
Qed.

(** An instance of the abstract class itself passes the assertion of
    [compose_single_deformation] and gets no character. *)
Lemma types_of_abstract_instance h :
  all_isinstance [PyObj C_Transformation "SIRFRegTransformation" h] C_Transformation = true /\
  NiftiImage3DDeformation.types_of [PyObj C_Transformation "SIRFRegTransformation" h] = "".
Proof. split; reflexivity. Qed.

Section Coverage.
Context {W : Type} `{PyIUtilities W} `{PyIUtilitiesData W} `{SirfRegObjects W}
        `{SirfRegSetParameter W} `{SirfRegParameter W} `{SirfRegImages W}
        `{SirfRegHeaders W} `{SirfRegTransformations W} `{SirfRegMat44 W}
        `{SirfRegWeightedMean W} `{SirfRegSources W} `{SirfRegImageActions W}
        `{SirfRegMat44Actions W} `{SirfRegRegistration W} `{SirfRegResample W}
        `{SirfRegChannels W}.

(** ** What is passed to the native layer *)

(** X2. With 2 to 5 transformations, [compose_single_deformation] makes one
    native composition call: it passes the reference's handle, the number of
    transformations, the type string and the handles of the transformations
    in the order of the chain, padded with [None] to five. *)
Theorem compose_passes_chain (trans : list pyobj) (ref : pyobj) (w : W) :
  isinstance ref C_NiftiImage3D = true ->
  all_isinstance trans C_Transformation = true ->
  2 <= List.length trans <= 5 ->
  NiftiImage3DDeformation.compose_single_deformation trans ref w
  = (z <- __init__ C_NiftiImage3DDeformation;;
     h <- call (cSIRFReg_NiftiImage3DDeformation_compose_single_deformation
                  (handle ref) (Z.of_nat (List.length trans))
                  (NiftiImage3DDeformation.types_of trans)
                  (handle_at trans 0) (handle_at trans 1) (handle_at trans 2)
                  (handle_at trans 3) (handle_at trans 4));;
     check_status h;;
     ret (set_handle z h)) w.
Proof.
  intros Href Htrans Hlen.
  unfold NiftiImage3DDeformation.compose_single_deformation.
  rewrite Href, Htrans, !assert_true.
  destruct trans as [|t0 [|t1 [|t2 [|t3 [|t4 [|t5 rest]]]]]];
    cbn [List.length] in Hlen; try lia; reflexivity.
Qed.

(** X3. With 1 to 5 images, [dump_headers] makes one native call: it passes
    the number of images and their handles in the order of the list, padded
    with [None] to five. *)
Theorem dump_headers_passes_list (to_dump : list pyobj) (w : W) :
  all_isinstance to_dump C_NiftiImage = true ->
  1 <= List.length to_dump <= 5 ->
  NiftiImage.dump_headers to_dump w
  = (h <- call (cSIRFReg_NiftiImage_dump_headers
                  (Z.of_nat (List.length to_dump))
                  (handle_at to_dump 0) (handle_at to_dump 1) (handle_at to_dump 2)
                  (handle_at to_dump 3) (handle_at to_dump 4));;
     try_calling h) w.
Proof.
  intros Hdump Hlen. unfold NiftiImage.dump_headers.
  rewrite Hdump, assert_true.
  destruct to_dump as [|d0 [|d1 [|d2 [|d3 [|d4 [|d5 rest]]]]]];
    cbn [List.length] in Hlen; try lia; reflexivity.
Qed.

(** ** The class of what the wrapper returns *)

Lemma returns_ret {A} (a : A) (post : A -> Prop) : post a -> returns (W:=W) (ret a) post.
Proof. intros Ha w a' w' [= <- _]. exact Ha. Qed.

Lemma returns_raise {A} e (post : A -> Prop) : returns (W:=W) (raise e) post.
Proof. intros w a w' [=]. Qed.

Lemma returns_bind {A B} (m : M W A) (k : A -> M W B) (mid : A -> Prop) (post : B -> Prop) :
  returns m mid -> (forall a, mid a -> returns (k a) post) -> returns (x <- m;; k x) post.
Proof.
  intros Hm Hk w b w'. unfold bind.
  destruct (m w) as [[a|e] w1] eqn:Em; [|discriminate].
  intros Eb. exact (Hk a (Hm _ _ _ Em) _ _ _ Eb).
Qed.

Lemma returns_any {A} (m : M W A) : returns m (fun _ => True).
Proof. by intros w a w' _. Qed.

(** A statement whose result does not matter, then the rest. *)
Lemma returns_then {A B} (m : M W A) (k : A -> M W B) (post : B -> Prop) :
  (forall a, returns (k a) post) -> returns (x <- m;; k x) post.
Proof. intros Hk. apply (returns_bind m k (fun _ => True)); [apply returns_any|auto]. Qed.

Lemma typed_set_handle c o h : typed c o -> typed c (set_handle o h).
Proof. by intros [? ?]. Qed.

Lemma returns_init c : returns (W:=W) (__init__ c) (typed c).
Proof.
  intros w o w' E. apply init_constructed in E. destruct E. by split.
Qed.

(** The shape of most getters: an empty object of class [c], a native call
    for the handle, a status check, the object with the new handle. *)
Lemma returns_wrapped c (native : W -> ptr * W) :
  returns (o <- __init__ c;; h <- call native;; check_status h;; ret (set_handle o h))
          (typed c).
Proof.
  eapply returns_bind; [apply returns_init|]. intros o Ho.
  apply returns_then. intros h. apply returns_then. intros _.
  by apply returns_ret, typed_set_handle.
Qed.

Lemma returns_deep_copy self :
  isinstance self C_NiftiImage = true -> constructed self ->
  returns (NiftiImage.deep_copy self) (typed (cls self)).
Proof.
  intros HA Hn.
  assert (Hc : In (cls self) image_classes).
  { apply isinstance_NiftiImage in HA. unfold image_classes.
    destruct HA as [->|[->|[->|[->| ->]]]]; cbn; tauto. }
  destruct self as [c n h]. unfold constructed in Hn. cbn [cls name] in *. subst n.
  intros w o w'. rewrite (deep_copy_dispatch c h w Hc). revert w o w'.
  apply returns_then. intros _.
  eapply returns_bind; [apply returns_init|]. intros image Hi.
  apply returns_then. intros s. apply returns_then. intros _.
  by apply returns_ret.
Qed.

Lemma returns_maths code self other :
  isinstance self C_NiftiImage = true -> constructed self ->
  returns (NiftiImage.maths code self other) (typed (cls self)).
Proof.
  intros HA Hn. unfold NiftiImage.maths.
  eapply returns_bind; [by apply returns_deep_copy|]. intros z Hz.
  apply returns_then. intros _. apply returns_then. intros _.
  by apply returns_ret.
Qed.

Lemma returns_tensor_init c msg src1 src2 src3 :
  returns (NiftiImage3DTensor.tensor_init c msg src1 src2 src3) (typed c).
Proof.
  unfold NiftiImage3DTensor.tensor_init.
  apply returns_then. intros h. apply returns_then. intros _.
  by apply returns_ret.
Qed.

(** X4. Every call of the wrapper that returns an object returns an instance
    of the class the call is written for, and its [name] is the one the
    constructor of that class sets: constructors with any source, copies and
    arithmetic (the receiver's class), composition and materialisation
    (deformation fields), the getters of the registration, resampling and
    weighted-mean classes, and the matrix operations. *)
Theorem returned_objects_are_constructed (f : factory) (w : W) (o : pyobj) (w' : W) :
  receiver_constructed f ->
  make f w = (Ok o, w') ->
  cls o = made_class f /\ constructed o.
Proof.
  intros Hrec Hrun.
  assert (Ht : typed (made_class f) o).
  { revert w o w' Hrun. change (returns (make f) (typed (made_class f))).
    destruct f; cbn [make made_class receiver_constructed] in *.
    - apply returns_init.
    - unfold NiftiImage.__init__. apply returns_then. intros h.
      apply returns_then. intros _. by apply returns_ret.
    - unfold NiftiImage3D.__init__. apply returns_then. intros h.
      apply returns_then. intros _. by apply returns_ret.
    - apply returns_tensor_init.
    - apply returns_tensor_init.
    - apply returns_tensor_init.
    - unfold Mat44.__init__. apply returns_then. intros h.
      apply returns_then. intros _. by apply returns_ret.
    - unfold Transformation.get_as_deformation_field.
      apply returns_then. intros _. apply returns_wrapped.
    - destruct Hrec. by apply returns_deep_copy.
    - destruct Hrec. by apply returns_maths.
    - destruct Hrec. by apply returns_maths.
    - destruct Hrec as [HA Hn]. unfold NiftiImage.__mul__.
      eapply returns_bind; [by apply returns_deep_copy|]. intros z Hz.
      do 4 (apply returns_then; intros ?). by apply returns_ret.
    - unfold NiftiImage3DDeformation.compose_single_deformation.
      apply returns_then. intros _. apply returns_then. intros _.
      destruct trans as [|t0 [|t1 rest]].
      + eapply returns_bind; [apply returns_init|]. intros z Hz.
        apply returns_then. intros h. apply returns_then. intros _.
        by apply returns_ret, typed_set_handle.
      + unfold Transformation.get_as_deformation_field.
        apply returns_then. intros _. apply returns_wrapped.
      + eapply returns_bind; [apply returns_init|]. intros z Hz.
        apply returns_then. intros h. apply returns_then. intros _.
        by apply returns_ret, typed_set_handle.
    - apply returns_wrapped.
    - apply returns_wrapped.
    - apply returns_wrapped.
    - apply returns_wrapped.
    - apply returns_wrapped.
    - unfold NiftyAladinSym.get_transformation_matrix_fwrd.
      apply returns_then. intros _.
      eapply returns_bind; [apply returns_init|]. intros tm Htm.
      apply returns_then. intros h. by apply returns_ret, typed_set_handle.
    - unfold NiftyAladinSym.get_transformation_matrix_back.
      apply returns_then. intros _.
      eapply returns_bind; [apply returns_init|]. intros tm Htm.
      apply returns_then. intros h. by apply returns_ret, typed_set_handle.
    - unfold NiftyResample.get_output.
      eapply returns_bind; [apply returns_init|]. intros image Hi.
      apply returns_then. intros h. apply returns_then. intros _.
      by apply returns_ret, typed_set_handle.
    - unfold ImageWeightedMean.get_output.
      eapply returns_bind; [apply returns_init|]. intros image Hi.
      apply returns_then. intros h. apply returns_then. intros _.
      by apply returns_ret, typed_set_handle.
    - unfold Mat44.__mul__. apply returns_then. intros _. apply returns_wrapped.
    - unfold Mat44.deep_copy. apply returns_then. intros _. apply returns_wrapped.
    - unfold Mat44.get_identity.
      eapply returns_bind; [apply returns_init|]. intros mat Hm.
      apply returns_then. intros h. by apply returns_ret, typed_set_handle.
    - unfold Mat44.fill. apply returns_then. intros _.
      assert (Hself : typed (cls self) self) by (by split).
      destruct src.
      + apply returns_then. intros _. apply returns_then. intros h.
        by apply returns_ret, typed_set_handle.
      + apply returns_then. intros h. apply returns_then. intros _.
        by apply returns_ret. }
  destruct Ht as [Hc Hn]. split; [done|]. unfold constructed. by rewrite Hn, Hc.
Qed.

(** ** Reading a tuple of floats *)

Lemma fold_left_snoc {A B} (f : A -> B) (l : list A) (acc : list B) :
  fold_left (fun value i => (value ++ [f i])%list) l acc = (acc ++ map f l)%list.
Proof.
  revert acc. induction l as [|a l IH]; intros acc; cbn.
  - by rewrite app_nil_r.
  - by rewrite IH, <- app_assoc.
Qed.

Lemma range_length n : List.length (range n) = Z.to_nat n.
Proof. unfold range. by rewrite length_map, length_seq. Qed.

Lemma range_nth n i : (i < Z.to_nat n)%nat -> nth_error (range n) i = Some (Z.of_nat i).
Proof.
  intros Hi. unfold range. rewrite nth_error_map.
  assert (E : nth_error (seq 0 (Z.to_nat n)) i = Some i).
  { rewrite (nth_error_nth' _ 0%nat) by (by rewrite length_seq).
    by rewrite seq_nth. }
  by rewrite E.
Qed.

(** X5. When the engine answers the query without error, [_float_pars]
    returns a tuple of [n] items (none for [n <= 0]); item [i] is what
    [floatDataItemFromHandle] reads at index [i] of the answer, read before
    the answer is released; the handle of the answer is released, once. *)
Theorem float_pars_items (hs : ptr) (set par : string) (n : Z) (w w1 : W) (h : ptr) :
  cSIRFReg_parameter hs set par w = (h, w1) ->
  executionStatus h w1 = 0%Z ->
  exists value,
    _float_pars hs set par n w = (Ok value, deleteDataHandle h w1) /\
    List.length value = Z.to_nat n /\
    forall i, (i < Z.to_nat n)%nat ->
              nth_error value i = Some (floatDataItemFromHandle h (Z.of_nat i) w1).
Proof.
  intros Ecall Hst.
  exists (map (fun i => floatDataItemFromHandle h i w1) (range n)).
  split; [|split].
  - unfold _float_pars, bind, call, check_status, release, ret.
    rewrite Ecall, Hst. cbn. by rewrite fold_left_snoc.
  - by rewrite length_map, range_length.
  - intros i Hi. by rewrite nth_error_map, range_nth.
Qed.

(** ** The constructor of MessageRedirector *)

Lemma open_sink_text channel msg dest (w : W) :
  is_text dest = true ->
  exists sink w', MessageRedirector.open_sink channel msg dest w = (Ok sink, w').
Proof.
  intros Ht. unfold MessageRedirector.open_sink.
  destruct dest as [|s|]; [| |discriminate].
  - destruct (MessageRedirector.is_stream ""); unfold bind, call, ret;
      [destruct (newTextPrinter "" w)|destruct (newTextWriter "" w)]; eauto.
  - destruct (MessageRedirector.is_stream s); unfold bind, call, ret;
      [destruct (newTextPrinter s w)|destruct (newTextWriter s w)]; eauto.
Qed.

Lemma open_sink_other channel msg (w : W) :
  MessageRedirector.open_sink channel msg Dest_other w = (Raise (error (Literal msg)), w).
Proof. reflexivity. Qed.

(** X6. The constructor of [MessageRedirector] fails exactly when one of its
    three arguments is neither [None] nor a string; the error then names the
    first such argument, in the order info, warn, errr.  It checks no status
    of the engine: with three acceptable arguments it always returns. *)
Theorem redirector_rejects_first_wrong (info warn errr : destination) (w : W) :
  match first_wrong info warn errr with
  | Some which =>
      fst (MessageRedirector.__init__ info warn errr w) =
      Raise (error (Literal ("wrong " ++ which ++
                             " argument for MessageRedirector constructor")))
  | None => exists r, fst (MessageRedirector.__init__ info warn errr w) = Ok r
  end.
Proof.
  unfold first_wrong, MessageRedirector.__init__.
  destruct (is_text info) eqn:Hi; cbn [negb].
  2:{ destruct info; try discriminate. reflexivity. }
  destruct (open_sink_text 0 "wrong info argument for MessageRedirector constructor"
              info w Hi) as (si & w1 & E1).
  destruct (is_text warn) eqn:Hw; cbn [negb].
  2:{ destruct warn; try discriminate. unfold bind at 1. by rewrite E1. }
  destruct (open_sink_text 1 "wrong warn argument for MessageRedirector constructor"
              warn w1 Hw) as (sw & w2 & E2).
  destruct (is_text errr) eqn:He; cbn [negb].
  2:{ destruct errr; try discriminate. unfold bind at 1. rewrite E1.
      unfold bind at 1. by rewrite E2. }
  destruct (open_sink_text 2 "wrong errr argument for MessageRedirector constructor"
              errr w2 He) as (se & w3 & E3).
  unfold bind at 1. rewrite E1. unfold bind at 1. rewrite E2.
  unfold bind at 1. rewrite E3. cbn. eauto.
Qed.

(** ** Exceptions that leave the engine as it was *)

Section Exceptions.
Variable bad : exn -> Prop.
Hypothesis status_not_bad : forall s, ~ bad (error (Status s)).
Hypothesis TypeError_not_bad : ~ bad TypeError.
Hypothesis UnboundLocalError_not_bad : ~ bad UnboundLocalError.

Lemma never_ret {A} (a : A) : never (W:=W) bad (ret a).
Proof. intros w e w' [=]. Qed.

Lemma never_call {A} (f : W -> A * W) : never bad (call f).
Proof. intros w e w'. unfold call. destruct (f w). intros [=]. Qed.

Lemma never_read {A} (f : W -> A) : never bad (fun w => (Ok (f w), w)).
Proof. intros w e w' [=]. Qed.

Lemma never_write (f : W -> W) : never bad (fun w => (Ok tt, f w)).
Proof. intros w e w' [=]. Qed.

Lemma never_release h : never bad (release h).
Proof. apply never_write. Qed.

Lemma never_check_status h : never bad (check_status h).
Proof.
  intros w e w'. unfold check_status.
  destruct (executionStatus h w =? 0)%Z; intros [= <- _]. apply status_not_bad.
Qed.

Lemma never_raise {A} e : ~ bad e -> never (W:=W) (A:=A) bad (raise e).
Proof. intros He w e' w' [= <- _]. exact He. Qed.

Lemma never_bind {A B} (m : M W A) (k : A -> M W B) :
  never bad m -> (forall a, never bad (k a)) -> never bad (x <- m;; k x).
Proof.
  intros Hm Hk w e w'. unfold bind.
  destruct (m w) as [[a|e1] w1] eqn:Em.
  - apply Hk.
  - intros [= <- <-]. exact (Hm _ _ _ Em).
Qed.

Lemma never_init c : never bad (__init__ c).
Proof.
  destruct c; cbn [__init__];
    first [apply never_ret
          |apply never_bind; [apply never_call|intros h];
           apply never_bind; [apply never_check_status|intros _]; apply never_ret].
Qed.

Lemma unspoilt_never {A} (m : M W A) : never bad m -> unspoilt bad m.
Proof. intros Hm w e w' E Hb. destruct (Hm _ _ _ E Hb). Qed.

Lemma unspoilt_raise {A} e : unspoilt (W:=W) (A:=A) bad (raise e).
Proof. by intros w e' w' [= _ <-] _. Qed.

Lemma unspoilt_assert b : unspoilt (W:=W) bad (assert b).
Proof. intros w e w'. unfold assert. destruct b; by intros [= _ <-]. Qed.

(** A failed [assert] in front of [k] leaves the state alone; a passed one
    hands the same state to [k]. *)
Lemma unspoilt_assert_bind {B} b (k : M W B) :
  unspoilt bad k -> unspoilt bad (assert b;; k).
Proof.
  intros Hk w e w'. unfold bind, assert. destruct b; cbn.
  - apply Hk.
  - by intros [= _ <-].
Qed.

Lemma unspoilt_bind {A B} (m : M W A) (k : A -> M W B) :
  unspoilt bad m -> (forall a, never bad (k a)) -> unspoilt bad (x <- m;; k x).
Proof.
  intros Hm Hk w e w'. unfold bind.
  destruct (m w) as [[a|e1] w1] eqn:Em.
  - intros E Hb. destruct (Hk _ _ _ _ E Hb).
  - intros [= <- <-]. exact (Hm _ _ _ Em).
Qed.

Ltac never_tac :=
  repeat first
    [ progress cbv beta iota
    | apply never_ret | apply never_call | apply never_release
    | apply never_init | apply never_check_status
    | (apply never_raise; assumption)
    | apply never_bind; [|intros ?]
    | match goal with |- never _ (match ?x with _ => _ end) => destruct x end
    | apply never_read | apply never_write ].

Ltac unspoilt_tac :=
  cbv beta iota;
  first
    [ apply unspoilt_never; solve [never_tac]
    | apply unspoilt_raise
    | apply unspoilt_assert_bind; unspoilt_tac
    | apply unspoilt_bind; [unspoilt_tac | intros ?; solve [never_tac]]
    | match goal with
      | |- unspoilt _ (match ?x with _ => _ end) => destruct x; unspoilt_tac
      end ].

Lemma invoke_unspoilt (m : factory + procedure) :
  is_compose m = false -> unspoilt bad (invoke m).
Proof.
  intros Hm. destruct m as [f|p]; [destruct f|destruct p]; try discriminate Hm;
    unfold_wrapper; unspoilt_tac.
Qed.

Lemma compose_unspoilt trans ref :
  (forall s, ~ bad (error (Literal s))) ->
  unspoilt bad (invoke (inl (F_compose_single_deformation trans ref))).
Proof.
  intros Hl. unfold_wrapper.
  apply unspoilt_bind; [|intros ?; apply never_ret].
  do 2 apply unspoilt_assert_bind.
  pose proof (Hl "compose_single_deformation only implemented for up to 5 transformations.").
  destruct trans as [|t0 [|t1 rest]]; unspoilt_tac.
Qed.
End Exceptions.

(** X7. A failed [assert] never comes after a native call: whatever call of
    the wrapper raises [AssertionError], the engine is in the state it was
    in before the call. *)
Theorem assertions_precede_the_engine (m : factory + procedure) (w : W) :
  fst (invoke m w) = Raise AssertionError ->
  snd (invoke m w) = w.
Proof.
  intros E. destruct (invoke m w) as [r w'] eqn:Em. cbn in *. subst r.
  assert (Hs : forall s, ~ is_AssertionError (error (Status s))) by (by intros s).
  assert (Ht : ~ is_AssertionError TypeError) by done.
  assert (Hu : ~ is_AssertionError UnboundLocalError) by done.
  destruct (is_compose m) eqn:Hc.
  - destruct m as [[]|]; try discriminate Hc.
    refine (compose_unspoilt is_AssertionError Hs _ _ _ _ _ _ Em eq_refl).
    by intros s.
  - exact (invoke_unspoilt is_AssertionError Hs Ht Hu m Hc _ _ _ Em eq_refl).
Qed.

(** X8. The errors the wrapper raises itself for a source or an operand it
    does not accept come before any native call, except in
    [compose_single_deformation]: whatever other call raises [error] with a
    message of the wrapper, the engine is in the state it was in before. *)
Theorem wrapper_errors_precede_the_engine (m : factory + procedure) (w : W) (s : string) :
  is_compose m = false ->
  fst (invoke m w) = Raise (error (Literal s)) ->
  snd (invoke m w) = w.
Proof.
  intros Hc E. destruct (invoke m w) as [r w'] eqn:Em. cbn in *. subst r.
  assert (Hs : forall s, ~ is_wrapper_error (error (Status s))) by (by intros ? [? [=]]).
  assert (Ht : ~ is_wrapper_error TypeError) by (by intros [? [=]]).
  assert (Hu : ~ is_wrapper_error UnboundLocalError) by (by intros [? [=]]).
  refine (invoke_unspoilt is_wrapper_error Hs Ht Hu m Hc _ _ _ Em _).
  by exists s.
Qed.

(** ** Transformations given to the resampler *)

(** X9. The resampler and the composition agree on the kinds of
    transformations: [add_transformation_affine], [_disp] and [_def] pass the
    tags affine, displacement and deformation for exactly the objects that
    [compose_single_deformation] writes as 1, 2 and 3 in its type string; for
    any other object they raise [AssertionError] and call nothing. *)
Theorem adders_agree_with_type_codes
  (add : pyobj -> pyobj -> M W unit) (tag : string) (digit : ascii)
  (self src : pyobj) (w : W) :
  In (add, tag, digit) adders ->
  add self src w =
  if String.eqb (NiftiImage3DDeformation.type_code src) (String digit "")
  then (h <- call (cSIRFReg_SIRFRegNiftyResample_add_transformation
                     (handle self) (handle src) tag);;
        try_calling h) w
  else (Raise AssertionError, w).
Proof.
  intros Hin. unfold adders in Hin. cbn [In] in Hin.
  destruct Hin as [E|[E|[E|[]]]]; injection E as <- <- <-;
    unfold NiftyResample.add_transformation_affine,
           NiftyResample.add_transformation_disp,
           NiftyResample.add_transformation_def,
           NiftiImage3DDeformation.type_code;
    destruct src as [[] n h]; reflexivity.
Qed.

(** ** Operands that are not numbers *)

(** X10. An image times an image, and an image plus or minus an object that
    is not an image, raise [TypeError]; by then the copy of the receiver has
    been made in the engine, and the state is the one the copy left. *)
Theorem object_operand_rejected_after_copy
  (op : binop) (self o z : pyobj) (w w1 : W) :
  op = Mul \/ isinstance o C_NiftiImage = false ->
  NiftiImage.deep_copy self w = (Ok z, w1) ->
  apply_binop op self (OObj o) w = (Raise TypeError, w1).
Proof.
  intros Hop Ecopy.
  destruct op; cbn [apply_binop];
    unfold NiftiImage.__add__, NiftiImage.__sub__, NiftiImage.__mul__, NiftiImage.maths;
    unfold bind at 1; rewrite Ecopy; cbn [NiftiImage.operand_is_image];
    try (destruct Hop as [[=]|Hop]; rewrite Hop); reflexivity.
Qed.

(** ** Copying an object that was renamed *)

(** X11. [deep_copy] chooses the class of the copy by the [name] of the
    receiver; for a receiver with a handle whose name is none of the five
    names of the image classes no branch binds the copy, and the call raises
    [UnboundLocalError] without a native call. *)
Theorem deep_copy_unknown_name (self : pyobj) (w : W) :
  is_not_None (handle self) = true ->
  ~ In (name self) (map class_name image_classes) ->
  NiftiImage.deep_copy self w = (Raise UnboundLocalError, w).
Proof.
  intros Hh Hn. unfold NiftiImage.deep_copy. rewrite Hh.
  assert (E : forall s, In s (map class_name image_classes) ->
                        String.eqb (name self) s = false).
  { intros s Hs. apply String.eqb_neq. intros Heq. apply Hn. by rewrite Heq. }
  unfold bind at 1. cbn [assert ret].
  rewrite !E by (cbn; tauto). reflexivity.
Qed.
End Coverage.

(** * The wrapper on the journalling engine *)

Section OnJournal.
Import Journal.

Lemma length_snoc {A} (l : list A) (a : A) : List.length (l ++ [a]) = S (List.length l).
Proof. rewrite length_app. cbn. lia. Qed.

Ltac branch :=
  match goal with
  | |- context [if ?b then _ else _] => destruct b eqn:?
  | |- context [match ?x with Some _ => _ | None => _ end] => destruct x eqn:?
  | |- context [match ?x with [] => _ | _ :: _ => _ end] => destruct x eqn:?
  | |- context [match ?x with SrcObj _ => _ | SrcStr _ => _ end] => destruct x eqn:?
  | |- context [match ?x with Arg_None => _ | _ => _ end] => destruct x eqn:?
  | |- context [match ?x with Fill_ndarray _ _ => _ | Fill_num _ => _ end] =>
      destruct x eqn:?
  | |- context [match ?x with OObj _ => _ | ONum _ => _ end] => destruct x eqn:?
  end.

(** Run the wrapper on a journal, along every path. *)
Ltac run_on_journal :=
  unfold_wrapper;
  repeat first
    [ progress cbv beta iota delta
        [bind call ret raise assert check_status release __init__]
    | progress cbn
    | branch ];
  rewrite ?length_snoc.

(** Name the entries written. *)
Ltac written :=
  eexists; split;
  [split; [cbn [calls write]; rewrite <- ?List.app_assoc; cbn [app];
           first [reflexivity | symmetry; apply List.app_nil_r]
          |reflexivity]
  |cbn [deleted obtained closed_channels]].

Ltac distinct :=
  repeat first
    [ apply NoDup_nil_2
    | apply NoDup_cons_2;
      [let Hin := fresh in
       intros Hin;
       repeat (apply elem_of_cons in Hin as [Hin|Hin]; [simplify_eq; lia|]);
       by apply elem_of_nil in Hin
      |] ].

Ltac included :=
  let x := fresh in let Hx := fresh in
  intros x Hx; cbn [In] in *; intuition (subst; auto).

(** X12. What a call that returns no object does with handles, whether it
    returns or raises: it passes to [deleteDataHandle] only handles the
    engine answered with during the call (never a handle of the caller, so
    never the handle of a wrapper object), and no handle twice; and when it
    returns, it has released every handle it obtained. *)
Theorem procedures_release_what_they_obtain (p : procedure) (j : journal) :
  exists new,
    extends j (snd (perform p j)) new /\
    NoDup (deleted new) /\
    incl (deleted new) (obtained (List.length (calls j)) new) /\
    (forall u, fst (perform p j) = Ok u ->
               Permutation (deleted new) (obtained (List.length (calls j)) new)).
Proof.
  destruct p; run_on_journal; written;
    (split; [distinct|split; [included|]]);
    intros u Hu; try discriminate Hu;
    first [reflexivity | apply perm_swap].
Qed.

(** X13. What a call that returns an object does with handles, whether it
    returns or raises: it passes to [deleteDataHandle] only handles the
    engine answered with during the call, no handle twice, and never the
    handle of the object it returns. *)
Theorem factories_keep_what_they_return (f : factory) (j : journal) :
  receiver_exists f j ->
  exists new,
    extends j (snd (make f j)) new /\
    NoDup (deleted new) /\
    incl (deleted new) (obtained (List.length (calls j)) new) /\
    (forall o, fst (make f j) = Ok o -> ~ In (handle o) (deleted new)).
Proof.
  intros Hrec.
  destruct f as [[]| | | | | | | | | | | | | | | | | | | | | | | | |];
    cbn [receiver_exists] in Hrec; run_on_journal; written;
    (split; [distinct|split; [included|]]);
    intros res Hres; try discriminate Hres; injection Hres as <-;
    cbn [handle set_handle In];
    intuition (try discriminate; try (simplify_eq; lia)).
  match goal with
  | H : Some _ = handle self |- _ => symmetry in H; specialize (Hrec _ H); lia
  end.
Qed.

(** X14. The getters that build their result from an answer of the engine
    first create an empty object of the class of the result; when they
    return, the handle of that empty object is not the handle of the result
    and has not been passed to [deleteDataHandle]: no wrapper object refers
    to it any more. *)
Theorem getters_drop_the_empty_object (f : factory) (j : journal) (o : pyobj) :
  replaces_handle f = true ->
  fst (make f j) = Ok o ->
  exists new,
    extends j (snd (make f j)) new /\
    nth_error new 0 =
      Some (E_call "cSIRFReg_newObject" [A_str (class_name (made_class f))]) /\
    handle o <> Some (List.length (calls j)) /\
    ~ In (Some (List.length (calls j))) (deleted new).
Proof.
  intros Hf.
  destruct f; try discriminate Hf; cbn [made_class class_name]; run_on_journal;
    intros Ho; try discriminate Ho; injection Ho as <-; written;
    cbn [handle set_handle In nth_error];
    (split; [reflexivity|]);
    (split; [intros [= E]; lia|]);
    intuition (try discriminate; try (simplify_eq; lia)).
Qed.

Lemma passed b (n : nat) (j : journal) :
  ((if failing j n then 1 else 0) =? 0)%Z = b -> failing j n = negb b.
Proof. destruct (failing j n), b; cbn; congruence. Qed.

(** X15. Every object returned by a call other than the matrix getters of
    the registration, [Mat44.get_identity] and [Mat44.fill] has a handle that
    went through [check_status]: on the journal, its status is 0. *)
Theorem returned_handles_are_checked (f : factory) (j : journal) (o : pyobj) :
  checks_result f = true ->
  fst (make f j) = Ok o ->
  executionStatus (handle o) (snd (make f j)) = 0%Z.
Proof.
  intros Hf.
  destruct f as [[]| | | | | | | | | | | | | | | | | | | | | | | | |];
    try discriminate Hf; run_on_journal;
    intros Ho; try discriminate Ho; injection Ho as <-;
    cbn [handle set_handle status failing write];
    repeat match goal with
           | H : ((if failing _ _ then 1 else 0) =? 0)%Z = _ |- _ =>
               apply passed in H; cbn [negb] in H
           end;
    try reflexivity;
    rewrite ?length_snoc in *;
    repeat match goal with
           | H : failing _ _ = _ |- _ => rewrite H
           end;
    reflexivity.
Qed.

Lemma unchecked_getter_run (f : factory) (j : journal) :
  unchecked f = true ->
  (forall self src, f <> F_Mat44_fill self src) ->
  failing j (List.length (calls j)) = false ->
  failing j (S (List.length (calls j))) = true ->
  exists o, fst (make f j) = Ok o /\ executionStatus (handle o) (snd (make f j)) <> 0%Z.
Proof.
  intros Hf Hfill H0 H1.
  destruct f; try discriminate Hf; try (by destruct (Hfill self src));
    cbn [unchecked] in Hf; unfold_wrapper;
    cbv beta iota delta [bind call ret raise assert check_status release __init__];
    rewrite ?Hf; cbn; rewrite H0; cbn; rewrite ?length_snoc;
    (eexists; split; [reflexivity|]); cbn; by rewrite H1.
Qed.

Lemma unchecked_fill_run (self : pyobj) (shape : list Z) (cells : list pyfloat)
  (j : journal) :
  unchecked (F_Mat44_fill self (Fill_ndarray shape cells)) = true ->
  failing j (List.length (calls j)) = true ->
  exists o, fst (make (F_Mat44_fill self (Fill_ndarray shape cells)) j) = Ok o /\
            executionStatus (handle o)
              (snd (make (F_Mat44_fill self (Fill_ndarray shape cells)) j)) <> 0%Z.
Proof.
  intros Hf H0. cbn [unchecked] in Hf. apply andb_true_iff in Hf as [Hh Hs].
  unfold_wrapper.
  cbv beta iota delta [bind call ret raise assert check_status release].
  rewrite Hh, Hs. cbn. eexists; split; [reflexivity|]. cbn. by rewrite H0.
Qed.

(** X16. The four calls that do not check what the engine answers return it
    as it is: with arguments that pass the assertions, there is an engine
    failure for which the call still returns an object, whose handle carries
    the failed status. *)
Theorem unchecked_results_may_have_failed (f : factory) (calls0 : list entry) :
  unchecked f = true ->
  exists failing0 o,
    fst (make f (Build calls0 failing0)) = Ok o /\
    executionStatus (handle o) (snd (make f (Build calls0 failing0))) <> 0%Z.
Proof.
  intros Hf.
  destruct (match f with F_Mat44_fill _ _ => true | _ => false end) eqn:Efill.
  - destruct f; try discriminate Efill.
    destruct src as [shape cells|x]; [|discriminate Hf].
    exists (fun n => Nat.eqb n (List.length calls0)).
    apply unchecked_fill_run; [exact Hf|]. cbn. apply Nat.eqb_refl.
  - exists (fun n => Nat.eqb n (S (List.length calls0))).
    apply unchecked_getter_run; [exact Hf| | |].
    + intros self src ->. discriminate Efill.
    + cbn. apply Nat.eqb_neq. lia.
    + cbn. apply Nat.eqb_refl.
Qed.

(** X17. A procedure that fails on a status check leaks: when a call other
    than the destructor of [MessageRedirector] and [create_from_3D_image]
    raises the error of [check_status], it has obtained at least one handle
    from the engine and has released none. *)
Theorem failed_procedures_release_nothing (p : procedure) (j : journal) (s : string) :
  checks_again p = false ->
  fst (perform p j) = Raise (error (Status s)) ->
  exists new,
    extends j (snd (perform p j)) new /\
    obtained (List.length (calls j)) new <> [] /\
    deleted new = [].
Proof.
  intros Hp.
  destruct p; try discriminate Hp; run_on_journal;
    intros Hs; try discriminate Hs; written;
    (split; [discriminate|reflexivity]).
Qed.

(** ** The life of a MessageRedirector *)

Lemma open_sink_run channel msg dest (j : journal) :
  is_text dest = true ->
  MessageRedirector.open_sink channel msg dest j =
  (Ok (Some (List.length (calls j)),
       if MessageRedirector.is_stream (text_of dest) then 0%Z else 1%Z),
   write (E_open channel (Some (List.length (calls j))))
     (write (E_call (sink_maker (text_of dest)) [A_str (text_of dest)]) j)).
Proof.
  intros Ht. unfold MessageRedirector.open_sink, sink_maker.
  destruct dest as [|s|]; [| |discriminate]; cbn [text_of];
    destruct (MessageRedirector.is_stream _); reflexivity.
Qed.

Lemma close_sink_run channel s (sink : ptr) (j : journal) :
  failing j (List.length (calls j)) = false ->
  MessageRedirector.close_sink channel sink
    (if MessageRedirector.is_stream s then 0%Z else 1%Z) j =
  (Ok tt,
   write (E_close channel sink)
     (write (E_delete (Some (List.length (calls j))))
        (write (E_call (sink_deleter s) [A_ptr sink]) j))).
Proof.
  intros Hok. unfold MessageRedirector.close_sink, sink_deleter.
  destruct (MessageRedirector.is_stream s); unfold_wrapper;
    cbv beta iota delta [bind call ret raise assert check_status release];
    cbn; by rewrite Hok.
Qed.

(** X18. A redirector that is constructed and then destroyed, on an engine
    that reports no failure: each of the channels 0, 1 and 2 is opened on a
    sink made for its destination (a printer for a stream name, a writer
    otherwise), and on destruction, channel by channel, that same sink is
    deleted by the function that matches the one that made it, the status
    handle of the deletion is released, and only then the channel is closed
    on the sink. *)
Theorem redirector_life (to_info to_warn to_errr : destination) (j : journal) :
  first_wrong to_info to_warn to_errr = None ->
  (forall n, failing j n = false) ->
  let n := List.length (calls j) in
  let run := (r <- MessageRedirector.__init__ to_info to_warn to_errr;;
              MessageRedirector.__del__ r) j in
  fst run = Ok tt /\
  extends j (snd run)
    [E_call (sink_maker (text_of to_info)) [A_str (text_of to_info)];
     E_open 0 (Some n);
     E_call (sink_maker (text_of to_warn)) [A_str (text_of to_warn)];
     E_open 1 (Some (2 + n)%nat);
     E_call (sink_maker (text_of to_errr)) [A_str (text_of to_errr)];
     E_open 2 (Some (4 + n)%nat);
     E_call (sink_deleter (text_of to_info)) [A_ptr (Some n)];
     E_delete (Some (6 + n)%nat);
     E_close 0 (Some n);
     E_call (sink_deleter (text_of to_warn)) [A_ptr (Some (2 + n)%nat)];
     E_delete (Some (9 + n)%nat);
     E_close 1 (Some (2 + n)%nat);
     E_call (sink_deleter (text_of to_errr)) [A_ptr (Some (4 + n)%nat)];
     E_delete (Some (12 + n)%nat);
     E_close 2 (Some (4 + n)%nat)].
Proof.
  intros Hargs Hok n run.
  unfold first_wrong in Hargs.
  destruct (is_text to_info) eqn:Hi; [|discriminate].
  destruct (is_text to_warn) eqn:Hw; [|discriminate].
  destruct (is_text to_errr) eqn:He; [|discriminate]. clear Hargs.
  destruct run as [r j'] eqn:Erun. subst run.
  revert Erun.
  unfold MessageRedirector.__init__, MessageRedirector.__del__.
  unfold bind at 1. unfold bind at 1. rewrite (open_sink_run _ _ _ _ Hi).
  unfold bind at 1. rewrite (open_sink_run _ _ _ _ Hw).
  unfold bind at 1. rewrite (open_sink_run _ _ _ _ He).
  cbv beta iota delta [ret]. cbn [fst snd info info_case warn warn_case errr errr_case].
  unfold bind at 1. rewrite close_sink_run by apply Hok.
  unfold bind at 1. rewrite close_sink_run by apply Hok.
  rewrite close_sink_run by apply Hok.
  intros [= <- <-].
  cbn [fst snd]. split; [reflexivity|]. split; [|reflexivity].
  cbn [calls write]. rewrite ?length_snoc. rewrite <- ?List.app_assoc. reflexivity.
Qed.

(** X19. Destruction stops at the first deletion the engine reports as
    failed: the channels closed are exactly those before it, in the order 0,
    1, 2, and the destructor returns only when all three deletions
    succeeded. *)
Theorem redirector_del_stops_at_first_failure (self : redirector) (j : journal) :
  let n := List.length (calls j) in
  let closed :=
    if failing j n then []
    else if failing j (3 + n) then [0%Z]
    else if failing j (6 + n) then [0%Z; 1%Z]
    else [0%Z; 1%Z; 2%Z] in
  exists new,
    extends j (snd (MessageRedirector.__del__ self j)) new /\
    closed_channels new = closed /\
    (fst (MessageRedirector.__del__ self j) = Ok tt <-> closed = [0%Z; 1%Z; 2%Z]).
Proof.
  cbv zeta.
  unfold MessageRedirector.__del__, MessageRedirector.close_sink.
  destruct (info_case self =? 0)%Z, (warn_case self =? 0)%Z, (errr_case self =? 0)%Z;
    unfold_wrapper;
    cbv beta iota delta [bind call ret raise assert check_status release];
    cbn;
    destruct (failing j (List.length (calls j))) eqn:E0; cbn; rewrite ?length_snoc;
    try (destruct (failing j (S (S (S (List.length (calls j)))))) eqn:E1; cbn;
         rewrite ?length_snoc;
         try (destruct (failing j (S (S (S (S (S (S (List.length (calls j))))))))) eqn:E2;
              cbn; rewrite ?length_snoc));
    written; (split; [reflexivity|]); split; intros; congruence.
Qed.
End OnJournal.

(** ** Concrete runs on the journal *)

Section JournalRuns.
Import Journal.

Let a_matrix := PyObj C_Mat44 "SIRFRegMat44" (Some 0).
Let a_reference := PyObj C_NiftiImage3D "NiftiImage3D" (Some 1).
Let an_image := PyObj C_NiftiImage "NiftiImage" (Some 2).
Let a_displacement :=
  PyObj C_NiftiImage3DDisplacement "NiftiImage3DDisplacement" (Some 3).
Let a_deformation :=
  PyObj C_NiftiImage3DDeformation "NiftiImage3DDeformation" (Some 4).
Let a_chain := [a_matrix; a_displacement; a_deformation].
Let an_image_without_handle := PyObj C_NiftiImage "NiftiImage" None.
Let a_renamed_image := PyObj C_NiftiImage "Image" (Some 2).
Let a_registration := Registration "SIRFRegNiftyAladinSym" (Some 5).

Lemma types_of_in_step_witness :
  Forall (fun n => is_Some (kind_digit (cls n))) a_chain /\
  String.length (NiftiImage3DDeformation.types_of a_chain) = 3%nat /\
  forall i n, nth_error a_chain i = Some n ->
              String.get i (NiftiImage3DDeformation.types_of a_chain) = kind_digit (cls n).
Proof.
  assert (Hchain : Forall (fun n => is_Some (kind_digit (cls n))) a_chain).
  { repeat (constructor; [eexists; reflexivity|]). constructor. }
  split; [exact Hchain|]. exact (types_of_in_step a_chain Hchain).
Defined.

Lemma compose_passes_chain_witness :
  NiftiImage3DDeformation.compose_single_deformation a_chain a_reference blank
  = (z <- __init__ C_NiftiImage3DDeformation;;
     h <- call (cSIRFReg_NiftiImage3DDeformation_compose_single_deformation
                  (Some 1) 3 "123" (Some 0) (Some 3) (Some 4) None None);;
     check_status h;;
     ret (set_handle z h)) blank.
Proof.
  apply (compose_passes_chain a_chain a_reference blank); [reflexivity|reflexivity|].
  cbn. lia.
Defined.

Lemma dump_headers_passes_list_witness :
  NiftiImage.dump_headers [an_image; a_reference] blank
  = (h <- call (cSIRFReg_NiftiImage_dump_headers 2 (Some 2) (Some 1) None None None);;
     try_calling h) blank.
Proof.
  apply (dump_headers_passes_list [an_image; a_reference] blank); [reflexivity|].
  cbn. lia.
Defined.

Lemma returned_objects_are_constructed_witness :
  cls (PyObj C_NiftiImage3DDisplacement "NiftiImage3DDisplacement" (Some 0))
  = made_class (F_sub a_displacement (OObj an_image)) /\
  constructed (PyObj C_NiftiImage3DDisplacement "NiftiImage3DDisplacement" (Some 0)).
Proof.
  apply (returned_objects_are_constructed
           (F_sub a_displacement (OObj an_image)) blank _
           (snd (make (F_sub a_displacement (OObj an_image)) blank)));
    [split; reflexivity|reflexivity].
Defined.

Lemma float_pars_items_witness :
  exists value,
    _float_pars (Some 0) "SIRFRegMat44" "row" 4 blank
    = (Ok value,
       deleteDataHandle (Some 0)
         (snd (cSIRFReg_parameter (Some 0) "SIRFRegMat44" "row" blank))) /\
    List.length value = 4%nat /\
    forall i, (i < 4)%nat ->
              nth_error value i
              = Some (floatDataItemFromHandle (Some 0) (Z.of_nat i)
                        (snd (cSIRFReg_parameter (Some 0) "SIRFRegMat44" "row" blank))).
Proof.
  apply (float_pars_items (Some 0) "SIRFRegMat44" "row" 4 blank); reflexivity.
Defined.

Lemma assertions_precede_the_engine_witness :
  snd (invoke (inr (P_NiftiImage_fill an_image_without_handle (S754_zero false))) blank)
  = blank.
Proof.
  apply (assertions_precede_the_engine
           (inr (P_NiftiImage_fill an_image_without_handle (S754_zero false))) blank).
  reflexivity.
Defined.

Lemma wrapper_errors_precede_the_engine_witness :
  snd (invoke (inl (F_NiftiImage3D (Arg_obj an_image))) blank) = blank.
Proof.
  apply (wrapper_errors_precede_the_engine
           (inl (F_NiftiImage3D (Arg_obj an_image))) blank
           "Wrong source in NiftiImage3D constructor");
    reflexivity.
Defined.

Lemma adders_agree_with_type_codes_witness :
  NiftyResample.add_transformation_disp an_image a_displacement blank =
  if String.eqb (NiftiImage3DDeformation.type_code a_displacement) "2"
  then (h <- call (cSIRFReg_SIRFRegNiftyResample_add_transformation
                     (Some 2) (Some 3) "displacement");;
        try_calling h) blank
  else (Raise AssertionError, blank).
Proof.
  apply (adders_agree_with_type_codes
           NiftyResample.add_transformation_disp "displacement" "2"%char
           an_image a_displacement blank).
  cbn. tauto.
Defined.

Lemma object_operand_rejected_after_copy_witness :
  apply_binop Mul an_image (OObj an_image) blank
  = (Raise TypeError, snd (NiftiImage.deep_copy an_image blank)).
Proof.
  apply (object_operand_rejected_after_copy Mul an_image an_image
           (PyObj C_NiftiImage "NiftiImage" (Some 0)) blank);
    [left; reflexivity|reflexivity].
Defined.

Lemma deep_copy_unknown_name_witness :
  NiftiImage.deep_copy a_renamed_image blank = (Raise UnboundLocalError, blank).
Proof.
  apply (deep_copy_unknown_name a_renamed_image blank); [reflexivity|].
  cbn. intros [E|[E|[E|[E|[E|[]]]]]]; discriminate E.
Defined.

Let one_object := write (E_call "cSIRFReg_newObject" [A_str "SIRFRegMat44"]) blank.
Let fill_with_zero := F_Mat44_fill a_matrix (Fill_num (S754_zero false)).

Lemma factories_keep_what_they_return_witness :
  receiver_exists fill_with_zero one_object /\
  exists new,
    extends one_object (snd (make fill_with_zero one_object)) new /\
    NoDup (deleted new) /\
    incl (deleted new) (obtained 1 new) /\
    (forall o, fst (make fill_with_zero one_object) = Ok o ->
               ~ In (handle o) (deleted new)).
Proof.
  assert (Hrec : receiver_exists fill_with_zero one_object).
  { cbn. intros n [= <-]. lia. }
  split; [exact Hrec|].
  exact (factories_keep_what_they_return fill_with_zero one_object Hrec).
Defined.

Lemma getters_drop_the_empty_object_witness :
  exists new,
    extends blank (snd (make (F_get_transformation_matrix_fwrd a_registration) blank)) new /\
    nth_error new 0 = Some (E_call "cSIRFReg_newObject" [A_str "SIRFRegMat44"]) /\
    Some 1%nat <> Some 0%nat /\
    ~ In (Some 0%nat) (deleted new).
Proof.
  apply (getters_drop_the_empty_object
           (F_get_transformation_matrix_fwrd a_registration) blank
           (PyObj C_Mat44 "SIRFRegMat44" (Some 1)));
    reflexivity.
Defined.

Lemma returned_handles_are_checked_witness :
  executionStatus (Some 0%nat) (snd (make (F_mul an_image (ONum (S754_zero false))) blank))
  = 0%Z.
Proof.
  apply (returned_handles_are_checked
           (F_mul an_image (ONum (S754_zero false))) blank
           (PyObj C_NiftiImage "NiftiImage" (Some 0)));
    reflexivity.
Defined.

Lemma unchecked_results_may_have_failed_witness :
  exists failing0 o,
    fst (make (F_get_transformation_matrix_back a_registration) (Build [] failing0)) = Ok o /\
    executionStatus (handle o)
      (snd (make (F_get_transformation_matrix_back a_registration) (Build [] failing0)))
    <> 0%Z.
Proof.
  apply (unchecked_results_may_have_failed
           (F_get_transformation_matrix_back a_registration) []).
  reflexivity.
Defined.

Let first_call_fails := Build [] (fun n => Nat.eqb n 0).

Lemma failed_procedures_release_nothing_witness :
  exists new,
    extends first_call_fails
      (snd (perform (P_NiftiImage_fill an_image (S754_zero false)) first_call_fails)) new /\
    obtained 0 new <> [] /\
    deleted new = [].
Proof.
  apply (failed_procedures_release_nothing
           (P_NiftiImage_fill an_image (S754_zero false)) first_call_fails "");
    reflexivity.
Defined.

Lemma redirector_life_witness :
  fst ((r <- MessageRedirector.__init__ Dest_None (Dest_str "stdout") (Dest_str "log.txt");;
        MessageRedirector.__del__ r) blank) = Ok tt /\
  extends blank
    (snd ((r <- MessageRedirector.__init__ Dest_None (Dest_str "stdout")
                  (Dest_str "log.txt");;
           MessageRedirector.__del__ r) blank))
    [E_call "newTextWriter" [A_str ""];
     E_open 0 (Some 0%nat);
     E_call "newTextPrinter" [A_str "stdout"];
     E_open 1 (Some 2%nat);
     E_call "newTextWriter" [A_str "log.txt"];
     E_open 2 (Some 4%nat);
     E_call "deleteTextWriter" [A_ptr (Some 0%nat)];
     E_delete (Some 6%nat);
     E_close 0 (Some 0%nat);
     E_call "deleteTextPrinter" [A_ptr (Some 2%nat)];
     E_delete (Some 9%nat);
     E_close 1 (Some 2%nat);
     E_call "deleteTextWriter" [A_ptr (Some 4%nat)];
     E_delete (Some 12%nat);
     E_close 2 (Some 4%nat)].
Proof.
  apply (redirector_life Dest_None (Dest_str "stdout") (Dest_str "log.txt") blank);
    reflexivity.
Defined.
End JournalRuns.
